(** * Input reconciliation of the hidden textarea

    A shallow embedding of [src/vs/editor/browser/controller/textAreaInput.ts]:
    the clipboard helpers ([ClipboardEventUtils]), the textarea adapter
    ([TextAreaWrapper]) and the listeners that [TextAreaInput] registers in
    its constructor.  Listeners are run-to-completion programs over the
    mutable world (the DOM node, the adapter, the fields of the engine); they
    are written in a small state/exception/trace monad so that each one reads
    like the TypeScript it embeds. *)

From stdpp Require Import gmap strings list.
From Stdlib Require Import ZArith Lia.

Local Open Scope Z_scope.

(** ** JavaScript strings

    A JavaScript string is a sequence of UTF-16 code units, which is what
    [length] and [charCodeAt] observe. *)
Module JsString.

Definition t : Type := list Z.

Definition length (s : t) : Z := Z.of_nat (List.length s).

(** [s.charCodeAt(i)]; [None] stands for the [NaN] of an index out of range. *)
Definition charCodeAt (s : t) (i : Z) : option Z :=
  if i <? 0 then None else s !! Z.to_nat i.

(** The code units of a string literal written in ASCII. *)
Definition lit (s : string) : t :=
  (fun a => Z.of_N (Ascii.N_of_ascii a)) <$> String.list_ascii_of_string s.

Definition eqb (a b : t) : bool := bool_decide (a = b).

End JsString.

Abbreviation jsstring := JsString.t.

(** Modelled from the spec: [strings.isHighSurrogate] of
    [vs/base/common/strings], which is not under src/.  The spec speaks of
    "one high-surrogate code unit"; UTF-16 fixes these as the code units
    D800..DBFF.  A [NaN] char code compares false. *)
Definition isHighSurrogate (charCode : option Z) : bool :=
  match charCode with
  | Some c => (0xD800 <=? c) && (c <=? 0xDBFF)
  | None => false
  end.

(** ** Data of the editor side *)

Record Position := mkPosition { lineNumber : Z; column : Z }.

(** [new Selection(l1, c1, l2, c2)]: the four coordinates, as passed. *)
Record Selection := mkSelection {
  selectionStartLineNumber : Z;
  selectionStartColumn : Z;
  positionLineNumber : Z;
  positionColumn : Z
}.

Record ITypeData := mkTypeData { text : jsstring; replaceCharCnt : Z }.

Inductive ReadFromTextArea := Type_ | Paste.

(** The snapshot of the textarea ([TextAreaState]): its fields are read by
    the listeners under these names. *)
Record TextAreaState := mkTextAreaState {
  value : jsstring;
  selectionStart : Z;
  selectionEnd : Z;
  selectionStartPosition : option Position;
  selectionEndPosition : option Position
}.

(** ** Platform objects *)

(** Whether the textarea is in the document, and if so whether it is
    [document.activeElement].  An element that is off-DOM cannot be active. *)
Inductive Attachment := OffDOM | InDOM (isActiveElement : bool).

Record HTMLTextAreaElement := mkElement {
  el_value : jsstring;
  el_selectionStart : Z;
  el_selectionEnd : Z;
  el_attachment : Attachment
}.

(** A clipboard data store ([DataTransfer], or IE's [window.clipboardData]):
    a map from format to data. *)
Abbreviation DataTransfer := (gmap string jsstring).

(** [d.getData(format)]: the empty string when the format holds no data. *)
Definition getData (d : DataTransfer) (format : string) : jsstring :=
  default [] (d !! format).

Definition setData (format : string) (data : jsstring) (d : DataTransfer) : DataTransfer :=
  <[format := data]> d.

Record ClipboardEvent := mkClipboardEvent {
  clipboardData : option DataTransfer;
  clip_defaultPrevented : bool
}.

Record CompositionEvent := mkCompositionEvent {
  data : jsstring;
  locale : string
}.

Inductive KeyCode := Escape | KEY_IN_COMPOSITION | OtherKey (code : Z).

Record IKeyboardEvent := mkKeyboardEvent {
  keyCode : KeyCode;
  hasModifier : bool;
  key_propagationStopped : bool;
  key_defaultPrevented : bool
}.

(** ** The objects of textAreaInput.ts *)

Record TextAreaWrapper := mkWrapper {
  _actual : HTMLTextAreaElement;
  _ignoreSelectionChangeTime : Z
}.

Record TextAreaInput := mkInput {
  _textArea : TextAreaWrapper;
  (** whether the [RunOnceScheduler] that fires [onCut] is armed *)
  _asyncTriggerCut : bool;
  _textAreaState : TextAreaState;
  _hasFocus : bool;
  _isDoingComposition : bool;
  _nextCommand : ReadFromTextArea;
  (** the [let] of the constructor that the selectionchange listener closes over *)
  previousSelectionChangeEventTime : Z
}.

(** Everything a listener can read or write. *)
Record World := mkWorld {
  this : TextAreaInput;
  (** the reading of [Date.now()] while the current listener runs *)
  now : Z;
  (** [(<any>window).clipboardData], present on IE only *)
  window_clipboardData : option DataTransfer;
  (** [CopyOptions.forceCopyWithSyntaxHighlighting] *)
  forceCopyWithSyntaxHighlighting : bool
}.

(** ** What the host observes *)

(** The emitters of [TextAreaInput]; one constructor per [_onX.fire(..)]. *)
Inductive Event :=
| onFocus
| onBlur
| onKeyDown (e : IKeyboardEvent)
| onKeyUp (e : IKeyboardEvent)
| onCut
| onPaste (pasted : jsstring)
| onType (typeInput : ITypeData)
| onCompositionStart
| onCompositionUpdate (composed : jsstring)
| onCompositionEnd
| onSelectionChangeRequest (s : Selection).

(** The calls into [ITextAreaInputHost]. *)
Inductive HostCall :=
| getPlainTextToCopy_call
| getHTMLToCopy_call
| getScreenReaderContent_call (currentState : TextAreaState)
| deduceModelPosition_call (viewAnchorPosition : Position) (deltaOffset lineFeedCnt : Z).

Inductive Effect := Fire (ev : Event) | Ask (c : HostCall).

(** ** The monad of listeners: state, exceptions and the trace of effects *)

Inductive Completion (A : Type) :=
| Normal (a : A)
| Throw (message : string).
Arguments Normal {A} a.
Arguments Throw {A} message.

Definition Js (A : Type) : Type := World → Completion A * World * list Effect.

#[global] Instance Js_ret : MRet Js := λ A a w, (Normal a, w, []).

#[global] Instance Js_bind : MBind Js := λ A B k m w,
  match m w with
  | (Normal a, w1, t1) =>
      match k a w1 with (r, w2, t2) => (r, w2, t1 ++ t2) end
  | (Throw msg, w1, t1) => (Throw msg, w1, t1)
  end.

Definition throw {A} (message : string) : Js A := λ w, (Throw message, w, []).

(** [try { body } catch (e) { }] with an empty handler. *)
Definition try_catch_ignore (body : Js unit) : Js unit :=
  λ w, match body w with
       | (Normal a, w1, t1) => (Normal a, w1, t1)
       | (Throw _, w1, t1) => (Normal (), w1, t1)
       end.

Definition gets {A} (f : World → A) : Js A := λ w, (Normal (f w), w, []).
Definition modify (f : World → World) : Js unit := λ w, (Normal (), f w, []).
Definition fire (ev : Event) : Js unit := λ w, (Normal (), w, [Fire ev]).
Definition ask (c : HostCall) : Js unit := λ w, (Normal (), w, [Ask c]).

(** [if (b) { m }] without an else branch. *)
Definition when (b : bool) (m : Js unit) : Js unit := if b then m else mret ().

(** The three components of a run. *)
Definition result {A} (m : Js A) (w : World) : Completion A := (m w).1.1.
Definition after {A} (m : Js A) (w : World) : World := (m w).1.2.
Definition trace {A} (m : Js A) (w : World) : list Effect := (m w).2.

(** The events fired during a run, in order. *)
Definition fired {A} (m : Js A) (w : World) : list Event :=
  omap (λ x, match x with Fire ev => Some ev | Ask _ => None end) (trace m w).

(** JavaScript truthiness of a reference that is an object, [null] or
    [undefined]. *)
Definition truthy {A} (o : option A) : bool :=
  match o with Some _ => true | None => false end.

(** ** Field updates *)

Definition upd_this (f : TextAreaInput → TextAreaInput) (w : World) : World :=
  mkWorld (f (this w)) (now w) (window_clipboardData w) (forceCopyWithSyntaxHighlighting w).

Definition set_window_clipboardData (d : option DataTransfer) (w : World) : World :=
  mkWorld (this w) (now w) d (forceCopyWithSyntaxHighlighting w).

Definition upd_textArea (f : TextAreaWrapper → TextAreaWrapper) (i : TextAreaInput) : TextAreaInput :=
  mkInput (f (_textArea i)) (_asyncTriggerCut i) (_textAreaState i) (_hasFocus i)
          (_isDoingComposition i) (_nextCommand i) (previousSelectionChangeEventTime i).

Definition set_asyncTriggerCut (b : bool) (i : TextAreaInput) : TextAreaInput :=
  mkInput (_textArea i) b (_textAreaState i) (_hasFocus i)
          (_isDoingComposition i) (_nextCommand i) (previousSelectionChangeEventTime i).

Definition set_textAreaState (s : TextAreaState) (i : TextAreaInput) : TextAreaInput :=
  mkInput (_textArea i) (_asyncTriggerCut i) s (_hasFocus i)
          (_isDoingComposition i) (_nextCommand i) (previousSelectionChangeEventTime i).

Definition set_hasFocus (b : bool) (i : TextAreaInput) : TextAreaInput :=
  mkInput (_textArea i) (_asyncTriggerCut i) (_textAreaState i) b
          (_isDoingComposition i) (_nextCommand i) (previousSelectionChangeEventTime i).

Definition set_isDoingComposition (b : bool) (i : TextAreaInput) : TextAreaInput :=
  mkInput (_textArea i) (_asyncTriggerCut i) (_textAreaState i) (_hasFocus i)
          b (_nextCommand i) (previousSelectionChangeEventTime i).

Definition set_nextCommand (c : ReadFromTextArea) (i : TextAreaInput) : TextAreaInput :=
  mkInput (_textArea i) (_asyncTriggerCut i) (_textAreaState i) (_hasFocus i)
          (_isDoingComposition i) c (previousSelectionChangeEventTime i).

Definition set_previousSelectionChangeEventTime (t : Z) (i : TextAreaInput) : TextAreaInput :=
  mkInput (_textArea i) (_asyncTriggerCut i) (_textAreaState i) (_hasFocus i)
          (_isDoingComposition i) (_nextCommand i) t.

Definition upd_actual (f : HTMLTextAreaElement → HTMLTextAreaElement) (t : TextAreaWrapper) : TextAreaWrapper :=
  mkWrapper (f (_actual t)) (_ignoreSelectionChangeTime t).

Definition set_ignoreSelectionChangeTime (t : Z) (x : TextAreaWrapper) : TextAreaWrapper :=
  mkWrapper (_actual x) t.

Definition preventDefault (e : ClipboardEvent) : ClipboardEvent :=
  mkClipboardEvent (clipboardData e) true.

(** Reading a field of [this]. *)
Definition field {A} (f : TextAreaInput → A) : Js A := gets (λ w, f (this w)).
Definition assign (f : TextAreaInput → TextAreaInput) : Js unit := modify (upd_this f).

(** The DOM node behind the adapter. *)
Definition domNode (w : World) : HTMLTextAreaElement := _actual (_textArea (this w)).

(** [browser.*], [platform.*] and [window.parent !== window]: facts fixed
    when the page loads.  The last field is no flag of the source: it says
    whether the platform's [setSelectionRange] throws on a textarea that is
    off-DOM, which the catch of [TextAreaWrapper.setSelectionRange] reports
    of IE ("Sometimes IE throws when setting selection") and which other
    platforms do not do. *)
Class Browser := {
  isEdgeOrIE : bool;
  isEdge : bool;
  isChrome : bool;
  isChromev56 : bool;
  isFirefox : bool;
  isMacintosh : bool;
  isWindows : bool;
  inIframe : bool;
  selectionThrowsOffDOM : bool
}.

(** ** The platform's textarea

    The listeners use three writes of the DOM node.  Assigning [value] moves
    the caret to the end of the new value.  [setSelectionRange] takes its
    arguments as unsigned numbers and clamps them to the length of the
    value; on a node that is off-DOM it throws on the platforms that do so
    (the exception the adapter catches) and writes the selection on the
    others.  [focus] makes an attached node the active element and does
    nothing to a node that is off-DOM.  The focus event that the platform
    dispatches when the active element changes is received by the focus
    listener of the engine; the adapter focuses the node only when the
    engine writes with [select], which it does only with [_hasFocus] set, and
    the listener then returns at once: [dom_focus] stands for the platform's
    call on an engine that has focus. *)

Definition isActive (el : HTMLTextAreaElement) : bool :=
  match el_attachment el with InDOM b => b | OffDOM => false end.

Definition dom_assign_value (v : jsstring) : Js unit :=
  assign (upd_textArea (upd_actual (λ el,
    mkElement v (JsString.length v) (JsString.length v) (el_attachment el)))).

(** The platform takes the arguments of [setSelectionRange] as unsigned
    32-bit numbers: a negative one wraps around, and then points past the
    end of any value.  (Numbers of 2^32 and more, which no selection of a
    string is, are left as they are.) *)
Definition unsigned_long (x : Z) : Z := if x <? 0 then x mod 2 ^ 32 else x.

Definition dom_setSelectionRange {browser : Browser} (selStart selEnd : Z) : Js unit :=
  el ← gets domNode;
  let refused := match el_attachment el with
                 | OffDOM => selectionThrowsOffDOM
                 | InDOM _ => false
                 end in
  if refused then throw "setSelectionRange: the textarea is off-DOM" else
  let e := Z.min (unsigned_long selEnd) (JsString.length (el_value el)) in
  let s := Z.min (unsigned_long selStart) e in
  assign (upd_textArea (upd_actual (λ el,
    mkElement (el_value el) s e (el_attachment el)))).

Definition dom_focus : Js unit :=
  assign (upd_textArea (upd_actual (λ el,
    mkElement (el_value el) (el_selectionStart el) (el_selectionEnd el)
      match el_attachment el with InDOM _ => InDOM true | OffDOM => OffDOM end))).

Definition Date_now : Js Z := gets now.

(** ** ClipboardEventUtils *)
Module ClipboardEventUtils.

Definition canUseTextData (e : ClipboardEvent) : Js bool :=
  if truthy (clipboardData e) then mret true else
  legacy ← gets window_clipboardData;
  if truthy legacy then mret true else
  mret false.

(** The event comes back with [preventDefault()] applied. *)
Definition getTextData (e : ClipboardEvent) : Js (ClipboardEvent * jsstring) :=
  match clipboardData e with
  | Some d => mret (preventDefault e, getData d "text/plain")
  | None =>
      legacy ← gets window_clipboardData;
      match legacy with
      | Some d => mret (preventDefault e, getData d "Text")
      | None => throw "ClipboardEventUtils.getTextData: Cannot use text data!"
      end
  end.

(** [richText] is [None] for the [null] of the source. *)
Definition setTextData (e : ClipboardEvent) (text : jsstring) (richText : option jsstring)
  : Js ClipboardEvent :=
  match clipboardData e with
  | Some d =>
      let d := setData "text/plain" text d in
      let d := match richText with
               | Some html => setData "text/html" html d
               | None => d
               end in
      mret (preventDefault (mkClipboardEvent (Some d) (clip_defaultPrevented e)))
  | None =>
      legacy ← gets window_clipboardData;
      match legacy with
      | Some d =>
          modify (set_window_clipboardData (Some (setData "Text" text d)));;
          mret (preventDefault e)
      | None => throw "ClipboardEventUtils.setTextData: Cannot use text data!"
      end
  end.

End ClipboardEventUtils.

(** ** The snapshot operations the listeners call

    [TextAreaState] is declared in [textAreaState.ts], which is not under
    src/.  Its constructors and the write are fixed by the spec and are
    modelled here; the three analyses ([readFromTextArea], [deduceInput],
    [deduceEditorPosition]) are an interface of the development. *)

(** Modelled from the spec: [TextAreaState.EMPTY] (missing textAreaState.ts),
    "value is the empty string, selectionStart = selectionEnd = 0, no anchors". *)
Definition EMPTY : TextAreaState := mkTextAreaState [] 0 0 None None.

(** Modelled from the spec: [TextAreaState.selectedText] (missing
    textAreaState.ts), "a snapshot where the full value equals text and the
    entire value is selected"; a reset snapshot has no anchors. *)
Definition selectedText (t : jsstring) : TextAreaState :=
  mkTextAreaState t 0 (JsString.length t) None None.

(** Modelled from the spec: [collapseSelection] (missing textAreaState.ts),
    "returns a snapshot with selectionStart == selectionEnd == selectionEnd
    (collapsing to the end)". *)
Definition collapseSelection (s : TextAreaState) : TextAreaState :=
  mkTextAreaState (value s) (selectionEnd s) (selectionEnd s)
                  (selectionStartPosition s) (selectionEndPosition s).

Class TextAreaStateOps := {
  (** [oldState.readFromTextArea(textArea)], given what the method can read
      through [ITextAreaWrapper]: [getValue()], [getSelectionStart()] and
      [getSelectionEnd()] *)
  readFromTextArea : TextAreaState → jsstring → Z → Z → TextAreaState;
  (** [TextAreaState.deduceInput(previousState, currentState, couldBeEmojiInput)] *)
  deduceInput : TextAreaState → TextAreaState → bool → ITypeData;
  (** [state.deduceEditorPosition(offset)] *)
  deduceEditorPosition : TextAreaState → Z → Position * Z * Z
}.

Class ITextAreaInputHost := {
  getPlainTextToCopy : jsstring;
  getHTMLToCopy : jsstring;
  getScreenReaderContent : TextAreaState → TextAreaState;
  deduceModelPosition : Position → Z → Z → Position
}.

Section TextAreaInput.

Context {browser : Browser} {_host : ITextAreaInputHost} {ops : TextAreaStateOps}.

(** ** TextAreaWrapper *)

Definition setIgnoreSelectionChangeTime (reason : string) : Js unit :=
  t ← Date_now;
  assign (upd_textArea (set_ignoreSelectionChangeTime t)).

Definition getIgnoreSelectionChangeTime : Js Z :=
  field (λ i, _ignoreSelectionChangeTime (_textArea i)).

Definition resetSelectionChangeTime : Js unit :=
  assign (upd_textArea (set_ignoreSelectionChangeTime 0)).

Definition getValue : Js jsstring := gets (λ w, el_value (domNode w)).

Definition setValue (reason : string) (v : jsstring) : Js unit :=
  current ← getValue;
  if JsString.eqb current v then
    (* No change *)
    mret ()
  else
    setIgnoreSelectionChangeTime "setValue";;
    dom_assign_value v.

Definition getSelectionStart : Js Z := gets (λ w, el_selectionStart (domNode w)).

Definition getSelectionEnd : Js Z := gets (λ w, el_selectionEnd (domNode w)).

Definition setSelectionRange (reason : string) (selStart selEnd : Z) : Js unit :=
  currentIsFocused ← gets (λ w, isActive (domNode w));
  currentSelectionStart ← getSelectionStart;
  currentSelectionEnd ← getSelectionEnd;
  if currentIsFocused && (currentSelectionStart =? selStart) && (currentSelectionEnd =? selEnd) then
    (* No change *)
    when (isFirefox && inIframe) dom_focus
  else if currentIsFocused then
    (* No need to focus, only need to change the selection range *)
    setIgnoreSelectionChangeTime "setSelectionRange";;
    dom_setSelectionRange selStart selEnd;;
    when (isFirefox && inIframe) dom_focus
  else
    (* the saved and restored scroll offsets of the parents are not modelled *)
    try_catch_ignore (
      setIgnoreSelectionChangeTime "setSelectionRange";;
      dom_focus;;
      dom_setSelectionRange selStart selEnd).

(** Modelled from the spec: [writeToTextArea] (missing textAreaState.ts),
    "if the adapter's current value already equals this snapshot's value,
    skip the value write; always attempt the selection write when
    shouldSetSelection is true, skipped otherwise".  The comparison that
    skips the value write is the adapter's own, in [setValue]. *)
Definition writeToTextArea (reason : string) (s : TextAreaState) (select : bool) : Js unit :=
  setValue reason (value s);;
  when select (setSelectionRange reason (selectionStart s) (selectionEnd s)).

(** [state.readFromTextArea(this._textArea)]: the three reads of the adapter
    and the analysis of the snapshot. *)
Definition read_textArea (state : TextAreaState) : Js TextAreaState :=
  v ← getValue;
  selStart ← getSelectionStart;
  selEnd ← getSelectionEnd;
  mret (readFromTextArea state v selStart selEnd).

(** ** Calls into the host *)

Definition host_getPlainTextToCopy : Js jsstring :=
  ask getPlainTextToCopy_call;; mret getPlainTextToCopy.

Definition host_getHTMLToCopy : Js jsstring :=
  ask getHTMLToCopy_call;; mret getHTMLToCopy.

Definition host_getScreenReaderContent (currentState : TextAreaState) : Js TextAreaState :=
  ask (getScreenReaderContent_call currentState);; mret (getScreenReaderContent currentState).

Definition host_deduceModelPosition (p : Position * Z * Z) : Js Position :=
  ask (deduceModelPosition_call p.1.1 p.1.2 p.2);; mret (deduceModelPosition p.1.1 p.1.2 p.2).

(** ** TextAreaInput: methods *)

Definition _setAndWriteTextAreaState (reason : string) (textAreaState : TextAreaState) : Js unit :=
  hasFocus ← field _hasFocus;
  let textAreaState :=
    if negb hasFocus then collapseSelection textAreaState else textAreaState in
  writeToTextArea reason textAreaState hasFocus;;
  assign (set_textAreaState textAreaState).

Definition writeScreenReaderContent (reason : string) : Js unit :=
  composing ← field _isDoingComposition;
  if (composing : bool) then
    (* Do not write to the text area when doing composition *)
    mret ()
  else
    current ← field _textAreaState;
    content ← host_getScreenReaderContent current;
    _setAndWriteTextAreaState reason content.

Definition _setHasFocus (newHasFocus : bool) : Js unit :=
  hasFocus ← field _hasFocus;
  if Bool.eqb hasFocus newHasFocus then
    (* no change *)
    mret ()
  else
    assign (set_hasFocus newHasFocus);;
    hasFocus ← field _hasFocus;
    when hasFocus (
      if isEdge then _setAndWriteTextAreaState "focusgain" EMPTY
      else writeScreenReaderContent "focusgain");;
    hasFocus ← field _hasFocus;
    if (hasFocus : bool) then fire onFocus else fire onBlur.

Definition focusTextArea : Js unit := _setHasFocus true.

Definition isFocused : Js bool := field _hasFocus.

Definition _ensureClipboardGetsEditorSelection (e : ClipboardEvent) : Js ClipboardEvent :=
  copyPlainText ← host_getPlainTextToCopy;
  usable ← ClipboardEventUtils.canUseTextData e;
  if negb usable then
    (* Looks like an old browser: place the text in the textarea and select it *)
    _setAndWriteTextAreaState "copy or cut" (selectedText copyPlainText);;
    mret e
  else
    force ← gets forceCopyWithSyntaxHighlighting;
    copyHTML ← (if negb isEdgeOrIE && ((JsString.length copyPlainText <? 65536) || force)
                then html ← host_getHTMLToCopy; mret (Some html)
                else mret None);
    ClipboardEventUtils.setTextData e copyPlainText copyHTML.

(** ** TextAreaInput: the listeners registered by the constructor *)

Definition equals_Escape (e : IKeyboardEvent) : bool :=
  match keyCode e with Escape => negb (hasModifier e) | _ => false end.

Definition on_keydown (e : IKeyboardEvent) : Js IKeyboardEvent :=
  composing ← field _isDoingComposition;
  let e := if composing && match keyCode e with KEY_IN_COMPOSITION => true | _ => false end
           then mkKeyboardEvent (keyCode e) (hasModifier e) true (key_defaultPrevented e)
           else e in
  let e := if equals_Escape e
           then mkKeyboardEvent (keyCode e) (hasModifier e) (key_propagationStopped e) true
           else e in
  fire (onKeyDown e);;
  mret e.

Definition on_keyup (e : IKeyboardEvent) : Js unit := fire (onKeyUp e).

Definition on_compositionstart : Js unit :=
  composing ← field _isDoingComposition;
  if (composing : bool) then mret () else
  assign (set_isDoingComposition true);;
  (* In IE we cannot set .value when handling 'compositionstart' *)
  when (negb isEdgeOrIE) (_setAndWriteTextAreaState "compositionstart" EMPTY);;
  fire onCompositionStart.

Definition deduceInputFromTextAreaValue (couldBeEmojiInput : bool) : Js (TextAreaState * ITypeData) :=
  oldState ← field _textAreaState;
  newState ← read_textArea oldState;
  mret (newState, deduceInput oldState newState couldBeEmojiInput).

Definition deduceComposition (t : jsstring) : Js (TextAreaState * ITypeData) :=
  oldState ← field _textAreaState;
  let newState := selectedText t in
  let typeInput := mkTypeData (value newState) (selectionEnd oldState - selectionStart oldState) in
  mret (newState, typeInput).

Definition is_ja (e : CompositionEvent) : bool := String.eqb (locale e) "ja".

Definition on_compositionupdate (e : CompositionEvent) : Js unit :=
  if isChromev56 then mret () else
  if isEdgeOrIE && is_ja e then
    r ← deduceInputFromTextAreaValue false;
    assign (set_textAreaState r.1);;
    fire (onType r.2);;
    fire (onCompositionUpdate (data e))
  else
    r ← deduceComposition (data e);
    assign (set_textAreaState r.1);;
    fire (onType r.2);;
    fire (onCompositionUpdate (data e)).

Definition on_compositionend (e : CompositionEvent) : Js unit :=
  (if isEdgeOrIE && is_ja e then
     r ← deduceInputFromTextAreaValue false;
     assign (set_textAreaState r.1);;
     fire (onType r.2)
   else
     r ← deduceComposition (data e);
     assign (set_textAreaState r.1);;
     fire (onType r.2));;
  when (isEdgeOrIE || isChrome) (
    current ← field _textAreaState;
    newState ← read_textArea current;
    assign (set_textAreaState newState));;
  composing ← field _isDoingComposition;
  if negb composing then mret () else
  assign (set_isDoingComposition false);;
  fire onCompositionEnd.

(** The test of the input listener for an incomplete surrogate pair. *)
Definition isLoneHighSurrogate (typeInput : ITypeData) : bool :=
  (replaceCharCnt typeInput =? 0)
  && (JsString.length (text typeInput) =? 1)
  && isHighSurrogate (JsString.charCodeAt (text typeInput) 0).

Definition on_input : Js unit :=
  setIgnoreSelectionChangeTime "received input event";;
  composing ← field _isDoingComposition;
  if (composing : bool) then
    when isChromev56 (
      v ← getValue;
      r ← deduceComposition v;
      assign (set_textAreaState r.1);;
      fire (onType r.2);;
      fire (onCompositionUpdate (text r.2)))
  else
    r ← deduceInputFromTextAreaValue isMacintosh;
    if isLoneHighSurrogate r.2 then
      (* Ignore invalid input but keep it around for next time *)
      mret ()
    else
      assign (set_textAreaState r.1);;
      nextCommand ← field _nextCommand;
      match nextCommand with
      | Type_ =>
          when (negb (JsString.eqb (text r.2) [])) (fire (onType r.2))
      | Paste =>
          when (negb (JsString.eqb (text r.2) [])) (fire (onPaste (text r.2)));;
          assign (set_nextCommand Type_)
      end.

(** --- Clipboard operations *)

Definition on_cut (e : ClipboardEvent) : Js ClipboardEvent :=
  setIgnoreSelectionChangeTime "received cut event";;
  e ← _ensureClipboardGetsEditorSelection e;
  (* this._asyncTriggerCut.schedule() *)
  assign (set_asyncTriggerCut true);;
  mret e.

(** Modelled from the spec: [RunOnceScheduler] of [vs/base/common/async],
    which is not under src/: "deferred, single-shot, coalesced if
    re-triggered before firing".  When the timer of [_asyncTriggerCut] runs
    out its runner [() => this._onCut.fire()] runs once, however often it
    was scheduled. *)
Definition on_asyncTriggerCut : Js unit :=
  armed ← field _asyncTriggerCut;
  when armed (assign (set_asyncTriggerCut false);; fire onCut).

Definition on_copy (e : ClipboardEvent) : Js ClipboardEvent :=
  _ensureClipboardGetsEditorSelection e.

Definition on_paste (e : ClipboardEvent) : Js ClipboardEvent :=
  setIgnoreSelectionChangeTime "received paste event";;
  usable ← ClipboardEventUtils.canUseTextData e;
  if (usable : bool) then
    r ← ClipboardEventUtils.getTextData e;
    let pastePlainText := r.2 in
    when (negb (JsString.eqb pastePlainText [])) (fire (onPaste pastePlainText));;
    mret r.1
  else
    selStart ← getSelectionStart;
    selEnd ← getSelectionEnd;
    when (negb (selStart =? selEnd)) (
      (* Clean up the textarea, to get a clean paste *)
      _setAndWriteTextAreaState "paste" EMPTY);;
    assign (set_nextCommand Paste);;
    mret e.

Definition on_focus : Js unit := _setHasFocus true.

Definition on_blur : Js unit := _setHasFocus false.

Definition on_selectionchange : Js unit :=
  hasFocus ← field _hasFocus;
  if negb hasFocus then mret () else
  composing ← field _isDoingComposition;
  if (composing : bool) then mret () else
  if negb isChrome || negb isWindows then
    (* Support only for Chrome on Windows *)
    mret ()
  else
  now_ ← Date_now;
  previous ← field previousSelectionChangeEventTime;
  let delta1 := now_ - previous in
  assign (set_previousSelectionChangeEventTime now_);;
  if delta1 <? 5 then
    (* another selectionchange within 5ms of the previous one => ignore it *)
    mret ()
  else
  ignoreTime ← getIgnoreSelectionChangeTime;
  let delta2 := now_ - ignoreTime in
  resetSelectionChangeTime;;
  if delta2 <? 100 then
    (* within 100ms since we touched the textarea => ignore it, since we caused it *)
    mret ()
  else
  state ← field _textAreaState;
  if negb (truthy (selectionStartPosition state)) || negb (truthy (selectionEndPosition state)) then
    (* Cannot correlate a position in the textarea with a position in the editor *)
    mret ()
  else
  newValue ← getValue;
  if negb (JsString.eqb (value state) newValue) then
    (* Cannot correlate a position in the textarea with a position in the editor *)
    mret ()
  else
  newSelectionStart ← getSelectionStart;
  newSelectionEnd ← getSelectionEnd;
  if (selectionStart state =? newSelectionStart) && (selectionEnd state =? newSelectionEnd) then
    (* Nothing to do *)
    mret ()
  else
  newSelectionStartPosition ← host_deduceModelPosition (deduceEditorPosition state newSelectionStart);
  newSelectionEndPosition ← host_deduceModelPosition (deduceEditorPosition state newSelectionEnd);
  let newSelection :=
    mkSelection (lineNumber newSelectionStartPosition) (column newSelectionStartPosition)
                (lineNumber newSelectionEndPosition) (column newSelectionEndPosition) in
  fire (onSelectionChangeRequest newSelection).

(** ** Signals

    What the platform delivers to the engine, one listener run each. *)
Inductive Signal :=
| keydown (e : IKeyboardEvent)
| keyup (e : IKeyboardEvent)
| compositionstart
| compositionupdate (e : CompositionEvent)
| compositionend (e : CompositionEvent)
| input
| cut (e : ClipboardEvent)
| asyncTriggerCut
| copy (e : ClipboardEvent)
| paste (e : ClipboardEvent)
| focus
| blur
| selectionchange.

Definition deliver (s : Signal) : Js unit :=
  match s with
  | keydown e => on_keydown e;; mret ()
  | keyup e => on_keyup e
  | compositionstart => on_compositionstart
  | compositionupdate e => on_compositionupdate e
  | compositionend e => on_compositionend e
  | input => on_input
  | cut e => on_cut e;; mret ()
  | asyncTriggerCut => on_asyncTriggerCut
  | copy e => on_copy e;; mret ()
  | paste e => on_paste e;; mret ()
  | focus => on_focus
  | blur => on_blur
  | selectionchange => on_selectionchange
  end.

End TextAreaInput.

(** ** The platform between two signals

    Between two listener runs the platform may have changed the textarea
    (the user typed, the IME composed, the caret moved), the clock has
    advanced, and the page may have changed its globals.  The fields of the
    engine and the adapter's timestamp are only changed by the listeners. *)
Record Platform := mkPlatform {
  p_node : HTMLTextAreaElement;
  p_now : Z;
  p_window_clipboardData : option DataTransfer;
  p_forceCopyWithSyntaxHighlighting : bool
}.

Definition arrive (p : Platform) (w : World) : World :=
  mkWorld (upd_textArea (upd_actual (λ _, p_node p)) (this w))
          (p_now p) (p_window_clipboardData p) (p_forceCopyWithSyntaxHighlighting p).

(** The world in which the constructor leaves a fresh engine, before it
    writes the first screen reader content. *)
Definition fresh (p : Platform) : World :=
  mkWorld (mkInput (mkWrapper (p_node p) 0) false EMPTY false false Type_ 0)
          (p_now p) (p_window_clipboardData p) (p_forceCopyWithSyntaxHighlighting p).

(** ** An instance of the snapshot analyses, from the spec *)

Fixpoint commonPrefixLength (a b : jsstring) : Z :=
  match a, b with
  | x :: a', y :: b' => if x =? y then 1 + commonPrefixLength a' b' else 0
  | _, _ => 0
  end.

Definition commonSuffixLength (a b : jsstring) : Z :=
  commonPrefixLength (reverse a) (reverse b).

(** [s.substring(from, to)] for [0 <= from <= to]. *)
Definition substring (s : jsstring) (from to : Z) : jsstring :=
  take (Z.to_nat (to - from)) (drop (Z.to_nat from) s).

(** Modelled from the spec: [TextAreaState.deduceInput] (missing
    textAreaState.ts).  "Find the longest common prefix length p and,
    independently, the longest common suffix length s, clamped so prefix and
    suffix regions do not overlap (p + s <= min(len(old), len(new))).  The
    inserted text is newState.value[p .. len(new)-s).  The replaced character
    count is len(old) - p - s.  If the computed inserted text is empty and the
    old/new selection boundaries are identical, treat as no-op."  The clamp
    shortens the suffix, as in the spec's scenario helo/hello (prefix 3,
    suffix 1).  The intent of one high surrogate is returned as computed: the
    input listener is what recognises and suppresses it. *)
Definition spec_deduceInput (oldState newState : TextAreaState) (couldBeEmojiInput : bool) : ITypeData :=
  let old := value oldState in
  let new := value newState in
  let p := commonPrefixLength old new in
  let s := Z.min (commonSuffixLength old new)
                 (Z.min (JsString.length old) (JsString.length new) - p) in
  let inserted := substring new p (JsString.length new - s) in
  if JsString.eqb inserted []
     && (selectionStart oldState =? selectionStart newState)
     && (selectionEnd oldState =? selectionEnd newState)
  then mkTypeData [] 0
  else mkTypeData inserted (JsString.length old - p - s).

(** Modelled from the spec: [readFromTextArea] (missing textAreaState.ts),
    "reads current value/selection from the adapter; ... otherwise anchors
    are cleared".  How known anchors are recomputed is not specified; this
    instance clears them. *)
Definition spec_readFromTextArea (previous : TextAreaState) (v : jsstring) (selStart selEnd : Z)
  : TextAreaState :=
  mkTextAreaState v selStart selEnd None None.

Definition lineFeedCount (s : jsstring) : Z :=
  Z.of_nat (List.length (filter (λ c, c = 10) s)).

(** Modelled from the spec: [deduceEditorPosition] (missing textAreaState.ts),
    "expresses offset as a displacement from the nearest known anchor plus a
    count of line breaks crossed".  The listener calls it only on a snapshot
    with both anchors; position (1,1) stands in for an absent one. *)
Definition spec_deduceEditorPosition (state : TextAreaState) (offset : Z) : Position * Z * Z :=
  let origin := mkPosition 1 1 in
  let dStart := offset - selectionStart state in
  let dEnd := offset - selectionEnd state in
  if Z.abs dStart <=? Z.abs dEnd then
    (default origin (selectionStartPosition state), dStart,
     lineFeedCount (substring (value state) (Z.min offset (selectionStart state))
                                            (Z.max offset (selectionStart state))))
  else
    (default origin (selectionEndPosition state), dEnd,
     lineFeedCount (substring (value state) (Z.min offset (selectionEnd state))
                                            (Z.max offset (selectionEnd state)))).

Definition spec_ops : TextAreaStateOps :=
  {| readFromTextArea := spec_readFromTextArea;
     deduceInput := spec_deduceInput;
     deduceEditorPosition := spec_deduceEditorPosition |}.


(** ** Vocabulary of the statements *)

(** The two clipboard APIs: the event's own [clipboardData] and the legacy
    [window.clipboardData]. *)
Definition no_clipboard_api (e : ClipboardEvent) (w : World) : Prop :=
  clipboardData e = None ∧ window_clipboardData w = None.

(** What a direct plain-text read of the clipboard yields, where an API
    allows one. *)
Definition clipboard_text (e : ClipboardEvent) (w : World) : jsstring :=
  match clipboardData e, window_clipboardData w with
  | Some d, _ => getData d "text/plain"
  | None, Some d => getData d "Text"
  | None, None => []
  end.

(** A listener leaves an observation of the world unchanged. *)
Definition keeps {A B} (f : World → B) (m : Js A) : Prop :=
  ∀ w, f (after m w) = f w.

(** Every effect of a listener satisfies [P]. *)
Definition emits_only {A} (P : Effect → Prop) (m : Js A) : Prop :=
  ∀ w, Forall P (trace m w).

Definition not_a_request (x : Effect) : Prop :=
  ∀ sel, x ≠ Fire (onSelectionChangeRequest sel).

(** A listener completes normally from every world. *)
Definition safe {A} (m : Js A) : Prop :=
  ∀ w, ∃ a, result m w = Normal a.

Definition ignoreTime (w : World) : Z := _ignoreSelectionChangeTime (_textArea (this w)).
Definition previousTime (w : World) : Z := previousSelectionChangeEventTime (this w).
Definition snapshot (w : World) : TextAreaState := _textAreaState (this w).

Section Vocabulary.

Context {browser : Browser} {_host : ITextAreaInputHost} {ops : TextAreaStateOps}.

(** A run of the engine: before each signal the platform has moved on. *)
Fixpoint run (steps : list (Platform * Signal)) (w : World) : World :=
  match steps with
  | [] => w
  | (p, s) :: rest => run rest (after (deliver s) (arrive p w))
  end.

(** The constructor: the fields are initialised and the first screen
    reader content is written. *)
Definition constructed (p : Platform) : World :=
  after (writeScreenReaderContent "ctor") (fresh p).

(** The selectionchange listener gets as far as reading the clock: focus,
    no composition, Chrome on Windows. *)
Definition reaches_clock (w : World) : bool :=
  _hasFocus (this w) && negb (_isDoingComposition (this w)) && isChrome && isWindows.

(** ... and as far as the comparison with the adapter's timestamp. *)
Definition reaches_ignoreTime (w : World) : bool :=
  reaches_clock w && negb (now w - previousTime w <? 5).

(** The adapter was not touched in the last 100ms, as far as its timestamp
    tells. *)
Definition untouched (w : World) : bool := negb (now w - ignoreTime w <? 100).

(** The checks after the two time windows: anchors, same value, another
    selection. *)
Definition correlates (w : World) : bool :=
  truthy (selectionStartPosition (snapshot w))
  && truthy (selectionEndPosition (snapshot w))
  && JsString.eqb (value (snapshot w)) (el_value (domNode w))
  && negb ((selectionStart (snapshot w) =? el_selectionStart (domNode w))
           && (selectionEnd (snapshot w) =? el_selectionEnd (domNode w))).

Definition mapped (state : TextAreaState) (offset : Z) : Position :=
  let p := deduceEditorPosition state offset in
  deduceModelPosition p.1.1 p.1.2 p.2.

(** The selection the listener requests when every check passes. *)
Definition requested (w : World) : Selection :=
  let a := mapped (snapshot w) (el_selectionStart (domNode w)) in
  let b := mapped (snapshot w) (el_selectionEnd (domNode w)) in
  mkSelection (lineNumber a) (column a) (lineNumber b) (column b).

(** The intent the input listener deduces outside composition. *)
Definition deduced (w : World) : ITypeData :=
  let old := snapshot w in
  let el := domNode w in
  deduceInput old
    (readFromTextArea old (el_value el) (el_selectionStart el) (el_selectionEnd el))
    isMacintosh.

(** Whether the staging for cut/copy asks the host for HTML, given that a
    clipboard API is there: not on Edge/IE, and only for plain text below
    65536 code units unless [CopyOptions] forces it. *)
Definition asksForHTML (w : World) : bool :=
  negb isEdgeOrIE
  && ((JsString.length getPlainTextToCopy <? 65536) || forceCopyWithSyntaxHighlighting w).

(** The intent a composition listener deduces for event [e]: read and
    diff for Japanese on Edge/IE, the event's text otherwise. *)
Definition composed (e : CompositionEvent) (w : World) : ITypeData :=
  let old := snapshot w in
  let el := domNode w in
  if isEdgeOrIE && is_ja e then
    deduceInput old
      (readFromTextArea old (el_value el) (el_selectionStart el) (el_selectionEnd el))
      false
  else
    mkTypeData (data e) (selectionEnd old - selectionStart old).

(** The snapshot the composition-end listener has stored when it reaches
    its guard: the one of the type event, re-read from the textarea on
    Edge/IE and Chrome. *)
Definition compositionend_stored (e : CompositionEvent) (w : World) : TextAreaState :=
  let el := domNode w in
  let first :=
    if isEdgeOrIE && is_ja e then
      readFromTextArea (snapshot w) (el_value el) (el_selectionStart el) (el_selectionEnd el)
    else selectedText (data e) in
  if isEdgeOrIE || isChrome then
    readFromTextArea first (el_value el) (el_selectionStart el) (el_selectionEnd el)
  else first.

End Vocabulary.

(** ** Concrete platforms, hosts and worlds

    Used to run the listeners on explicit inputs. *)

Definition chromeOnWindows : Browser :=
  {| isEdgeOrIE := false; isEdge := false; isChrome := true; isChromev56 := false;
     isFirefox := false; isMacintosh := false; isWindows := true; inIframe := false;
     selectionThrowsOffDOM := false |}.

Definition edgeOnWindows : Browser :=
  {| isEdgeOrIE := true; isEdge := true; isChrome := false; isChromev56 := false;
     isFirefox := false; isMacintosh := false; isWindows := true; inIframe := false;
     selectionThrowsOffDOM := true |}.

Definition hello_selected : TextAreaState :=
  mkTextAreaState (JsString.lit "hello") 0 5 (Some (mkPosition 1 1)) (Some (mkPosition 1 6)).

Definition empty_document : TextAreaState :=
  mkTextAreaState [] 0 0 (Some (mkPosition 1 1)) (Some (mkPosition 1 1)).

Definition resolve (anchor : Position) (deltaOffset lineFeedCnt : Z) : Position :=
  mkPosition (lineNumber anchor + lineFeedCnt) (column anchor + deltaOffset).

(** A host whose editor shows the single line [hello], selected. *)
Definition helloHost : ITextAreaInputHost :=
  {| getPlainTextToCopy := JsString.lit "hello";
     getHTMLToCopy := JsString.lit "<b>hello</b>";
     getScreenReaderContent := λ _, hello_selected;
     deduceModelPosition := resolve |}.

(** A host whose editor is empty. *)
Definition emptyHost : ITextAreaInputHost :=
  {| getPlainTextToCopy := [];
     getHTMLToCopy := [];
     getScreenReaderContent := λ _, empty_document;
     deduceModelPosition := resolve |}.

(** The page loads at clock 500 with an empty, unfocused textarea. *)
Definition page_load : Platform :=
  mkPlatform (mkElement [] 0 0 (InDOM false)) 500 None false.

(** The textarea as the platform shows it, without legacy clipboard. *)
Definition shows (v : jsstring) (selStart selEnd : Z) (active : bool) (t : Z) : Platform :=
  mkPlatform (mkElement v selStart selEnd (InDOM active)) t None false.

(** A focused engine whose snapshot and textarea agree on [hello], fully
    selected; the adapter was last touched at 900, the clock reads 1000. *)
Definition world_focused : World :=
  mkWorld (mkInput (mkWrapper (mkElement (JsString.lit "hello") 0 5 (InDOM true)) 900)
                   false hello_selected true false Type_ 0)
          1000 None false.

(** The same engine after it lost focus. *)
Definition world_unfocused : World :=
  mkWorld (mkInput (mkWrapper (mkElement (JsString.lit "hello") 0 5 (InDOM false)) 900)
                   false hello_selected false false Type_ 0)
          1000 None false.

(** A focused engine on an empty editor; the clock reads 1000. *)
Definition world_empty : World :=
  mkWorld (mkInput (mkWrapper (mkElement [] 0 0 (InDOM true)) 0)
                   false empty_document true false Type_ 0)
          1000 None false.

(** The caret was moved to offset 2 from outside; the clock reads [t]. *)
Definition caret_moved (t : Z) : Platform :=
  shows (JsString.lit "hello") 2 2 true t.

(** The platform has put [v] into the textarea, caret at the end. *)
Definition typed (v : jsstring) : Platform :=
  shows v (JsString.length v) (JsString.length v) true 1010.

(** The first half of a surrogate pair (U+1F600 is D83D DE00). *)
Definition half_emoji : jsstring := [0xD83D].

(** A clipboard event without data, and one whose data store is empty. *)
Definition event_without_data : ClipboardEvent := mkClipboardEvent None false.
Definition event_with_empty_data : ClipboardEvent := mkClipboardEvent (Some ∅) false.

(** The empty editor with [v] typed into the textarea, and the same after
    a paste signal that found no clipboard API. *)
Definition world_typed (v : jsstring) : World := arrive (typed v) world_empty.

Definition world_pasting (v : jsstring) : World :=
  arrive (typed v)
    (after (on_paste (browser := chromeOnWindows) event_without_data) world_empty).

Definition composition_x : CompositionEvent := mkCompositionEvent (JsString.lit "x") "en".

Definition key_a : IKeyboardEvent := mkKeyboardEvent (OtherKey 65) false false false.

(** ** Vocabulary of the further statements *)

(** A listener keeps an invariant of the world. *)
Definition preserves {A} (I : World → Prop) (m : Js A) : Prop :=
  ∀ w, I w → I (after m w).

(** Which events a signal can make the engine fire. *)
Definition may_fire (s : Signal) (ev : Event) : Prop :=
  match s, ev with
  | keydown _, onKeyDown _ => True
  | keyup e, onKeyUp e' => e' = e
  | compositionstart, onCompositionStart => True
  | compositionupdate _, onType _ => True
  | compositionupdate e, onCompositionUpdate d => d = data e
  | compositionend _, onType _ => True
  | compositionend _, onCompositionEnd => True
  | input, onType _ => True
  | input, onPaste _ => True
  | input, onCompositionUpdate _ => True
  | asyncTriggerCut, onCut => True
  | paste _, onPaste _ => True
  | focus, onFocus => True
  | blur, onBlur => True
  | selectionchange, onSelectionChangeRequest _ => True
  | _, _ => False
  end.

Definition fires_only_for (s : Signal) (x : Effect) : Prop :=
  match x with Fire ev => may_fire s ev | Ask _ => True end.

(** Since the listener started in a world with textarea [node] and clock
    [t], it has left the textarea alone or marked the adapter's timestamp. *)
Definition untouched_or_marked (node : HTMLTextAreaElement) (t : Z) (w : World) : Prop :=
  now w = t ∧ (domNode w = node ∨ ignoreTime w = t).

(** A listener keeps a condition and, under it, an observation. *)
Definition keeps_while {A B} (C : World → Prop) (f : World → B) (m : Js A) : Prop :=
  ∀ w, C w → C (after m w) ∧ f (after m w) = f w.

Definition attachment (w : World) : Attachment := el_attachment (domNode w).
Definition unfocused (w : World) : Prop := _hasFocus (this w) = false.

(** Both timestamps of the engine lie between 0 and the clock. *)
Definition timestamps_in_the_past (w : World) : Prop :=
  0 ≤ ignoreTime w ≤ now w ∧ 0 ≤ previousTime w ≤ now w.

(** The clock readings of a run do not decrease, starting from [t]. *)
Fixpoint clock_advances (t : Z) (steps : list (Platform * Signal)) : Prop :=
  match steps with
  | [] => True
  | (p, _) :: rest => t ≤ p_now p ∧ clock_advances (p_now p) rest
  end.

(** Further explicit inputs. *)

(** The engine of [world_focused] after a composition-start signal. *)
Definition world_composing : World :=
  after (on_compositionstart (browser := chromeOnWindows)) world_focused.

(** An engine that believes it has focus while its textarea is off-DOM. *)
Definition world_detached : World :=
  mkWorld (mkInput (mkWrapper (mkElement (JsString.lit "hello") 0 5 OffDOM) 900)
                   false hello_selected true false Type_ 0)
          1000 None false.

(** A paste event that carries what a copy of [hello] has staged. *)
Definition event_with_hello : ClipboardEvent :=
  mkClipboardEvent
    (Some (<["text/html" := JsString.lit "<b>hello</b>"]>
             (<["text/plain" := JsString.lit "hello"]> ∅))) false.

(** Both halves of the surrogate pair of U+1F600. *)
Definition full_emoji : jsstring := [0xD83D; 0xDE00].

(** An engine that has been told to take the focus while its textarea is
    attached but not yet the active element. *)
Definition world_taking_focus : World :=
  mkWorld (mkInput (mkWrapper (mkElement (JsString.lit "hello") 0 5 (InDOM false)) 900)
                   false hello_selected true false Type_ 0)
          1000 None false.

(** The engine of [world_focused] on a page with an empty legacy clipboard. *)
Definition world_legacy : World := set_window_clipboardData (Some ∅) world_focused.

(** A key is released at clock 1020, the textarea as in [world_focused]. *)
Definition key_released : Platform * Signal :=
  (shows (JsString.lit "hello") 0 5 true 1020, keyup key_a).

(** * Properties *)

Lemma unsigned_long_nonneg (x : Z) : 0 ≤ x → unsigned_long x = x.
Proof. intros Hx. unfold unsigned_long. by destruct (Z.ltb_spec x 0); [lia|]. Qed.

(** A negative argument points past the end of every value. *)
Lemma unsigned_long_negative (x : Z) : - 2 ^ 32 ≤ x < 0 → unsigned_long x = x + 2 ^ 32.
Proof.
  intros Hx. unfold unsigned_long. destruct (Z.ltb_spec x 0); [|lia].
  symmetry. apply Z.mod_unique_pos with (q := -1); lia.
Qed.

Lemma JsString_eqb_eq a b : JsString.eqb a b = true ↔ a = b.
Proof. unfold JsString.eqb. apply bool_decide_eq_true. Qed.

Lemma JsString_eqb_neq a b : JsString.eqb a b = false ↔ a ≠ b.
Proof. unfold JsString.eqb. apply bool_decide_eq_false. Qed.

(** Runs a listener symbolically: unfolds the monad, the adapter and the
    listeners, then computes on the record fields. *)
Ltac js_unfold :=
  cbv beta delta
    [result after trace fired
     mbind mret Js_bind Js_ret throw try_catch_ignore gets modify fire ask when field assign
     upd_this set_window_clipboardData upd_textArea set_asyncTriggerCut set_textAreaState
     set_hasFocus set_isDoingComposition set_nextCommand set_previousSelectionChangeEventTime
     upd_actual set_ignoreSelectionChangeTime preventDefault domNode arrive
     Date_now dom_assign_value dom_setSelectionRange dom_focus isActive
     ClipboardEventUtils.canUseTextData ClipboardEventUtils.getTextData
     ClipboardEventUtils.setTextData
     setIgnoreSelectionChangeTime getIgnoreSelectionChangeTime resetSelectionChangeTime
     getValue setValue getSelectionStart getSelectionEnd setSelectionRange
     writeToTextArea read_textArea
     host_getPlainTextToCopy host_getHTMLToCopy host_getScreenReaderContent
     host_deduceModelPosition
     _setAndWriteTextAreaState writeScreenReaderContent _setHasFocus focusTextArea isFocused
     _ensureClipboardGetsEditorSelection
     on_keydown on_keyup on_compositionstart deduceInputFromTextAreaValue deduceComposition
     on_compositionupdate on_compositionend on_input on_cut on_asyncTriggerCut on_copy
     on_paste on_focus on_blur on_selectionchange deliver] in *.

Ltac js_run := js_unfold; cbn in *.

(** Unfolds the monad only, leaving calls of methods folded. *)
Ltac js_bind_unfold :=
  unfold mbind, Js_bind, mret, Js_ret, field, gets, assign, modify, when, fire.

Section Clipboard.

Import ClipboardEventUtils.

Lemma canUseTextData_spec e w :
  canUseTextData e w
  = (Normal (truthy (clipboardData e) || truthy (window_clipboardData w)), w, []).
Proof.
  destruct e as [[d|] dp], w as [th t [legacy|] force]; reflexivity.
Qed.

Lemma canUseTextData_false e w :
  result (canUseTextData e) w = Normal false ↔ no_clipboard_api e w.
Proof.
  unfold result, no_clipboard_api. rewrite canUseTextData_spec. cbn.
  destruct (clipboardData e), (window_clipboardData w); cbn; intuition congruence.
Qed.

(** C9: [getTextData] and [setTextData] throw (their "Cannot use text
    data!" error) exactly when neither the event-bound nor the legacy
    clipboard API is present, which is exactly when [canUseTextData] answers
    [false]; [canUseTextData] itself never throws, and a throwing call has
    done nothing else: the world is unchanged and no effect was produced. *)
Theorem clipboard_unavailable_iff (e : ClipboardEvent) (w : World) :
  (∀ msg, result (canUseTextData e) w ≠ Throw msg)
  ∧ (result (canUseTextData e) w = Normal false ↔ no_clipboard_api e w)
  ∧ ((∃ msg, result (getTextData e) w = Throw msg) ↔ result (canUseTextData e) w = Normal false)
  ∧ (∀ t rich, (∃ msg, result (setTextData e t rich) w = Throw msg)
               ↔ result (canUseTextData e) w = Normal false)
  ∧ (∀ msg, result (getTextData e) w = Throw msg →
            after (getTextData e) w = w ∧ trace (getTextData e) w = [])
  ∧ (∀ t rich msg, result (setTextData e t rich) w = Throw msg →
            after (setTextData e t rich) w = w ∧ trace (setTextData e t rich) w = [])
  ∧ (no_clipboard_api e w →
     result (getTextData e) w
     = Throw "ClipboardEventUtils.getTextData: Cannot use text data!"
     ∧ ∀ t rich, result (setTextData e t rich) w
                 = Throw "ClipboardEventUtils.setTextData: Cannot use text data!").
Proof.
  split; [|split; [apply canUseTextData_false|]].
  { intros msg. unfold result. rewrite canUseTextData_spec. discriminate. }
  rewrite canUseTextData_false. unfold no_clipboard_api.
  destruct e as [cd dp], w as [th t wcd force].
  repeat split; js_run; intros; destruct cd, wcd; cbn in *;
    repeat match goal with H : ∃ _, _ |- _ => destruct H | H : _ ∧ _ |- _ => destruct H end;
    try congruence; eauto.
Qed.

End Clipboard.

(** ** Frame reasoning: what a listener leaves unchanged *)

Section Keeps.

Context {B : Type} (f : World → B).

Lemma keeps_ret {A} (a : A) : keeps f (mret a).
Proof. intros w. reflexivity. Qed.

Lemma keeps_bind {A C} (m : Js A) (k : A → Js C) :
  keeps f m → (∀ a, keeps f (k a)) → keeps f (m ≫= k).
Proof.
  intros Hm Hk w. specialize (Hm w). unfold after in *.
  unfold mbind, Js_bind. destruct (m w) as [[[a|msg] w1] t1]; cbn in *; [|done].
  specialize (Hk a w1). unfold after in Hk.
  destruct (k a w1) as [[r w2] t2]; cbn in *. congruence.
Qed.

Lemma keeps_gets {A} (g : World → A) : keeps f (gets g).
Proof. intros w. reflexivity. Qed.

Lemma keeps_fire ev : keeps f (fire ev).
Proof. intros w. reflexivity. Qed.

Lemma keeps_ask c : keeps f (ask c).
Proof. intros w. reflexivity. Qed.

Lemma keeps_throw {A} msg : keeps f (throw (A:=A) msg).
Proof. intros w. reflexivity. Qed.

Lemma keeps_try body : keeps f body → keeps f (try_catch_ignore body).
Proof.
  intros Hb w. specialize (Hb w). unfold after, try_catch_ignore in *.
  destruct (body w) as [[[a|msg] w1] t1]; exact Hb.
Qed.

Lemma keeps_modify (g : World → World) : (∀ w, f (g w) = f w) → keeps f (modify g).
Proof. intros Hg w. apply Hg. Qed.

End Keeps.

Ltac keeps_step :=
  first
    [ apply keeps_ret | apply keeps_gets | apply keeps_fire | apply keeps_ask
    | apply keeps_throw
    | apply keeps_bind; [|intros ?]
    | apply keeps_try
    | apply keeps_modify; intros [[[? ?] ? ? ? ? ? ?] ? ? ?]; reflexivity
    | match goal with
      | |- keeps _ (if ?b then _ else _) => destruct b
      | |- keeps _ (match ?x with _ => _ end) => destruct x
      end
    | progress cbv zeta
    | progress unfold when, field, assign, Date_now, dom_assign_value, dom_setSelectionRange,
        dom_focus,
        ClipboardEventUtils.canUseTextData, ClipboardEventUtils.getTextData,
        ClipboardEventUtils.setTextData,
        setIgnoreSelectionChangeTime, getIgnoreSelectionChangeTime, resetSelectionChangeTime,
        getValue, setValue, getSelectionStart, getSelectionEnd, setSelectionRange,
        writeToTextArea, read_textArea,
        host_getPlainTextToCopy, host_getHTMLToCopy, host_getScreenReaderContent,
        host_deduceModelPosition,
        _setAndWriteTextAreaState, writeScreenReaderContent, _setHasFocus,
        _ensureClipboardGetsEditorSelection,
        on_keydown, on_keyup, on_compositionstart, deduceInputFromTextAreaValue,
        deduceComposition, on_compositionupdate, on_compositionend, on_input, on_cut,
        on_asyncTriggerCut, on_copy, on_paste, on_focus, on_blur, deliver ].

Ltac keeps_tac := repeat keeps_step.


(** ** Trace reasoning: what a listener can emit *)

Section EmitsOnly.

Context (P : Effect → Prop).

Lemma emits_only_ret {A} (a : A) : emits_only P (mret a).
Proof. intros w. constructor. Qed.

Lemma emits_only_bind {A C} (m : Js A) (k : A → Js C) :
  emits_only P m → (∀ a, emits_only P (k a)) → emits_only P (m ≫= k).
Proof.
  intros Hm Hk w. specialize (Hm w). unfold trace in *.
  unfold mbind, Js_bind. destruct (m w) as [[[a|msg] w1] t1]; cbn in *; [|done].
  specialize (Hk a w1). unfold trace in Hk.
  destruct (k a w1) as [[r w2] t2]; cbn in *. by apply Forall_app.
Qed.

Lemma emits_only_gets {A} (g : World → A) : emits_only P (gets g).
Proof. intros w. constructor. Qed.

Lemma emits_only_modify g : emits_only P (modify g).
Proof. intros w. constructor. Qed.

Lemma emits_only_fire ev : P (Fire ev) → emits_only P (fire ev).
Proof. intros H w. by repeat constructor. Qed.

Lemma emits_only_ask c : P (Ask c) → emits_only P (ask c).
Proof. intros H w. by repeat constructor. Qed.

Lemma emits_only_throw {A} msg : emits_only P (throw (A:=A) msg).
Proof. intros w. constructor. Qed.

Lemma emits_only_try body : emits_only P body → emits_only P (try_catch_ignore body).
Proof.
  intros Hb w. specialize (Hb w). unfold trace, try_catch_ignore in *.
  destruct (body w) as [[[a|msg] w1] t1]; exact Hb.
Qed.

End EmitsOnly.

Ltac emits_step :=
  first
    [ apply emits_only_ret | apply emits_only_gets | apply emits_only_modify
    | apply emits_only_throw
    | apply emits_only_fire; intros ?; discriminate
    | apply emits_only_ask; intros ?; discriminate
    | apply emits_only_bind; [|intros ?]
    | apply emits_only_try
    | match goal with
      | |- emits_only _ (if ?b then _ else _) => destruct b
      | |- emits_only _ (match ?x with _ => _ end) => destruct x
      end
    | progress cbv zeta
    | progress unfold when, field, assign, Date_now, dom_assign_value, dom_setSelectionRange,
        dom_focus,
        ClipboardEventUtils.canUseTextData, ClipboardEventUtils.getTextData,
        ClipboardEventUtils.setTextData,
        setIgnoreSelectionChangeTime, getIgnoreSelectionChangeTime, resetSelectionChangeTime,
        getValue, setValue, getSelectionStart, getSelectionEnd, setSelectionRange,
        writeToTextArea, read_textArea,
        host_getPlainTextToCopy, host_getHTMLToCopy, host_getScreenReaderContent,
        host_deduceModelPosition,
        _setAndWriteTextAreaState, writeScreenReaderContent, _setHasFocus,
        _ensureClipboardGetsEditorSelection,
        on_keydown, on_keyup, on_compositionstart, deduceInputFromTextAreaValue,
        deduceComposition, on_compositionupdate, on_compositionend, on_input, on_cut,
        on_asyncTriggerCut, on_copy, on_paste, on_focus, on_blur, deliver ].

Section Engine.

Context {browser : Browser} {_host : ITextAreaInputHost} {ops : TextAreaStateOps}.

Lemma other_signals_keep_previous (s : Signal) :
  s ≠ selectionchange → keeps previousTime (deliver s).
Proof.
  intros Hs. unfold previousTime. destruct s; try congruence; keeps_tac.
Qed.

(** Only the selectionchange listener fires selection-change-requests. *)
Lemma other_signals_fire_no_request (s : Signal) (w : World) (sel : Selection) :
  s ≠ selectionchange → onSelectionChangeRequest sel ∉ fired (deliver s) w.
Proof.
  intros Hs.
  assert (emits_only not_a_request (deliver s)) as Hquiet.
  { unfold not_a_request. destruct s; try congruence; repeat emits_step. }
  specialize (Hquiet w). unfold fired. intros Hin.
  apply list_elem_of_omap in Hin as (x & Hx & Heq).
  destruct x as [ev|c]; [|discriminate]. simplify_eq.
  rewrite Forall_forall in Hquiet. by apply (Hquiet _ Hx sel).
Qed.

(** *** The selectionchange listener, case by case *)

Ltac selectionchange_cases w :=
  destruct w as [[[el ign] armed st hf comp nc prev] t legacy force];
  destruct browser as [edgeOrIE edge chrome chromev56 firefox mac windows iframe throws];
  unfold reaches_ignoreTime, reaches_clock, untouched, correlates, requested, mapped,
    snapshot, previousTime, ignoreTime;
  js_run;
  destruct hf; cbn; try reflexivity;
  destruct comp; cbn; try reflexivity;
  destruct chrome; cbn; try reflexivity;
  destruct windows; cbn; try reflexivity;
  destruct (t - prev <? 5); cbn; try reflexivity;
  destruct (t - ign <? 100); cbn; try reflexivity;
  destruct (selectionStartPosition st); cbn; try reflexivity;
  destruct (selectionEndPosition st); cbn; try reflexivity;
  destruct (JsString.eqb (value st) (el_value el)); cbn; try reflexivity;
  destruct (selectionStart st =? el_selectionStart el); cbn; try reflexivity;
  destruct (selectionEnd st =? el_selectionEnd el); cbn; try reflexivity.

Lemma on_selectionchange_fired (w : World) :
  fired on_selectionchange w
  = if reaches_ignoreTime w && untouched w && correlates w
    then [onSelectionChangeRequest (requested w)] else [].
Proof. selectionchange_cases w. Qed.

Lemma on_selectionchange_previous (w : World) :
  previousTime (after on_selectionchange w)
  = if reaches_clock w then now w else previousTime w.
Proof. selectionchange_cases w. Qed.

Lemma on_selectionchange_ignoreTime (w : World) :
  ignoreTime (after on_selectionchange w)
  = if reaches_ignoreTime w then 0 else ignoreTime w.
Proof. selectionchange_cases w. Qed.

(** The listener changes nothing but the two timestamps. *)
Lemma on_selectionchange_rest (w : World) :
  let w' := after on_selectionchange w in
  snapshot w' = snapshot w ∧ domNode w' = domNode w
  ∧ _hasFocus (this w') = _hasFocus (this w)
  ∧ _isDoingComposition (this w') = _isDoingComposition (this w)
  ∧ _nextCommand (this w') = _nextCommand (this w).
Proof. selectionchange_cases w; repeat split. Qed.

End Engine.

Section SelectionChange.

Context {browser : Browser} {_host : ITextAreaInputHost} {ops : TextAreaStateOps}.

Lemma other_signals_keep_previous_run (steps : list (Platform * Signal)) (w : World) :
  Forall (λ x, x.2 ≠ selectionchange) steps →
  previousTime (run steps w) = previousTime w.
Proof.
  intros H. revert w. induction H as [|[p s] rest Hs _ IH]; intros w; [reflexivity|].
  cbn [run]. rewrite IH. rewrite (other_signals_keep_previous s Hs (arrive p w)).
  reflexivity.
Qed.

(** C1: the engine fires no selection-change-request while a composition is
    in progress, while it does not have focus, when fewer than 100ms lie
    between the adapter's timestamp ([_ignoreSelectionChangeTime], as the
    listener reads it) and the clock, or when the value of the textarea
    differs from the value of the current snapshot: in each of these cases
    the selectionchange listener fires nothing at all, and no other signal
    ever fires a request. *)
Theorem selection_request_never_when_gated (w : World) :
  _isDoingComposition (this w) = true
  ∨ _hasFocus (this w) = false
  ∨ now w - ignoreTime w < 100
  ∨ el_value (domNode w) ≠ value (snapshot w) →
  fired on_selectionchange w = []
  ∧ ∀ s sel, onSelectionChangeRequest sel ∉ fired (deliver s) w.
Proof.
  intros H.
  assert (fired on_selectionchange w = []) as Hnone.
  { rewrite on_selectionchange_fired.
    unfold reaches_ignoreTime, reaches_clock, untouched, correlates.
    destruct H as [H|[H|[H|H]]].
    - rewrite H. by rewrite andb_false_r.
    - by rewrite H.
    - apply Z.ltb_lt in H. rewrite H. cbn. by rewrite andb_false_r.
    - assert (JsString.eqb (value (snapshot w)) (el_value (domNode w)) = false) as ->.
      { apply JsString_eqb_neq. congruence. }
      cbn. by rewrite !andb_false_r. }
  split; [exact Hnone|]. intros s sel.
  destruct s; try (by apply other_signals_fire_no_request).
  change (fired (deliver selectionchange) w) with (fired on_selectionchange w).
  rewrite Hnone. apply not_elem_of_nil.
Qed.

Lemma arrive_previousTime p w : previousTime (arrive p w) = previousTime w.
Proof. reflexivity. Qed.

Lemma arrive_ignoreTime p w : ignoreTime (arrive p w) = ignoreTime w.
Proof. reflexivity. Qed.

(** C7 (as amended): of two selection-change signals that arrive under 5ms
    apart, with any other signals in between, at most one gets past the
    burst filter and at most one fires a request.  The listener stores the
    clock in [previousSelectionChangeEventTime] whenever it gets past the
    three gates before it (focus, no composition, Chrome on Windows),
    whether or not the burst filter then passes; a signal stopped by one of
    those gates leaves the stored time as it was. *)
Theorem burst_coalescing (w1 : World) (between : list (Platform * Signal)) (p2 : Platform) :
  Forall (λ x, x.2 ≠ selectionchange) between →
  p_now p2 - now w1 < 5 →
  let w2 := arrive p2 (run between (after on_selectionchange w1)) in
  (reaches_ignoreTime w1 = false ∨ reaches_ignoreTime w2 = false)
  ∧ (fired on_selectionchange w1 = [] ∨ fired on_selectionchange w2 = [])
  ∧ previousTime (after on_selectionchange w1)
    = (if reaches_clock w1 then now w1 else previousTime w1).
Proof.
  intros Hbetween Hclose w2.
  assert (reaches_ignoreTime w1 = false ∨ reaches_ignoreTime w2 = false) as Hone.
  { destruct (reaches_clock w1) eqn:Hgates.
    - right. unfold reaches_ignoreTime, w2.
      rewrite arrive_previousTime, other_signals_keep_previous_run by done.
      rewrite on_selectionchange_previous, Hgates. cbn [now arrive].
      apply Z.ltb_lt in Hclose. rewrite Hclose. by rewrite andb_false_r.
    - left. unfold reaches_ignoreTime. by rewrite Hgates. }
  split; [exact Hone|]. split; [|apply on_selectionchange_previous].
  rewrite !on_selectionchange_fired.
  destruct Hone as [-> | ->]; [left|right]; reflexivity.
Qed.

(** C10: when the selectionchange listener gets to the comparison with the
    adapter's timestamp, it leaves that timestamp at zero.  The next
    selection-change signal that gets as far therefore meets a zero
    timestamp and, the clock reading at least 100, is not rejected as
    self-inflicted: if the snapshot correlates with the textarea it fires
    the request.  So one self-inflicted write rejects at most one
    evaluation. *)
Theorem self_inflicted_window_rejects_once (w : World) (p : Platform) :
  reaches_ignoreTime w = true →
  let w1 := after on_selectionchange w in
  let w2 := arrive p w1 in
  ignoreTime w1 = 0
  ∧ ignoreTime w2 = 0
  ∧ (100 ≤ p_now p → untouched w2 = true)
  ∧ (100 ≤ p_now p → reaches_ignoreTime w2 = true → correlates w2 = true →
     fired on_selectionchange w2 = [onSelectionChangeRequest (requested w2)]).
Proof.
  intros Hreach w1 w2.
  assert (ignoreTime w1 = 0) as H1.
  { unfold w1. by rewrite on_selectionchange_ignoreTime, Hreach. }
  assert (ignoreTime w2 = 0) as H2 by (unfold w2; by rewrite arrive_ignoreTime).
  assert (100 ≤ p_now p → untouched w2 = true) as H3.
  { intros Hclock. unfold untouched. rewrite H2. cbn [w2 now arrive].
    apply negb_true_iff, Z.ltb_ge. lia. }
  repeat split; try done.
  intros Hclock Hreach2 Hcorr. rewrite on_selectionchange_fired, Hreach2, H3, Hcorr; done.
Qed.

End SelectionChange.

Section Input.

Context {browser : Browser} {_host : ITextAreaInputHost} {ops : TextAreaStateOps}.

Lemma isLoneHighSurrogate_true (typeInput : ITypeData) :
  isLoneHighSurrogate typeInput = true
  ↔ replaceCharCnt typeInput = 0
    ∧ ∃ c, text typeInput = [c] ∧ 0xD800 ≤ c ≤ 0xDBFF.
Proof.
  unfold isLoneHighSurrogate, isHighSurrogate, JsString.length, JsString.charCodeAt.
  destruct typeInput as [[|c [|c' rest]] n]; cbn [text replaceCharCnt length].
  - rewrite andb_false_r. cbn. split; [done|]. intros [_ (c & ? & _)]. done.
  - change (Z.to_nat 0) with 0%nat. change (Z.of_nat 1) with 1. cbn.
    rewrite !andb_true_iff, Z.eqb_eq, !Z.leb_le.
    split.
    + intros [[-> _] [? ?]]. split; [done|]. exists c. split; [done|lia].
    + intros (-> & c0 & Heq & ?). simplify_eq. repeat split; lia.
  - replace (Z.of_nat (S (S (length rest))) =? 1) with false by (symmetry; apply Z.eqb_neq; lia).
    rewrite andb_false_r. cbn. split; [done|]. intros [_ (c0 & ? & _)]. done.
Qed.

(** The input listener outside composition, in one equation. *)
Lemma on_input_outside_composition (w : World) :
  _isDoingComposition (this w) = false →
  let touched := upd_this (upd_textArea (set_ignoreSelectionChangeTime (now w))) w in
  let typeInput := deduced w in
  on_input w =
    if isLoneHighSurrogate typeInput then (Normal (), touched, [])
    else
      let el := domNode w in
      let newState := readFromTextArea (snapshot w) (el_value el) (el_selectionStart el)
                                       (el_selectionEnd el) in
      (Normal (),
       upd_this (set_nextCommand Type_) (upd_this (set_textAreaState newState) touched),
       if JsString.eqb (text typeInput) [] then []
       else match _nextCommand (this w) with
            | Type_ => [Fire (onType typeInput)]
            | Paste => [Fire (onPaste (text typeInput))]
            end).
Proof.
  destruct w as [[[el ign] armed st hf comp nc prev] t legacy force].
  cbn [this _isDoingComposition]. intros ->.
  unfold deduced, snapshot. js_run.
  destruct (isLoneHighSurrogate _); [reflexivity|]. cbn.
  destruct nc; cbn; destruct (JsString.eqb _ []); reflexivity.
Qed.

(** C4: outside composition, when the deduced intent replaces nothing and
    its text is exactly one high-surrogate code unit, the input listener
    fires no event at all (so no type and no paste event) and leaves the
    current snapshot as it was, for the next signal; the pending command
    stays as it was, too. *)
Theorem lone_high_surrogate_suppressed (w : World) :
  _isDoingComposition (this w) = false →
  replaceCharCnt (deduced w) = 0 →
  (∃ c, text (deduced w) = [c] ∧ 0xD800 ≤ c ≤ 0xDBFF) →
  fired on_input w = []
  ∧ snapshot (after on_input w) = snapshot w
  ∧ _nextCommand (this (after on_input w)) = _nextCommand (this w).
Proof.
  intros Hcomp Hcnt Htext.
  unfold fired, trace, after. rewrite on_input_outside_composition by done.
  cbv zeta. rewrite (proj2 (isLoneHighSurrogate_true _)) by done.
  repeat split; reflexivity.
Qed.

(** What the input listener fires outside composition once the surrogate
    test has passed, and the pending command it leaves. *)
Lemma on_input_fired (w : World) :
  _isDoingComposition (this w) = false →
  isLoneHighSurrogate (deduced w) = false →
  fired on_input w =
    (if JsString.eqb (text (deduced w)) [] then []
     else match _nextCommand (this w) with
          | Type_ => [onType (deduced w)]
          | Paste => [onPaste (text (deduced w))]
          end)
  ∧ _nextCommand (this (after on_input w)) = Type_.
Proof.
  intros Hcomp Hsur.
  unfold fired, trace, after. rewrite on_input_outside_composition by done.
  cbv zeta. rewrite Hsur. cbn.
  split; [|reflexivity].
  destruct (JsString.eqb _ []); [reflexivity|]. by destruct (_nextCommand _).
Qed.

(** C3 (as amended): outside composition, and unless the deduced intent is
    the lone high surrogate that the listener suppresses, a non-empty
    deduced text is fired as one type event when the pending command is
    [Type_] and as one paste event carrying that text when it is [Paste];
    an empty text fires nothing; and the pending command is [Type_]
    afterwards in every one of these cases. *)
Theorem input_fires_type_or_paste (w : World) :
  _isDoingComposition (this w) = false →
  isLoneHighSurrogate (deduced w) = false →
  (text (deduced w) ≠ [] → _nextCommand (this w) = Type_ →
     fired on_input w = [onType (deduced w)])
  ∧ (text (deduced w) ≠ [] → _nextCommand (this w) = Paste →
     fired on_input w = [onPaste (text (deduced w))])
  ∧ (text (deduced w) = [] → fired on_input w = [])
  ∧ _nextCommand (this (after on_input w)) = Type_.
Proof.
  intros Hcomp Hsur.
  destruct (on_input_fired w Hcomp Hsur) as [Hf Hn]. rewrite Hf.
  split; [|split; [|split]]; try done.
  - intros Ht ->. apply JsString_eqb_neq in Ht. by rewrite Ht.
  - intros Ht ->. apply JsString_eqb_neq in Ht. by rewrite Ht.
  - intros ->. reflexivity.
Qed.

End Input.

Section Composition.

Context {browser : Browser} {_host : ITextAreaInputHost} {ops : TextAreaStateOps}.

(** Writing a snapshot: it becomes the current one (collapsed when the
    engine has no focus), the textarea holds its value, nothing is fired and
    no flag of the engine changes. *)
Lemma setAndWriteTextAreaState_effect (reason : string) (s : TextAreaState) (w : World) :
  let s' := if _hasFocus (this w) then s else collapseSelection s in
  let w' := after (_setAndWriteTextAreaState reason s) w in
  result (_setAndWriteTextAreaState reason s) w = Normal ()
  ∧ trace (_setAndWriteTextAreaState reason s) w = []
  ∧ snapshot w' = s'
  ∧ el_value (domNode w') = value s'
  ∧ _hasFocus (this w') = _hasFocus (this w)
  ∧ _isDoingComposition (this w') = _isDoingComposition (this w)
  ∧ _nextCommand (this w') = _nextCommand (this w).
Proof.
  destruct w as [[[[v a b att] ign] armed st hf comp nc prev] t legacy force].
  destruct browser as [edgeOrIE edge chrome chromev56 firefox mac windows iframe throws].
  unfold snapshot. js_run.
  destruct hf; cbn.
  - destruct (JsString.eqb v (value s)) eqn:Hv; cbn.
    + apply JsString_eqb_eq in Hv. subst v.
      destruct att as [|[|]]; cbn;
        repeat (case_match; simplify_eq/=); repeat split; reflexivity.
    + destruct att as [|[|]]; cbn;
        repeat (case_match; simplify_eq/=); repeat split; reflexivity.
  - destruct (JsString.eqb v (value s)) eqn:Hv; cbn.
    + apply JsString_eqb_eq in Hv. subst v. repeat split; reflexivity.
    + repeat split; reflexivity.
Qed.


Lemma collapseSelection_EMPTY : collapseSelection EMPTY = EMPTY.
Proof. reflexivity. Qed.

(** Resetting to the empty snapshot, with or without focus. *)
Lemma reset_to_EMPTY (reason : string) (w : World) :
  let w' := after (_setAndWriteTextAreaState reason EMPTY) w in
  result (_setAndWriteTextAreaState reason EMPTY) w = Normal ()
  ∧ trace (_setAndWriteTextAreaState reason EMPTY) w = []
  ∧ snapshot w' = EMPTY
  ∧ el_value (domNode w') = []
  ∧ _hasFocus (this w') = _hasFocus (this w)
  ∧ _isDoingComposition (this w') = _isDoingComposition (this w)
  ∧ _nextCommand (this w') = _nextCommand (this w).
Proof.
  pose proof (setAndWriteTextAreaState_effect reason EMPTY w) as H.
  cbv zeta in *. rewrite collapseSelection_EMPTY in H.
  destruct (_hasFocus (this w)); exact H.
Qed.

(** With focus and an attached textarea the reset also leaves the caret
    of the textarea at offset 0. *)
Lemma reset_to_EMPTY_selection (reason : string) (w : World) :
  _hasFocus (this w) = true →
  el_attachment (domNode w) ≠ OffDOM →
  let w' := after (_setAndWriteTextAreaState reason EMPTY) w in
  el_selectionStart (domNode w') = 0 ∧ el_selectionEnd (domNode w') = 0.
Proof.
  destruct w as [[[[v a b att] ign] armed st hf comp nc prev] t legacy force].
  destruct browser as [edgeOrIE edge chrome chromev56 firefox mac windows iframe throws].
  cbn [this _hasFocus domNode _textArea _actual el_attachment]. intros -> Hatt.
  js_run.
  destruct (JsString.eqb v []) eqn:Hv; cbn.
  - apply JsString_eqb_eq in Hv. subst v.
    destruct att as [|[|]]; [done| |]; cbn.
    + destruct (a =? 0) eqn:Ha, (b =? 0) eqn:Hb; cbn;
        rewrite ?Z.eqb_eq in *; subst;
        repeat (case_match; simplify_eq/=); done.
    + done.
  - destruct att as [|[|]]; [done| |]; cbn; repeat (case_match; simplify_eq/=); done.
Qed.

(** C6: a composition-start signal that arrives while the engine is
    composing changes nothing and fires nothing.  Otherwise the engine is
    composing afterwards and fires exactly one composition-start event; on
    Edge/IE, where writing the textarea would cancel the composition,
    snapshot and textarea are left alone; elsewhere the snapshot is [EMPTY]
    and the textarea holds the empty value. *)
Theorem compositionstart_enters_once (w : World) :
  (_isDoingComposition (this w) = true →
     on_compositionstart w = (Normal (), w, []))
  ∧ (_isDoingComposition (this w) = false →
     let w' := after on_compositionstart w in
     _isDoingComposition (this w') = true
     ∧ fired on_compositionstart w = [onCompositionStart]
     ∧ (isEdgeOrIE = true → snapshot w' = snapshot w ∧ domNode w' = domNode w)
     ∧ (isEdgeOrIE = false → snapshot w' = EMPTY ∧ el_value (domNode w') = [])
     ∧ (isEdgeOrIE = false → _hasFocus (this w) = true → el_attachment (domNode w) ≠ OffDOM →
        el_selectionStart (domNode w') = 0 ∧ el_selectionEnd (domNode w') = 0)).
Proof.
  split; intros Hcomp.
  - unfold on_compositionstart. js_bind_unfold. by rewrite Hcomp.
  - pose proof (reset_to_EMPTY "compositionstart" (upd_this (set_isDoingComposition true) w))
      as (Hr & Ht & Hs & Hv & _ & Hc & _).
    pose proof (reset_to_EMPTY_selection "compositionstart"
                  (upd_this (set_isDoingComposition true) w)) as Hsel.
    unfold fired, trace, after, result in *.
    unfold on_compositionstart. js_bind_unfold. rewrite Hcomp. cbn.
    destruct isEdgeOrIE; cbn.
    + repeat split; try done.
    + destruct (_setAndWriteTextAreaState _ _ _) as [[r w1] t1]. cbn in *. subst r t1. cbn.
      split; [done|]. split; [done|]. split; [done|]. split; [done|].
      intros _ Hf Hatt. apply Hsel; by destruct w as [[[? ?] ? ? ? ? ? ?] ? ? ?].
Qed.

Lemma on_compositionend_eq (e : CompositionEvent) (w : World) :
  on_compositionend e w =
    let w1 := upd_this (set_textAreaState (compositionend_stored e w)) w in
    if _isDoingComposition (this w) then
      (Normal (), upd_this (set_isDoingComposition false) w1,
       [Fire (onType (composed e w)); Fire onCompositionEnd])
    else (Normal (), w1, [Fire (onType (composed e w))]).
Proof.
  destruct w as [[[el ign] armed st hf comp nc prev] t legacy force].
  destruct browser as [edgeOrIE edge chrome chromev56 firefox mac windows iframe throws].
  unfold compositionend_stored, composed, snapshot. js_run.
  destruct edgeOrIE, (is_ja e), chrome, comp; reflexivity.
Qed.

(** C5 (as amended): a composition-end signal that arrives while the engine
    is not composing fires no composition-end event and leaves the engine
    not composing.  It is not without effect: the listener has by then
    fired the type event it deduces for the signal, and that is the one
    event it fires; and it has stored the new snapshot (the event's text,
    fully selected, or what the read-and-diff path for Japanese on Edge/IE
    has read; re-read from the textarea on Edge/IE and Chrome).  The stored
    snapshot is the only change of the world: the textarea, the adapter's
    timestamp and the other fields of the engine are as before. *)
Theorem compositionend_without_start (e : CompositionEvent) (w : World) :
  _isDoingComposition (this w) = false →
  (onCompositionEnd ∉ fired (on_compositionend e) w)
  ∧ fired (on_compositionend e) w = [onType (composed e w)]
  ∧ result (on_compositionend e) w = Normal ()
  ∧ _isDoingComposition (this (after (on_compositionend e) w)) = false
  ∧ snapshot (after (on_compositionend e) w) = compositionend_stored e w
  ∧ (isEdgeOrIE = false → isChrome = false →
     snapshot (after (on_compositionend e) w) = selectedText (data e))
  ∧ after (on_compositionend e) w
    = upd_this (set_textAreaState (snapshot (after (on_compositionend e) w))) w.
Proof.
  intros Hcomp. unfold fired, trace, after, result.
  rewrite on_compositionend_eq. cbv zeta. rewrite Hcomp. cbn.
  split; [|split; [done|split; [done|split; [done|split; [done|split; [|done]]]]]].
  - intros Hin. apply list_elem_of_singleton in Hin. discriminate.
  - intros Hedge Hchrome. unfold snapshot. cbn. unfold compositionend_stored.
    rewrite Hedge, Hchrome. reflexivity.
Qed.

End Composition.

Section Paste.

Context {browser : Browser} {_host : ITextAreaInputHost} {ops : TextAreaStateOps}.

Import ClipboardEventUtils.


Lemma on_paste_with_api (e : ClipboardEvent) (w : World) :
  ¬ no_clipboard_api e w →
  on_paste e w =
    (Normal (preventDefault e),
     upd_this (upd_textArea (set_ignoreSelectionChangeTime (now w))) w,
     if JsString.eqb (clipboard_text e w) [] then []
     else [Fire (onPaste (clipboard_text e w))]).
Proof.
  intros Hapi. unfold no_clipboard_api, clipboard_text in *.
  destruct e as [cd dp], w as [[[el ign] armed st hf comp nc prev] t legacy force].
  cbn in *. js_run.
  destruct cd as [d|]; cbn.
  - destruct (JsString.eqb _ []); reflexivity.
  - destruct legacy as [d|]; cbn; [|by destruct Hapi].
    destruct (JsString.eqb _ []); reflexivity.
Qed.


End Paste.

Section Staging.

Context {browser : Browser} {_host : ITextAreaInputHost} {ops : TextAreaStateOps}.

Import ClipboardEventUtils.

Lemma setTextData_event (e : ClipboardEvent) (t : jsstring) (rich : option jsstring)
    (d : DataTransfer) (w : World) :
  clipboardData e = Some d →
  setTextData e t rich w =
    (Normal (mkClipboardEvent
               (Some match rich with
                     | Some html => <["text/html" := html]> (<["text/plain" := t]> d)
                     | None => <["text/plain" := t]> d
                     end) true), w, []).
Proof. destruct e as [cd dp]. cbn. intros ->. reflexivity. Qed.

Lemma setTextData_legacy (e : ClipboardEvent) (t : jsstring) (rich : option jsstring)
    (d : DataTransfer) (w : World) :
  clipboardData e = None → window_clipboardData w = Some d →
  setTextData e t rich w =
    (Normal (mkClipboardEvent None true),
     set_window_clipboardData (Some (<["Text" := t]> d)) w, []).
Proof.
  destruct e as [cd dp], w as [th now_ legacy force]. cbn. intros -> ->. reflexivity.
Qed.

(** With a clipboard API the staging is one [setTextData]; without one the
    text is staged in the textarea, selected. *)
Lemma ensureClipboardGetsEditorSelection_eq (e : ClipboardEvent) (w : World) :
  _ensureClipboardGetsEditorSelection e w =
    if truthy (clipboardData e) || truthy (window_clipboardData w) then
      match setTextData e getPlainTextToCopy
              (if asksForHTML w then Some getHTMLToCopy else None) w with
      | (r, w1, t1) =>
          (r, w1, Ask getPlainTextToCopy_call
                  :: (if asksForHTML w then [Ask getHTMLToCopy_call] else []) ++ t1)
      end
    else
      match _setAndWriteTextAreaState "copy or cut" (selectedText getPlainTextToCopy) w with
      | (Normal _, w1, t1) => (Normal e, w1, Ask getPlainTextToCopy_call :: t1 ++ [])
      | (Throw msg, w1, t1) => (Throw msg, w1, Ask getPlainTextToCopy_call :: t1)
      end.
Proof.
  unfold _ensureClipboardGetsEditorSelection, host_getPlainTextToCopy, host_getHTMLToCopy,
    asksForHTML, ask.
  js_bind_unfold. cbn. rewrite canUseTextData_spec.
  destruct (truthy (clipboardData e) || truthy (window_clipboardData w)); cbn.
  - destruct (negb isEdgeOrIE && _); cbn;
      destruct (setTextData _ _ _ _) as [[[r|msg] w1] t1]; reflexivity.
  - destruct (_setAndWriteTextAreaState _ _ _) as [[[[]|msg] w1] t1]; reflexivity.
Qed.

Lemma setTextData_trace (e : ClipboardEvent) (t : jsstring) (rich : option jsstring) (w : World) :
  trace (setTextData e t rich) w = [].
Proof.
  destruct e as [[d|] dp], w as [th now_ [legacy|] force]; reflexivity.
Qed.

Lemma ensureClipboardGetsEditorSelection_trace (e : ClipboardEvent) (w : World) :
  trace (_ensureClipboardGetsEditorSelection e) w =
    Ask getPlainTextToCopy_call
    :: (if (truthy (clipboardData e) || truthy (window_clipboardData w)) && asksForHTML w
        then [Ask getHTMLToCopy_call] else []).
Proof.
  unfold trace at 1. rewrite ensureClipboardGetsEditorSelection_eq.
  destruct (truthy (clipboardData e) || truthy (window_clipboardData w)); cbn.
  - pose proof (setTextData_trace e getPlainTextToCopy
                  (if asksForHTML w then Some getHTMLToCopy else None) w) as Ht.
    unfold trace in Ht.
    destruct (setTextData _ _ _ _) as [[r w1] t1]. cbn in *. subst t1.
    by destruct (asksForHTML w).
  - pose proof (setAndWriteTextAreaState_effect "copy or cut"
                  (selectedText getPlainTextToCopy) w) as (Hr & Ht & _).
    unfold trace, result in *.
    destruct (_setAndWriteTextAreaState _ _ _) as [[r w1] t1]. cbn in *. by subst r t1.
Qed.

Lemma asks_in_trace (b : bool) :
  Ask getHTMLToCopy_call
  ∈ Ask getPlainTextToCopy_call :: (if b then [Ask getHTMLToCopy_call] else [])
  ↔ b = true.
Proof.
  destruct b; split; intros H; try done.
  - apply elem_of_cons. right. by apply list_elem_of_singleton.
  - apply elem_of_cons in H as [H|H]; [discriminate|].
    by apply not_elem_of_nil in H.
Qed.

(** C8 (as amended): staging for cut/copy asks the host for HTML if and
    only if a clipboard API is there, the browser is not Edge/IE, and the
    plain text is shorter than 65536 code units or
    [forceCopyWithSyntaxHighlighting] is set; with an API the staging is the
    write of the host's plain text, together with the HTML if it was asked
    for: the event it hands back and the world it leaves are those of that
    write.  With the event's own clipboard data the write stores the plain
    text under text/plain, and stores text/html exactly when a rich text is
    given; with only the legacy clipboard it stores the plain text under
    Text, never touches text/html, and the event carries no data.  So after
    the staging the host's plain text is in the event's clipboard data
    under text/plain, or else in the legacy clipboard under Text, and
    nothing else of the world has changed. *)
Theorem clipboard_staging (e : ClipboardEvent) (w : World) :
  (Ask getHTMLToCopy_call ∈ trace (_ensureClipboardGetsEditorSelection e) w
   ↔ ¬ no_clipboard_api e w
     ∧ isEdgeOrIE = false
     ∧ (JsString.length getPlainTextToCopy < 65536
        ∨ forceCopyWithSyntaxHighlighting w = true))
  ∧ (¬ no_clipboard_api e w →
     result (_ensureClipboardGetsEditorSelection e) w
     = result (setTextData e getPlainTextToCopy
                 (if asksForHTML w then Some getHTMLToCopy else None)) w
     ∧ after (_ensureClipboardGetsEditorSelection e) w
       = after (setTextData e getPlainTextToCopy
                  (if asksForHTML w then Some getHTMLToCopy else None)) w)
  ∧ (∀ t rich d, clipboardData e = Some d →
       ∃ d', result (setTextData e t rich) w = Normal (mkClipboardEvent (Some d') true)
             ∧ d' !! "text/plain" = Some t
             ∧ d' !! "text/html" = match rich with
                                   | Some html => Some html
                                   | None => d !! "text/html"
                                   end
             ∧ after (setTextData e t rich) w = w)
  ∧ (∀ t rich d, clipboardData e = None → window_clipboardData w = Some d →
       ∃ d', result (setTextData e t rich) w = Normal (mkClipboardEvent None true)
             ∧ window_clipboardData (after (setTextData e t rich) w) = Some d'
             ∧ d' !! "Text" = Some t
             ∧ d' !! "text/html" = d !! "text/html")
  ∧ (∀ d, clipboardData e = Some d →
       ∃ d', result (_ensureClipboardGetsEditorSelection e) w
             = Normal (mkClipboardEvent (Some d') true)
             ∧ d' !! "text/plain" = Some getPlainTextToCopy
             ∧ d' !! "text/html" = (if asksForHTML w then Some getHTMLToCopy
                                    else d !! "text/html")
             ∧ after (_ensureClipboardGetsEditorSelection e) w = w)
  ∧ (∀ d, clipboardData e = None → window_clipboardData w = Some d →
       ∃ d', result (_ensureClipboardGetsEditorSelection e) w
             = Normal (mkClipboardEvent None true)
             ∧ after (_ensureClipboardGetsEditorSelection e) w
               = set_window_clipboardData (Some d') w
             ∧ d' !! "Text" = Some getPlainTextToCopy
             ∧ d' !! "text/html" = d !! "text/html").
Proof.
  assert (¬ no_clipboard_api e w →
          _ensureClipboardGetsEditorSelection e w
          = (result (setTextData e getPlainTextToCopy
                       (if asksForHTML w then Some getHTMLToCopy else None)) w,
             after (setTextData e getPlainTextToCopy
                      (if asksForHTML w then Some getHTMLToCopy else None)) w,
             trace (_ensureClipboardGetsEditorSelection e) w)) as Hstaged.
  { intros Hapi. unfold trace at 1. rewrite ensureClipboardGetsEditorSelection_eq.
    assert (truthy (clipboardData e) || truthy (window_clipboardData w) = true) as ->.
    { unfold no_clipboard_api in Hapi.
      destruct (clipboardData e), (window_clipboardData w); cbn; try done.
      by destruct Hapi. }
    unfold result, after. by destruct (setTextData _ _ _ _) as [[r w1] t1]. }
  split; [|split; [|split; [|split; [|split]]]].
  - rewrite ensureClipboardGetsEditorSelection_trace, asks_in_trace.
    unfold no_clipboard_api, asksForHTML.
    rewrite !andb_true_iff, orb_true_iff, negb_true_iff, orb_true_iff, Z.ltb_lt.
    destruct (clipboardData e), (window_clipboardData w); cbn; intuition congruence.
  - intros Hapi. unfold result at 1, after at 1. by rewrite (Hstaged Hapi).
  - intros t rich d Hd. exists (match rich with
                               | Some html => <["text/html" := html]> (<["text/plain" := t]> d)
                               | None => <["text/plain" := t]> d
                               end).
    unfold result, after. rewrite (setTextData_event _ _ _ d) by done. cbn.
    destruct rich; simplify_map_eq; done.
  - intros t rich d He Hw. exists (<["Text" := t]> d).
    unfold result, after. rewrite (setTextData_legacy _ _ _ d) by done. cbn.
    simplify_map_eq. done.
  - intros d Hd.
    assert (¬ no_clipboard_api e w) as Hapi by (intros [H _]; congruence).
    exists (if asksForHTML w
            then <["text/html" := getHTMLToCopy]> (<["text/plain" := getPlainTextToCopy]> d)
            else <["text/plain" := getPlainTextToCopy]> d).
    unfold result at 1, after at 1. rewrite (Hstaged Hapi). cbn [fst snd].
    unfold result, after. rewrite (setTextData_event _ _ _ d) by done. cbn.
    destruct (asksForHTML w); simplify_map_eq; done.
  - intros d He Hw.
    assert (¬ no_clipboard_api e w) as Hapi by (intros [_ H]; congruence).
    exists (<["Text" := getPlainTextToCopy]> d).
    unfold result at 1, after at 1. rewrite (Hstaged Hapi). cbn [fst snd].
    unfold result, after. rewrite (setTextData_legacy _ _ _ d) by done. cbn.
    simplify_map_eq. done.
Qed.

End Staging.

(** ** No listener throws *)

Section Safe.

Lemma safe_ret {A} (a : A) : safe (mret a).
Proof. intros w. by exists a. Qed.

Lemma safe_bind {A C} (m : Js A) (k : A → Js C) :
  safe m → (∀ a, safe (k a)) → safe (m ≫= k).
Proof.
  intros Hm Hk w. destruct (Hm w) as [a Ha]. unfold result in *.
  unfold mbind, Js_bind. destruct (m w) as [[r w1] t1]. cbn in Ha. subst r.
  destruct (Hk a w1) as [c Hc]. unfold result in Hc.
  destruct (k a w1) as [[r w2] t2]. cbn in *. by exists c.
Qed.

Lemma safe_gets {A} (g : World → A) : safe (gets g).
Proof. intros w. by eexists. Qed.

Lemma safe_modify g : safe (modify g).
Proof. intros w. by eexists. Qed.

Lemma safe_fire ev : safe (fire ev).
Proof. intros w. by eexists. Qed.

Lemma safe_ask c : safe (ask c).
Proof. intros w. by eexists. Qed.

(** The empty catch clause absorbs whatever the body throws. *)
Lemma safe_try body : safe (try_catch_ignore body).
Proof.
  intros w. unfold result, try_catch_ignore.
  destruct (body w) as [[[[]|msg] w1] t1]; by eexists.
Qed.

End Safe.

Section SafeAdapter.

Context {browser : Browser}.

(** [textArea.setSelectionRange] is reached outside the [try] only when
    the textarea is the active element, hence attached. *)
Lemma safe_setSelectionRange reason selStart selEnd :
  safe (setSelectionRange reason selStart selEnd).
Proof.
  intros [[[[v a b att] ign] armed st hf comp nc prev] t legacy force].
  destruct browser as [edgeOrIE edge chrome chromev56 firefox mac windows iframe throws].
  js_run. destruct att as [|[|]]; cbn; repeat (case_match; simplify_eq/=); by eexists.
Qed.

End SafeAdapter.

Ltac safe_step :=
  first
    [ apply safe_ret | apply safe_gets | apply safe_fire | apply safe_ask
    | apply safe_modify | apply safe_try
    | apply safe_setSelectionRange
    | apply safe_bind; [|intros ?]
    | match goal with
      | |- safe (if ?b then _ else _) => destruct b
      | |- safe (match ?x with _ => _ end) => destruct x
      end
    | progress cbv zeta
    | progress unfold when, field, assign, Date_now, dom_assign_value, dom_focus,
        setIgnoreSelectionChangeTime, getIgnoreSelectionChangeTime, resetSelectionChangeTime,
        getValue, setValue, getSelectionStart, getSelectionEnd,
        writeToTextArea, read_textArea,
        host_getPlainTextToCopy, host_getHTMLToCopy, host_getScreenReaderContent,
        host_deduceModelPosition,
        _setAndWriteTextAreaState, writeScreenReaderContent, _setHasFocus,
        on_keydown, on_keyup, on_compositionstart, deduceInputFromTextAreaValue,
        deduceComposition, on_compositionupdate, on_compositionend, on_input, on_cut,
        on_asyncTriggerCut, on_copy, on_focus, on_blur, on_selectionchange, deliver ].

Section NeverThrows.

Context {browser : Browser} {_host : ITextAreaInputHost} {ops : TextAreaStateOps}.

Import ClipboardEventUtils.

Lemma safe_canUseTextData e : safe (canUseTextData e).
Proof. intros w. unfold result. rewrite canUseTextData_spec. by eexists. Qed.

(** The clipboard is only read and written behind [canUseTextData]. *)
Lemma safe_ensureClipboardGetsEditorSelection e :
  safe (_ensureClipboardGetsEditorSelection e).
Proof.
  assert (∀ reason s, safe (_setAndWriteTextAreaState reason s)) as Hwrite.
  { intros reason s. repeat safe_step. }
  intros w. unfold result. rewrite ensureClipboardGetsEditorSelection_eq.
  destruct (clipboardData e) as [d|] eqn:He; cbn.
  - rewrite (setTextData_event _ _ _ d) by done. by eexists.
  - destruct (window_clipboardData w) as [d|] eqn:Hw; cbn.
    + rewrite (setTextData_legacy _ _ _ d) by done. by eexists.
    + destruct (Hwrite "copy or cut" (selectedText getPlainTextToCopy) w) as [[] Ha].
      unfold result in Ha.
      destruct (_setAndWriteTextAreaState _ _ _) as [[r w1] t1]. cbn in *. subst r.
      by eexists.
Qed.

(** Without a clipboard API the paste listener continues, after touching
    the adapter, with the clean-up of the textarea. *)
Lemma on_paste_no_api_continues (e : ClipboardEvent) (w : World) :
  no_clipboard_api e w →
  on_paste e w =
    (selStart ← getSelectionStart;
     selEnd ← getSelectionEnd;
     when (negb (selStart =? selEnd)) (_setAndWriteTextAreaState "paste" EMPTY);;
     assign (set_nextCommand Paste);;
     mret e)
      (upd_this (upd_textArea (set_ignoreSelectionChangeTime (now w))) w).
Proof.
  intros [He Hw].
  destruct e as [cd dp], w as [[[el ign] armed st hf comp nc prev] t legacy force].
  cbn in He, Hw. subst cd legacy.
  unfold on_paste, canUseTextData, setIgnoreSelectionChangeTime, getSelectionStart,
    getSelectionEnd, Date_now.
  js_bind_unfold. cbn.
  unfold domNode. cbn.
  destruct (el_selectionStart el =? el_selectionEnd el); cbn; try reflexivity.
  destruct (_setAndWriteTextAreaState _ _ _) as [[[[]|msg] w1] t1]; reflexivity.
Qed.

Lemma safe_on_paste e : safe (on_paste e).
Proof.
  intros w.
  destruct (decide (no_clipboard_api e w)) as [Hno|Hapi].
  - assert (safe (selStart ← getSelectionStart;
                  selEnd ← getSelectionEnd;
                  when (negb (selStart =? selEnd)) (_setAndWriteTextAreaState "paste" EMPTY);;
                  assign (set_nextCommand Paste);;
                  mret e)) as Hrest by (repeat safe_step).
    destruct (Hrest (upd_this (upd_textArea (set_ignoreSelectionChangeTime (now w))) w))
      as [a Ha].
    exists a. unfold result in *. rewrite on_paste_no_api_continues by done. exact Ha.
  - unfold result. rewrite on_paste_with_api by done. by eexists.
Qed.

(** Every listener completes normally: the exceptions of the clipboard
    helpers and of the platform's [setSelectionRange] never leave one. *)
Theorem listeners_never_throw (s : Signal) (w : World) :
  result (deliver s) w = Normal ().
Proof.
  assert (safe (deliver s)) as Hsafe.
  { pose proof safe_ensureClipboardGetsEditorSelection as Hc.
    pose proof safe_on_paste as Hp.
    destruct s; repeat first [apply Hc | apply Hp | safe_step]. }
  destruct (Hsafe w) as [[] H]. exact H.
Qed.

End NeverThrows.

(** ** The listeners on explicit inputs *)

(** The two diffing scenarios of the spec, on the instance of the snapshot
    analyses. *)
Example spec_deduceInput_helo :
  spec_deduceInput (mkTextAreaState (JsString.lit "helo") 3 3 None None)
                   (mkTextAreaState (JsString.lit "hello") 4 4 None None) false
  = mkTypeData (JsString.lit "l") 0.
Proof. reflexivity. Qed.

Example spec_deduceInput_delete :
  spec_deduceInput (mkTextAreaState (JsString.lit "select me") 0 9 None None)
                   (mkTextAreaState [] 0 0 None None) false
  = mkTypeData [] 9.
Proof. reflexivity. Qed.

Section OnChrome.

#[local] Existing Instance chromeOnWindows.
#[local] Existing Instance helloHost.
#[local] Existing Instance spec_ops.

(** The engines of [world_focused] and [world_unfocused] are the one the
    constructor builds, after the focus signal and after focus and blur. *)
Lemma world_focused_reachable :
  world_focused
  = arrive (shows (JsString.lit "hello") 0 5 true 1000)
      (run [(shows (JsString.lit "hello") 5 5 true 900, focus)] (constructed page_load)).
Proof. reflexivity. Qed.

Lemma world_unfocused_reachable :
  world_unfocused
  = arrive (shows (JsString.lit "hello") 0 5 false 1000)
      (run [(shows (JsString.lit "hello") 5 5 true 900, focus);
            (shows (JsString.lit "hello") 0 5 false 950, blur)] (constructed page_load)).
Proof. reflexivity. Qed.

Lemma selection_request_never_when_gated_witness :
  _hasFocus (this world_unfocused) = false
  ∧ fired on_selectionchange world_unfocused = [].
Proof.
  split; [reflexivity|].
  refine (proj1 (selection_request_never_when_gated world_unfocused _)).
  right. left. reflexivity.
Defined.



(** A composition-end signal without a composition still fires a type
    event, contrary to C5 as stated. *)
Lemma compositionend_without_start_still_types :
  _isDoingComposition (this world_focused) = false
  ∧ fired (on_compositionend composition_x) world_focused
    = [onType (mkTypeData (JsString.lit "x") 5)]
  ∧ fired (on_compositionend composition_x) world_focused ≠ [].
Proof. split; [reflexivity|]. split; [reflexivity|]. vm_compute. discriminate. Qed.

Lemma compositionend_without_start_witness :
  _isDoingComposition (this world_focused) = false
  ∧ (onCompositionEnd ∉ fired (on_compositionend composition_x) world_focused)
  ∧ _isDoingComposition (this (after (on_compositionend composition_x) world_focused)) = false
  ∧ snapshot world_focused = hello_selected
  ∧ snapshot (after (on_compositionend composition_x) world_focused)
    = mkTextAreaState (JsString.lit "hello") 0 5 None None.
Proof.
  pose proof (compositionend_without_start composition_x world_focused eq_refl)
    as (H1 & _ & _ & H2 & H3 & _).
  split; [reflexivity|]. split; [exact H1|]. split; [exact H2|]. split; [reflexivity|].
  rewrite H3. reflexivity.
Defined.

(** The first composition-start resets and fires; a second one while
    composing changes nothing. *)
Lemma compositionstart_enters_once_witness :
  _isDoingComposition (this world_focused) = false
  ∧ fired on_compositionstart world_focused = [onCompositionStart]
  ∧ snapshot (after on_compositionstart world_focused) = EMPTY
  ∧ on_compositionstart (after on_compositionstart world_focused)
    = (Normal (), after on_compositionstart world_focused, []).
Proof.
  destruct (compositionstart_enters_once world_focused) as [_ Hfirst].
  destruct (Hfirst eq_refl) as (Hflag & Hfired & _ & Hreset & _).
  destruct (compositionstart_enters_once (after on_compositionstart world_focused))
    as [Hagain _].
  split; [reflexivity|]. split; [exact Hfired|]. split; [apply Hreset; reflexivity|].
  apply Hagain. exact Hflag.
Defined.

(** Without any clipboard API both helpers throw. *)
Lemma clipboard_unavailable_iff_witness :
  no_clipboard_api event_without_data world_focused
  ∧ (∃ msg, result (ClipboardEventUtils.getTextData event_without_data) world_focused
            = Throw msg)
  ∧ (∃ msg, result (ClipboardEventUtils.setTextData event_without_data
                      (JsString.lit "hello") None) world_focused = Throw msg).
Proof.
  destruct (clipboard_unavailable_iff event_without_data world_focused)
    as (_ & Hno & Hget & Hset & _).
  assert (no_clipboard_api event_without_data world_focused) as Hapi by (split; reflexivity).
  split; [exact Hapi|]. split.
  - apply Hget, Hno, Hapi.
  - apply Hset, Hno, Hapi.
Defined.

(** On Chrome, with clipboard data on the event, the staging asks for HTML
    and writes both formats. *)
Lemma clipboard_staging_witness :
  ¬ no_clipboard_api event_with_empty_data world_focused
  ∧ Ask getHTMLToCopy_call
    ∈ trace (_ensureClipboardGetsEditorSelection event_with_empty_data) world_focused
  ∧ result (_ensureClipboardGetsEditorSelection event_with_empty_data) world_focused
    = Normal (mkClipboardEvent
                (Some (<["text/html" := JsString.lit "<b>hello</b>"]>
                         (<["text/plain" := JsString.lit "hello"]> ∅))) true)
  ∧ after (_ensureClipboardGetsEditorSelection event_with_empty_data) world_focused
    = world_focused.
Proof.
  destruct (clipboard_staging event_with_empty_data world_focused)
    as (Hasks & Hwrite & _).
  assert (¬ no_clipboard_api event_with_empty_data world_focused) as Hapi.
  { intros [H _]. discriminate H. }
  destruct (Hwrite Hapi) as [Hres Hafter].
  split; [exact Hapi|]. split; [|split].
  - apply Hasks. split; [exact Hapi|]. split; [reflexivity|]. left. reflexivity.
  - rewrite Hres. reflexivity.
  - rewrite Hafter. reflexivity.
Defined.

(** A selection-change signal that arrives without focus does not store
    the clock, contrary to C7 as stated. *)
Lemma burst_timestamp_not_reset_without_focus :
  now world_unfocused = 1000
  ∧ previousTime (after on_selectionchange world_unfocused) = 0
  ∧ previousTime (after on_selectionchange world_unfocused) ≠ now world_unfocused.
Proof. split; [reflexivity|]. split; [reflexivity|]. vm_compute. discriminate. Qed.

(** Two caret movements 3ms apart, with a key-up signal in between: the
    first fires a request, the second none. *)
Lemma burst_coalescing_witness :
  Forall (λ x : Platform * Signal, x.2 ≠ selectionchange) [(caret_moved 1001, keyup key_a)]
  ∧ p_now (caret_moved 1003) - now (arrive (caret_moved 1000) world_focused) < 5
  ∧ fired on_selectionchange (arrive (caret_moved 1000) world_focused)
    = [onSelectionChangeRequest (mkSelection 1 3 1 3)]
  ∧ fired on_selectionchange
      (arrive (caret_moved 1003)
         (run [(caret_moved 1001, keyup key_a)]
            (after on_selectionchange (arrive (caret_moved 1000) world_focused)))) = [].
Proof.
  assert (Forall (λ x : Platform * Signal, x.2 ≠ selectionchange)
            [(caret_moved 1001, keyup key_a)]) as Hb.
  { repeat constructor. discriminate. }
  assert (p_now (caret_moved 1003) - now (arrive (caret_moved 1000) world_focused) < 5) as Hc.
  { cbn. lia. }
  pose proof (burst_coalescing (arrive (caret_moved 1000) world_focused) _ (caret_moved 1003) Hb Hc)
    as (_ & [H|H] & _).
  - exfalso. revert H. vm_compute. discriminate.
  - split; [exact Hb|]. split; [exact Hc|]. split; [reflexivity|exact H].
Defined.

(** The first signal falls into the 100ms after the adapter was touched
    and is rejected; the second, 10ms later and still within those 100ms,
    fires the request. *)
Lemma self_inflicted_window_rejects_once_witness :
  reaches_ignoreTime (arrive (caret_moved 950) world_focused) = true
  ∧ fired on_selectionchange (arrive (caret_moved 950) world_focused) = []
  ∧ fired on_selectionchange
      (arrive (caret_moved 960) (after on_selectionchange (arrive (caret_moved 950) world_focused)))
    = [onSelectionChangeRequest (mkSelection 1 3 1 3)].
Proof.
  pose proof (self_inflicted_window_rejects_once (arrive (caret_moved 950) world_focused)
                (caret_moved 960) eq_refl) as (_ & _ & _ & H).
  split; [reflexivity|]. split; [reflexivity|].
  apply H; [cbn; lia|reflexivity|reflexivity].
Defined.

End OnChrome.

Section OnChromeEmpty.

#[local] Existing Instance chromeOnWindows.
#[local] Existing Instance emptyHost.
#[local] Existing Instance spec_ops.

(** The engine of [world_empty] is the one the constructor builds on an
    empty editor, after the focus signal. *)
Lemma world_empty_reachable :
  world_empty
  = arrive (shows [] 0 0 true 1000)
      (run [(shows [] 0 0 true 900, focus)] (constructed page_load)).
Proof. reflexivity. Qed.

(** A lone high surrogate arrives as the whole input: its text is not
    empty and the pending command is [Type_], yet no type event is fired;
    with the pending command [Paste], no paste event is fired and the
    command stays [Paste], contrary to C3 as stated. *)
Lemma lone_surrogate_is_not_typed :
  _isDoingComposition (this (world_typed half_emoji)) = false
  ∧ text (deduced (world_typed half_emoji)) ≠ []
  ∧ _nextCommand (this (world_typed half_emoji)) = Type_
  ∧ fired on_input (world_typed half_emoji) = []
  ∧ _isDoingComposition (this (world_pasting half_emoji)) = false
  ∧ _nextCommand (this (world_pasting half_emoji)) = Paste
  ∧ fired on_input (world_pasting half_emoji) = []
  ∧ _nextCommand (this (after on_input (world_pasting half_emoji))) ≠ Type_.
Proof.
  split; [reflexivity|]. split; [vm_compute; discriminate|]. split; [reflexivity|].
  split; [reflexivity|]. split; [reflexivity|]. split; [reflexivity|].
  split; [reflexivity|]. vm_compute. discriminate.
Qed.

Lemma input_fires_type_or_paste_witness :
  _isDoingComposition (this (world_typed (JsString.lit "a"))) = false
  ∧ isLoneHighSurrogate (deduced (world_typed (JsString.lit "a"))) = false
  ∧ fired on_input (world_typed (JsString.lit "a"))
    = [onType (mkTypeData (JsString.lit "a") 0)]
  ∧ _nextCommand (this (after on_input (world_typed (JsString.lit "a")))) = Type_.
Proof.
  pose proof (input_fires_type_or_paste (world_typed (JsString.lit "a")) eq_refl eq_refl)
    as (Htype & _ & _ & Hnext).
  split; [reflexivity|]. split; [reflexivity|]. split; [|exact Hnext].
  apply Htype; [discriminate|reflexivity].
Defined.

Lemma lone_high_surrogate_suppressed_witness :
  _isDoingComposition (this (world_typed half_emoji)) = false
  ∧ deduced (world_typed half_emoji) = mkTypeData [0xD83D] 0
  ∧ fired on_input (world_typed half_emoji) = []
  ∧ snapshot (after on_input (world_typed half_emoji)) = empty_document.
Proof.
  split; [reflexivity|]. split; [reflexivity|].
  refine (let H := lone_high_surrogate_suppressed (world_typed half_emoji) eq_refl eq_refl _
          in conj (proj1 H) (proj1 (proj2 H))).
  exists 0xD83D. split; [reflexivity|lia].
Defined.

End OnChromeEmpty.

Section OnEdge.

#[local] Existing Instance edgeOnWindows.
#[local] Existing Instance helloHost.
#[local] Existing Instance spec_ops.

(** On Edge the plain text [hello] is far below the threshold and the
    event has clipboard data, yet the host is not asked for HTML, contrary
    to C8 as stated. *)
Lemma edge_never_asks_for_html :
  JsString.length getPlainTextToCopy < 65536
  ∧ Ask getHTMLToCopy_call
    ∉ trace (_ensureClipboardGetsEditorSelection event_with_empty_data) world_focused.
Proof.
  split; [reflexivity|].
  vm_compute. intros H. apply list_elem_of_singleton in H. discriminate.
Qed.

End OnEdge.

(** * Further properties of the listeners *)

Ltac listener_unfold :=
  progress unfold when, field, assign, Date_now, dom_assign_value, dom_setSelectionRange,
    dom_focus,
    ClipboardEventUtils.canUseTextData, ClipboardEventUtils.getTextData,
    ClipboardEventUtils.setTextData,
    setIgnoreSelectionChangeTime, getIgnoreSelectionChangeTime, resetSelectionChangeTime,
    getValue, setValue, getSelectionStart, getSelectionEnd, setSelectionRange,
    writeToTextArea, read_textArea,
    host_getPlainTextToCopy, host_getHTMLToCopy, host_getScreenReaderContent,
    host_deduceModelPosition,
    _setAndWriteTextAreaState, writeScreenReaderContent, _setHasFocus, focusTextArea,
    _ensureClipboardGetsEditorSelection,
    on_keydown, on_keyup, on_compositionstart, deduceInputFromTextAreaValue,
    deduceComposition, on_compositionupdate, on_compositionend, on_input, on_cut,
    on_asyncTriggerCut, on_copy, on_paste, on_focus, on_blur, on_selectionchange, deliver.

(** One step of a proof that every effect of a program satisfies a
    predicate; [tac] settles the predicate at a fired event. *)
Ltac emits_with tac :=
  first
    [ apply emits_only_ret | apply emits_only_gets | apply emits_only_modify
    | apply emits_only_throw
    | apply emits_only_fire; tac
    | apply emits_only_ask; tac
    | apply emits_only_bind; [|intros ?]
    | apply emits_only_try
    | match goal with
      | |- emits_only _ (if ?b then _ else _) => destruct b
      | |- emits_only _ (match ?x with _ => _ end) => destruct x
      end
    | progress cbv zeta
    | listener_unfold ].


Section Focus.

Context {browser : Browser} {_host : ITextAreaInputHost} {ops : TextAreaStateOps}.

(** The resynchronisation outside composition: one question to the host,
    then the write of its answer. *)
Lemma writeScreenReaderContent_eq (reason : string) (w : World) :
  writeScreenReaderContent reason w =
    if _isDoingComposition (this w) then (Normal (), w, [])
    else
      match _setAndWriteTextAreaState reason (getScreenReaderContent (snapshot w)) w with
      | (r, w1, t1) => (r, w1, Ask (getScreenReaderContent_call (snapshot w)) :: t1)
      end.
Proof.
  unfold writeScreenReaderContent, host_getScreenReaderContent, ask, snapshot.
  js_bind_unfold. cbn.
  destruct (_isDoingComposition (this w)); [reflexivity|]. cbn.
  by destruct (_setAndWriteTextAreaState _ _ _) as [[[[]|msg] w1] t1].
Qed.

Lemma setHasFocus_unchanged (b : bool) (w : World) :
  _hasFocus (this w) = b → _setHasFocus b w = (Normal (), w, []).
Proof.
  intros H. unfold _setHasFocus. js_bind_unfold. cbn. rewrite H.
  by destruct b.
Qed.

Lemma setHasFocus_false (w : World) :
  _hasFocus (this w) = true →
  _setHasFocus false w = (Normal (), upd_this (set_hasFocus false) w, [Fire onBlur]).
Proof.
  intros H. unfold _setHasFocus. js_bind_unfold. cbn. rewrite H. reflexivity.
Qed.

(** What gaining focus writes: the empty snapshot on Edge, the host's
    content elsewhere. *)
Lemma setHasFocus_true (w : World) :
  _hasFocus (this w) = false →
  let w0 := upd_this (set_hasFocus true) w in
  _setHasFocus true w =
    match (if isEdge then _setAndWriteTextAreaState "focusgain" EMPTY
           else writeScreenReaderContent "focusgain") w0 with
    | (Normal _, w1, t1) =>
        (Normal (), w1, t1 ++ [Fire (if _hasFocus (this w1) then onFocus else onBlur)])
    | (Throw msg, w1, t1) => (Throw msg, w1, t1)
    end.
Proof.
  intros H. unfold _setHasFocus. js_bind_unfold. cbn. rewrite H. cbn.
  destruct isEdge.
  - destruct (_setAndWriteTextAreaState _ _ _) as [[[[]|msg] w1] t1]; [|reflexivity].
    by destruct (_hasFocus (this w1)).
  - destruct (writeScreenReaderContent _ _) as [[[[]|msg] w1] t1]; [|reflexivity].
    by destruct (_hasFocus (this w1)).
Qed.


Lemma on_focus_effect (w : World) :
  (_hasFocus (this w) = true → on_focus w = (Normal (), w, []))
  ∧ (_hasFocus (this w) = false →
     let w' := after on_focus w in
     fired on_focus w = [onFocus]
     ∧ _hasFocus (this w') = true
     ∧ _isDoingComposition (this w') = _isDoingComposition (this w)
     ∧ _nextCommand (this w') = _nextCommand (this w)
     ∧ (isEdge = true →
        snapshot w' = EMPTY ∧ el_value (domNode w') = [] ∧ trace on_focus w = [Fire onFocus])
     ∧ (isEdge = false → _isDoingComposition (this w) = false →
        snapshot w' = getScreenReaderContent (snapshot w)
        ∧ el_value (domNode w') = value (getScreenReaderContent (snapshot w))
        ∧ trace on_focus w = [Ask (getScreenReaderContent_call (snapshot w)); Fire onFocus])
     ∧ (isEdge = false → _isDoingComposition (this w) = true →
        snapshot w' = snapshot w ∧ domNode w' = domNode w
        ∧ trace on_focus w = [Fire onFocus])).
Proof.
  split; intros Hf.
  - by apply setHasFocus_unchanged.
  - unfold on_focus, fired, trace, after. rewrite setHasFocus_true by done. cbv zeta.
    set (w0 := upd_this (set_hasFocus true) w).
    assert (_hasFocus (this w0) = true) as Hf0 by reflexivity.
    assert (_isDoingComposition (this w0) = _isDoingComposition (this w)) as Hc0 by reflexivity.
    assert (_nextCommand (this w0) = _nextCommand (this w)) as Hn0 by reflexivity.
    assert (snapshot w0 = snapshot w) as Hs0 by reflexivity.
    assert (domNode w0 = domNode w) as Hd0 by reflexivity.
    destruct isEdge.
    + pose proof (reset_to_EMPTY "focusgain" w0) as (Hr & Ht & Hs & Hv & Hf' & Hc & Hn).
      unfold result, trace, after in *.
      destruct (_setAndWriteTextAreaState _ _ _) as [[r w1] t1]. cbn in *. subst r t1.
      assert (_hasFocus (this w1) = true) as -> by congruence.
      cbn. repeat split; try congruence; discriminate.
    + rewrite writeScreenReaderContent_eq. rewrite Hc0.
      destruct (_isDoingComposition (this w)) eqn:Hcomp.
      * cbn. repeat split; try done.
      * pose proof (setAndWriteTextAreaState_effect "focusgain"
                      (getScreenReaderContent (snapshot w0)) w0)
          as (Hr & Ht & Hs & Hv & Hf' & Hc & Hn).
        unfold result, trace, after in *. cbv zeta in *. rewrite Hf0 in *.
        destruct (_setAndWriteTextAreaState _ _ _) as [[r w1] t1]. cbn in *. subst r t1.
        assert (_hasFocus (this w1) = true) as -> by congruence.
        cbn. repeat split; try congruence; discriminate.
Qed.

Lemma on_blur_effect (w : World) :
  (_hasFocus (this w) = false → on_blur w = (Normal (), w, []))
  ∧ (_hasFocus (this w) = true →
     let w' := after on_blur w in
     trace on_blur w = [Fire onBlur]
     ∧ _hasFocus (this w') = false
     ∧ domNode w' = domNode w
     ∧ snapshot w' = snapshot w
     ∧ ignoreTime w' = ignoreTime w
     ∧ _isDoingComposition (this w') = _isDoingComposition (this w)
     ∧ _nextCommand (this w') = _nextCommand (this w)).
Proof.
  split; intros Hf.
  - by apply setHasFocus_unchanged.
  - unfold on_blur, trace, after. rewrite setHasFocus_false by done.
    by destruct w as [[[? ?] ? ? ? ? ? ?] ? ? ?].
Qed.

Lemma on_focus_fired (w : World) :
  fired on_focus w = if _hasFocus (this w) then [] else [onFocus].
Proof.
  destruct (on_focus_effect w) as [Hsame Hgain].
  destruct (_hasFocus (this w)).
  - unfold fired, trace. by rewrite Hsame.
  - by destruct (Hgain eq_refl) as [-> _].
Qed.

Lemma on_blur_fired (w : World) :
  fired on_blur w = if _hasFocus (this w) then [onBlur] else [].
Proof.
  destruct (on_blur_effect w) as [Hsame Hlose].
  destruct (_hasFocus (this w)).
  - destruct (Hlose eq_refl) as [Ht _]. unfold fired. by rewrite Ht.
  - unfold fired, trace. by rewrite Hsame.
Qed.

(** A focus signal does nothing when the engine already has focus.
    Otherwise the engine has focus afterwards and fires exactly one focus
    event, after resynchronising the textarea: on Edge snapshot and textarea
    are reset to the empty snapshot; elsewhere the host is asked once for
    the screen reader content, which becomes the snapshot and the value of
    the textarea, unless a composition is in progress, in which case nothing
    is asked and nothing is written.  Composition flag and pending command
    are untouched. *)
Theorem focus_gain_resynchronises (w : World) :
  (_hasFocus (this w) = true → on_focus w = (Normal (), w, []))
  ∧ (_hasFocus (this w) = false →
     let w' := after on_focus w in
     fired on_focus w = [onFocus]
     ∧ _hasFocus (this w') = true
     ∧ _isDoingComposition (this w') = _isDoingComposition (this w)
     ∧ _nextCommand (this w') = _nextCommand (this w)
     ∧ (isEdge = true →
        snapshot w' = EMPTY ∧ el_value (domNode w') = [] ∧ trace on_focus w = [Fire onFocus])
     ∧ (isEdge = false → _isDoingComposition (this w) = false →
        snapshot w' = getScreenReaderContent (snapshot w)
        ∧ el_value (domNode w') = value (getScreenReaderContent (snapshot w))
        ∧ trace on_focus w = [Ask (getScreenReaderContent_call (snapshot w)); Fire onFocus])
     ∧ (isEdge = false → _isDoingComposition (this w) = true →
        snapshot w' = snapshot w ∧ domNode w' = domNode w
        ∧ trace on_focus w = [Fire onFocus])).
Proof. exact (on_focus_effect w). Qed.

(** A blur signal does nothing when the engine has no focus.  Otherwise
    it fires exactly one blur event and clears the focus flag, and that is
    all: the textarea, the snapshot, the adapter's timestamp and the other
    flags stay as they are, and the host is not asked anything. *)
Theorem blur_only_clears_focus (w : World) :
  (_hasFocus (this w) = false → on_blur w = (Normal (), w, []))
  ∧ (_hasFocus (this w) = true →
     let w' := after on_blur w in
     trace on_blur w = [Fire onBlur]
     ∧ _hasFocus (this w') = false
     ∧ domNode w' = domNode w
     ∧ snapshot w' = snapshot w
     ∧ ignoreTime w' = ignoreTime w
     ∧ _isDoingComposition (this w') = _isDoingComposition (this w)
     ∧ _nextCommand (this w') = _nextCommand (this w)).
Proof. exact (on_blur_effect w). Qed.

End Focus.

Section Discipline.

Context {browser : Browser} {_host : ITextAreaInputHost} {ops : TextAreaStateOps}.

(** Each signal makes the engine fire events of its own kinds only: key
    events come from key signals, cut only from the deferred timer, paste
    only from paste and input signals, type only from input and composition
    signals, focus and blur from their signals, and a selection-change-request
    only from a selection-change signal; cut and copy signals fire nothing
    themselves. *)
Theorem signals_fire_their_own_events (s : Signal) (w : World) (ev : Event) :
  ev ∈ fired (deliver s) w → may_fire s ev.
Proof.
  intros Hin.
  assert (∀ s', (s' = focus → False) → (s' = blur → False) →
              emits_only (fires_only_for s') (deliver s')) as Hother.
  { intros s' Hf Hb. destruct s'; try done; repeat emits_with ltac:(cbn; done). }
  destruct s.
  11: { change (deliver focus) with on_focus in Hin. rewrite on_focus_fired in Hin.
        destruct (_hasFocus (this w)); [by apply not_elem_of_nil in Hin|].
        apply list_elem_of_singleton in Hin. by subst. }
  11: { change (deliver blur) with on_blur in Hin. rewrite on_blur_fired in Hin.
        destruct (_hasFocus (this w)); [|by apply not_elem_of_nil in Hin].
        apply list_elem_of_singleton in Hin. by subst. }
  all: match goal with
       | Hin : _ ∈ fired (deliver ?s) _ |- _ =>
           assert (emits_only (fires_only_for s) (deliver s)) as Hall
             by (apply Hother; discriminate);
           specialize (Hall w); unfold fired in Hin;
           apply list_elem_of_omap in Hin as (x & Hx & Heq);
           destruct x as [ev'|c]; [|discriminate]; simplify_eq;
           rewrite Forall_forall in Hall; exact (Hall _ Hx)
       end.
Qed.

End Discipline.

Section Ownership.

Context {browser : Browser} {_host : ITextAreaInputHost} {ops : TextAreaStateOps}.

(** The composition flag is changed by composition-start and
    composition-end signals only: every other signal, and the resync the
    host may ask for, leaves it as it was. *)
Theorem composition_flag_changes_only_on_composition_signals (s : Signal) (w : World) :
  s ≠ compositionstart →
  (∀ e, s ≠ compositionend e) →
  _isDoingComposition (this (after (deliver s) w)) = _isDoingComposition (this w)
  ∧ ∀ reason, _isDoingComposition (this (after (writeScreenReaderContent reason) w))
              = _isDoingComposition (this w).
Proof.
  intros Hstart Hend. split.
  - destruct s; try congruence; try (by edestruct Hend).
    all: first
      [ exact (proj1 (proj2 (proj2 (proj2 (on_selectionchange_rest w)))))
      | match goal with
        | |- _ (this (after (deliver ?s') _)) = _ =>
            assert (keeps (λ w, _isDoingComposition (this w)) (deliver s')) as Hkeeps by keeps_tac;
            exact (Hkeeps w)
        end ].
  - intros reason.
    assert (keeps (λ w, _isDoingComposition (this w)) (writeScreenReaderContent reason)) as Hkeeps
      by keeps_tac.
    exact (Hkeeps w).
Qed.


(** The pending command is changed by paste and input signals only. *)
Theorem pending_command_changes_only_on_paste_and_input (s : Signal) (w : World) :
  s ≠ input →
  (∀ e, s ≠ paste e) →
  _nextCommand (this (after (deliver s) w)) = _nextCommand (this w)
  ∧ ∀ reason, _nextCommand (this (after (writeScreenReaderContent reason) w))
              = _nextCommand (this w).
Proof.
  intros Hinput Hpaste. split.
  - destruct s; try congruence; try (by edestruct Hpaste).
    all: first
      [ exact (proj2 (proj2 (proj2 (proj2 (on_selectionchange_rest w)))))
      | match goal with
        | |- _ (this (after (deliver ?s') _)) = _ =>
            assert (keeps (λ w, _nextCommand (this w)) (deliver s')) as Hkeeps by keeps_tac;
            exact (Hkeeps w)
        end ].
  - intros reason.
    assert (keeps (λ w, _nextCommand (this w)) (writeScreenReaderContent reason)) as Hkeeps
      by keeps_tac.
    exact (Hkeeps w).
Qed.

(** The focus flag is changed by focus and blur signals only (and by the
    host's [focusTextArea]). *)
Theorem focus_flag_changes_only_on_focus_and_blur (s : Signal) (w : World) :
  s ≠ focus →
  s ≠ blur →
  _hasFocus (this (after (deliver s) w)) = _hasFocus (this w)
  ∧ ∀ reason, _hasFocus (this (after (writeScreenReaderContent reason) w))
              = _hasFocus (this w).
Proof.
  intros Hfocus Hblur. split.
  - destruct s; try congruence.
    all: first
      [ exact (proj1 (proj2 (proj2 (on_selectionchange_rest w))))
      | match goal with
        | |- _ (this (after (deliver ?s') _)) = _ =>
            assert (keeps (λ w, _hasFocus (this w)) (deliver s')) as Hkeeps by keeps_tac;
            exact (Hkeeps w)
        end ].
  - intros reason.
    assert (keeps (λ w, _hasFocus (this w)) (writeScreenReaderContent reason)) as Hkeeps
      by keeps_tac.
    exact (Hkeeps w).
Qed.

End Ownership.

Section Preserves.

Context (I : World → Prop).

Lemma preserves_ret {A} (a : A) : preserves I (mret a).
Proof. intros w H. exact H. Qed.

Lemma preserves_bind {A C} (m : Js A) (k : A → Js C) :
  preserves I m → (∀ a, preserves I (k a)) → preserves I (m ≫= k).
Proof.
  intros Hm Hk w Hw. specialize (Hm w Hw). unfold after in *.
  unfold mbind, Js_bind. destruct (m w) as [[[a|msg] w1] t1]; cbn in *; [|done].
  specialize (Hk a w1 Hm). unfold after in Hk.
  by destruct (k a w1) as [[r w2] t2].
Qed.

Lemma preserves_gets {A} (g : World → A) : preserves I (gets g).
Proof. intros w H. exact H. Qed.

Lemma preserves_fire ev : preserves I (fire ev).
Proof. intros w H. exact H. Qed.

Lemma preserves_ask c : preserves I (ask c).
Proof. intros w H. exact H. Qed.

Lemma preserves_throw {A} msg : preserves I (throw (A:=A) msg).
Proof. intros w H. exact H. Qed.

Lemma preserves_try body : preserves I body → preserves I (try_catch_ignore body).
Proof.
  intros Hb w Hw. specialize (Hb w Hw). unfold after, try_catch_ignore in *.
  by destruct (body w) as [[[a|msg] w1] t1].
Qed.

Lemma preserves_modify (g : World → World) : (∀ w, I w → I (g w)) → preserves I (modify g).
Proof. intros Hg w Hw. by apply Hg. Qed.

End Preserves.

(** One step of a proof that a program keeps an invariant; [tac] shows
    that one field update keeps it. *)
Ltac preserves_with tac :=
  first
    [ apply preserves_ret | apply preserves_gets | apply preserves_fire | apply preserves_ask
    | apply preserves_throw
    | apply preserves_bind; [|intros ?]
    | apply preserves_try
    | apply preserves_modify; intros [[[? ?] ? ? ? ? ? ?] ? ? ?]; tac
    | match goal with
      | |- preserves _ (if ?b then _ else _) => destruct b
      | |- preserves _ (match ?x with _ => _ end) => destruct x
      end
    | progress cbv zeta
    | listener_unfold ].

Section Cut.

Context {browser : Browser} {_host : ITextAreaInputHost} {ops : TextAreaStateOps}.

Lemma on_cut_eq (e : ClipboardEvent) (w : World) :
  on_cut e w =
    match _ensureClipboardGetsEditorSelection e
            (upd_this (upd_textArea (set_ignoreSelectionChangeTime (now w))) w) with
    | (Normal e', w1, t1) => (Normal e', upd_this (set_asyncTriggerCut true) w1, t1 ++ [])
    | (Throw msg, w1, t1) => (Throw msg, w1, t1)
    end.
Proof.
  unfold on_cut, setIgnoreSelectionChangeTime, Date_now. js_bind_unfold. cbn.
  by destruct (_ensureClipboardGetsEditorSelection _ _) as [[[e'|msg] w1] t1].
Qed.

(** The staging fires no event: it only asks the host. *)
Lemma ensureClipboardGetsEditorSelection_fired (e : ClipboardEvent) (w : World) :
  fired (_ensureClipboardGetsEditorSelection e) w = [].
Proof.
  unfold fired. rewrite ensureClipboardGetsEditorSelection_trace.
  by destruct (_ && _).
Qed.

Lemma on_cut_arms (e : ClipboardEvent) (w : World) :
  fired (on_cut e) w = [] ∧ _asyncTriggerCut (this (after (on_cut e) w)) = true.
Proof.
  pose proof (ensureClipboardGetsEditorSelection_fired e
                (upd_this (upd_textArea (set_ignoreSelectionChangeTime (now w))) w)) as Hf.
  destruct (safe_ensureClipboardGetsEditorSelection e
              (upd_this (upd_textArea (set_ignoreSelectionChangeTime (now w))) w)) as [e' He].
  unfold fired, trace, after, result in *. rewrite on_cut_eq.
  destruct (_ensureClipboardGetsEditorSelection _ _) as [[r w1] t1]. cbn in *. subst r.
  cbn. by rewrite app_nil_r.
Qed.

(** No signal but the timer disarms the deferred cut. *)
Lemma armed_until_timer (s : Signal) :
  s ≠ asyncTriggerCut →
  preserves (λ w, _asyncTriggerCut (this w) = true) (deliver s).
Proof.
  intros Hs. destruct s; try congruence; repeat preserves_with ltac:(cbn in *; done).
Qed.

Lemma armed_until_timer_run (steps : list (Platform * Signal)) (w : World) :
  Forall (λ x, x.2 ≠ asyncTriggerCut) steps →
  _asyncTriggerCut (this w) = true →
  _asyncTriggerCut (this (run steps w)) = true.
Proof.
  intros H. revert w. induction H as [|[p s] rest Hs _ IH]; intros w Hw; [done|].
  cbn [run]. apply IH. by apply (armed_until_timer s Hs (arrive p w)).
Qed.

Lemma on_asyncTriggerCut_eq (w : World) :
  on_asyncTriggerCut w =
    if _asyncTriggerCut (this w)
    then (Normal (), upd_this (set_asyncTriggerCut false) w, [Fire onCut])
    else (Normal (), w, []).
Proof.
  unfold on_asyncTriggerCut. js_bind_unfold. cbn.
  by destruct (_asyncTriggerCut (this w)).
Qed.

(** A cut signal fires nothing itself: the cut event is deferred.  However
    many further cut signals and whatever other signals arrive before the
    timer runs out, the timer then fires exactly one cut event, and a timer
    that runs out again fires nothing. *)
Theorem cut_event_is_deferred_and_fired_once
    (e : ClipboardEvent) (w : World) (steps : list (Platform * Signal)) (p p' : Platform) :
  Forall (λ x, x.2 ≠ asyncTriggerCut) steps →
  let w1 := arrive p (run steps (after (on_cut e) w)) in
  fired (on_cut e) w = []
  ∧ fired on_asyncTriggerCut w1 = [onCut]
  ∧ fired on_asyncTriggerCut (arrive p' (after on_asyncTriggerCut w1)) = [].
Proof.
  intros Hsteps w1.
  destruct (on_cut_arms e w) as [Hnone Harmed].
  assert (_asyncTriggerCut (this w1) = true) as Hw1.
  { unfold w1. cbn. by apply (armed_until_timer_run steps). }
  split; [exact Hnone|].
  unfold fired, trace, after. rewrite (on_asyncTriggerCut_eq w1), Hw1. cbn.
  split; [done|]. by rewrite on_asyncTriggerCut_eq.
Qed.

End Cut.

Section Clipboard2.

Context {browser : Browser} {_host : ITextAreaInputHost} {ops : TextAreaStateOps}.

Import ClipboardEventUtils.

(** Round trip: what [setTextData] writes as plain text, [getTextData]
    reads back from the event it returns and the world it leaves, through
    the event's own clipboard data as well as through the legacy clipboard;
    both calls mark the event as default-prevented. *)
Theorem clipboard_write_then_read (e : ClipboardEvent) (t : jsstring)
    (rich : option jsstring) (w : World) :
  ¬ no_clipboard_api e w →
  ∃ e', result (setTextData e t rich) w = Normal e'
        ∧ clip_defaultPrevented e' = true
        ∧ getTextData e' (after (setTextData e t rich) w)
          = (Normal (e', t), after (setTextData e t rich) w, []).
Proof.
  intros Hapi. unfold no_clipboard_api in Hapi.
  destruct e as [[d|] dp].
  - eexists. unfold result, after.
    rewrite (setTextData_event _ _ _ d) by done. cbn.
    split; [reflexivity|]. split; [reflexivity|].
    unfold getTextData, getData, preventDefault. cbn.
    destruct rich; cbn.
    + rewrite lookup_insert_ne by done. rewrite lookup_insert_eq. reflexivity.
    + rewrite lookup_insert_eq. reflexivity.
  - destruct (window_clipboardData w) as [d|] eqn:Hw; [|by destruct Hapi].
    eexists. unfold result, after.
    rewrite (setTextData_legacy _ _ _ d) by done. cbn.
    split; [reflexivity|]. split; [reflexivity|].
    destruct w as [th now_ legacy force]. cbn in *. subst legacy.
    unfold getTextData, getData, preventDefault. js_bind_unfold. cbn.
    rewrite lookup_insert_eq. reflexivity.
Qed.

(** A copy signal fires nothing and never arms the deferred cut; a cut
    signal stages exactly what a copy signal stages: the event they hand
    back and the legacy clipboard they leave are the same. *)
Theorem copy_stages_like_cut (e : ClipboardEvent) (w : World) :
  fired (on_copy e) w = []
  ∧ _asyncTriggerCut (this (after (on_copy e) w)) = _asyncTriggerCut (this w)
  ∧ result (on_cut e) w = result (on_copy e) w
  ∧ window_clipboardData (after (on_cut e) w) = window_clipboardData (after (on_copy e) w).
Proof.
  split; [apply ensureClipboardGetsEditorSelection_fired|].
  split.
  { assert (keeps (λ w, _asyncTriggerCut (this w)) (on_copy e)) as H by keeps_tac.
    exact (H w). }
  set (touched := upd_this (upd_textArea (set_ignoreSelectionChangeTime (now w))) w).
  assert (window_clipboardData touched = window_clipboardData w) as Htouched by reflexivity.
  assert (asksForHTML touched = asksForHTML w) as Hasks by reflexivity.
  assert (∀ w0, result (_setAndWriteTextAreaState "copy or cut"
                          (selectedText getPlainTextToCopy)) w0 = Normal ()
                ∧ window_clipboardData
                    (after (_setAndWriteTextAreaState "copy or cut"
                              (selectedText getPlainTextToCopy)) w0)
                  = window_clipboardData w0) as Hstage.
  { intros w0. split.
    - apply setAndWriteTextAreaState_effect.
    - assert (keeps window_clipboardData
                (_setAndWriteTextAreaState "copy or cut" (selectedText getPlainTextToCopy)))
        as H by keeps_tac.
      exact (H w0). }
  unfold result, after, on_copy. rewrite on_cut_eq. fold touched.
  rewrite !ensureClipboardGetsEditorSelection_eq. rewrite Htouched, Hasks.
  destruct (clipboardData e) as [d|] eqn:He; cbn.
  - rewrite !(setTextData_event _ _ _ d) by done. cbn. done.
  - destruct (window_clipboardData w) as [d|] eqn:Hw; cbn.
    + rewrite !(setTextData_legacy _ _ _ d) by done. cbn. done.
    + destruct (Hstage touched) as [H1 H2]. destruct (Hstage w) as [H3 H4].
      unfold result, after in *.
      destruct (_setAndWriteTextAreaState _ _ touched) as [[r1 w1] t1].
      destruct (_setAndWriteTextAreaState _ _ w) as [[r2 w2] t2].
      cbn in *. subst r1 r2. cbn. split; [done|]. congruence.
Qed.

End Clipboard2.

Section Staging2.

Context {browser : Browser} {_host : ITextAreaInputHost} {ops : TextAreaStateOps}.

Import ClipboardEventUtils.

(** With focus and an attached textarea, writing a fully selected text
    leaves exactly that text selected in the textarea. *)
Lemma selectedText_is_selected (reason : string) (t : jsstring) (w : World) :
  _hasFocus (this w) = true →
  el_attachment (domNode w) ≠ OffDOM →
  let w' := after (_setAndWriteTextAreaState reason (selectedText t)) w in
  el_selectionStart (domNode w') = 0 ∧ el_selectionEnd (domNode w') = JsString.length t.
Proof.
  destruct w as [[[[v a b att] ign] armed st hf comp nc prev] now_ legacy force].
  destruct browser as [edgeOrIE edge chrome chromev56 firefox mac windows iframe throws].
  cbn [this _hasFocus domNode _textArea _actual el_attachment]. intros -> Hatt.
  assert (0 ≤ JsString.length t) as Hlen by (unfold JsString.length; lia).
  assert (unsigned_long (JsString.length t) = JsString.length t) as Hu
    by (apply unsigned_long_nonneg, Hlen).
  js_run.
  destruct (JsString.eqb v t) eqn:Hv; cbn.
  - apply JsString_eqb_eq in Hv. subst v.
    destruct att as [|[|]]; [done| |]; cbn.
    + destruct (a =? 0) eqn:Ha, (b =? JsString.length t) eqn:Hb; cbn;
        rewrite ?Z.eqb_eq in *; subst;
        repeat (case_match; simplify_eq/=); rewrite ?Hu; split; lia.
    + rewrite ?Hu. split; lia.
  - destruct att as [|[|]]; [done| |]; cbn;
      repeat (case_match; simplify_eq/=); cbn; rewrite ?Hu; split; lia.
Qed.

(** Staging for cut/copy when neither clipboard API is there: the host is
    asked for the plain text only, the event is handed back untouched (the
    platform's own copy is not prevented), and the text is put into the
    textarea and made the snapshot; with focus on an attached textarea the
    whole text is selected there, so that the platform copies it. *)
Theorem staging_without_api_selects_the_text (e : ClipboardEvent) (w : World) :
  no_clipboard_api e w →
  let w' := after (_ensureClipboardGetsEditorSelection e) w in
  _ensureClipboardGetsEditorSelection e w = (Normal e, w', [Ask getPlainTextToCopy_call])
  ∧ el_value (domNode w') = getPlainTextToCopy
  ∧ value (snapshot w') = getPlainTextToCopy
  ∧ window_clipboardData w' = None
  ∧ (_hasFocus (this w) = true →
     snapshot w' = selectedText getPlainTextToCopy
     ∧ (el_attachment (domNode w) ≠ OffDOM →
        el_selectionStart (domNode w') = 0
        ∧ el_selectionEnd (domNode w') = JsString.length getPlainTextToCopy)).
Proof.
  intros [He Hw] w'.
  pose proof (setAndWriteTextAreaState_effect "copy or cut"
                (selectedText getPlainTextToCopy) w) as (Hr & Ht & Hs & Hv & _).
  pose proof (selectedText_is_selected "copy or cut" getPlainTextToCopy w) as Hsel.
  assert (keeps window_clipboardData
            (_setAndWriteTextAreaState "copy or cut" (selectedText getPlainTextToCopy)))
    as Hkeep by keeps_tac.
  specialize (Hkeep w).
  unfold w', after, result, trace in *. cbv zeta in *.
  rewrite ensureClipboardGetsEditorSelection_eq, He, Hw. cbn.
  destruct (_setAndWriteTextAreaState _ _ _) as [[r w1] t1]. cbn in *. subst r t1. cbn.
  split; [done|]. rewrite Hv, Hs.
  split; [by destruct (_hasFocus (this w))|].
  split; [by destruct (_hasFocus (this w))|].
  split; [congruence|].
  intros Hf. rewrite Hf. split; [done|]. intros Hatt. by apply Hsel.
Qed.

(** What a copy signal stages through a clipboard API, a paste signal that
    finds the same clipboard data reads back: it fires one paste event with
    the host's plain text (none if that text is empty). *)
Theorem copy_then_paste (e e2 : ClipboardEvent) (w w2 : World) :
  ¬ no_clipboard_api e w →
  (∃ e', result (on_copy e) w = Normal e' ∧ clipboardData e2 = clipboardData e') →
  window_clipboardData w2 = window_clipboardData (after (on_copy e) w) →
  fired (on_paste e2) w2
  = if JsString.eqb getPlainTextToCopy [] then [] else [onPaste getPlainTextToCopy].
Proof.
  intros Hapi (e' & He' & He2) Hw2.
  unfold result, after, on_copy in *.
  rewrite ensureClipboardGetsEditorSelection_eq in *.
  unfold no_clipboard_api in Hapi.
  assert (¬ no_clipboard_api e2 w2 ∧ clipboard_text e2 w2 = getPlainTextToCopy) as [Hapi2 Htext].
  { unfold no_clipboard_api, clipboard_text, getData.
    destruct (clipboardData e) as [d|] eqn:He; cbn in *.
    - rewrite (setTextData_event _ _ _ d) in * by done. cbn in *. simplify_eq.
      rewrite He2. cbn. split; [intros [? _]; done|].
      destruct (asksForHTML w).
      + rewrite lookup_insert_ne by done. by rewrite lookup_insert_eq.
      + by rewrite lookup_insert_eq.
    - destruct (window_clipboardData w) as [d|] eqn:Hw; [|by destruct Hapi]. cbn in *.
      rewrite (setTextData_legacy _ _ _ d) in * by done. cbn in *. simplify_eq.
      rewrite He2, Hw2. cbn. split; [intros [_ ?]; done|].
      by rewrite lookup_insert_eq. }
  unfold fired, trace. rewrite on_paste_with_api by done. rewrite Htext.
  by destruct (JsString.eqb _ []).
Qed.

End Staging2.

Section Composition2.

Context {browser : Browser} {_host : ITextAreaInputHost} {ops : TextAreaStateOps}.

Lemma on_compositionupdate_eq (e : CompositionEvent) (w : World) :
  on_compositionupdate e w =
    if isChromev56 then (Normal (), w, [])
    else
      let el := domNode w in
      let stored :=
        if isEdgeOrIE && is_ja e then
          readFromTextArea (snapshot w) (el_value el) (el_selectionStart el) (el_selectionEnd el)
        else selectedText (data e) in
      (Normal (), upd_this (set_textAreaState stored) w,
       [Fire (onType (composed e w)); Fire (onCompositionUpdate (data e))]).
Proof.
  destruct w as [[[el ign] armed st hf comp nc prev] t legacy force].
  destruct browser as [edgeOrIE edge chrome chromev56 firefox mac windows iframe throws].
  unfold composed, snapshot. js_run.
  destruct chromev56, edgeOrIE, (is_ja e); reflexivity.
Qed.

(** A composition-update signal is ignored altogether on Chrome 55/56.
    Elsewhere it fires a type event and then a composition-update event with
    the event's text, whether or not a composition was started.  Unless the
    read-and-diff path for Japanese on Edge/IE is taken, the type event
    carries the event's text and replaces as many characters as the previous
    snapshot had selected, and the new snapshot is that text, fully
    selected; so the next composition-update replaces exactly the text of
    this one. *)
Theorem compositionupdate_replaces_previous_text (e e2 : CompositionEvent) (w : World)
    (p : Platform) :
  (isChromev56 = true → on_compositionupdate e w = (Normal (), w, []))
  ∧ (isChromev56 = false →
     fired (on_compositionupdate e) w = [onType (composed e w); onCompositionUpdate (data e)]
     ∧ (isEdgeOrIE = false →
        let w' := after (on_compositionupdate e) w in
        composed e w = mkTypeData (data e)
                         (selectionEnd (snapshot w) - selectionStart (snapshot w))
        ∧ snapshot w' = selectedText (data e)
        ∧ domNode w' = domNode w
        ∧ fired (on_compositionupdate e2) (arrive p w')
          = [onType (mkTypeData (data e2) (JsString.length (data e)));
             onCompositionUpdate (data e2)])).
Proof.
  split; intros Hv56.
  - rewrite on_compositionupdate_eq. by rewrite Hv56.
  - unfold fired, trace, after. rewrite !on_compositionupdate_eq. rewrite Hv56. cbn.
    split; [done|]. intros Hie.
    unfold composed. rewrite Hie. cbn.
    destruct w as [[[el ign] armed st hf comp nc prev] t legacy force]. cbn.
    repeat split. by rewrite Z.sub_0_r.
Qed.

(** A composition-end signal that arrives while composing fires the type
    event of the signal and then one composition-end event, and the engine
    is not composing afterwards; pending command and focus flag are
    untouched.  On Chrome and Edge/IE the snapshot is then re-read from the
    textarea; elsewhere it is the event's text, fully selected. *)
Theorem compositionend_leaves_composition (e : CompositionEvent) (w : World) :
  _isDoingComposition (this w) = true →
  let w' := after (on_compositionend e) w in
  fired (on_compositionend e) w = [onType (composed e w); onCompositionEnd]
  ∧ _isDoingComposition (this w') = false
  ∧ snapshot w' = compositionend_stored e w
  ∧ (isEdgeOrIE = false → isChrome = false → snapshot w' = selectedText (data e))
  ∧ domNode w' = domNode w
  ∧ _nextCommand (this w') = _nextCommand (this w)
  ∧ _hasFocus (this w') = _hasFocus (this w).
Proof.
  intros Hcomp. unfold fired, trace, after. rewrite on_compositionend_eq. cbv zeta.
  rewrite Hcomp. cbn.
  destruct w as [[[el ign] armed st hf comp nc prev] t legacy force]. cbn.
  repeat split. intros Hie Hchrome. unfold compositionend_stored. by rewrite Hie, Hchrome.
Qed.

Lemma on_input_composing (w : World) :
  _isDoingComposition (this w) = true →
  let touched := upd_this (upd_textArea (set_ignoreSelectionChangeTime (now w))) w in
  on_input w =
    if isChromev56 then
      let v := el_value (domNode w) in
      let typeInput := mkTypeData v (selectionEnd (snapshot w) - selectionStart (snapshot w)) in
      (Normal (), upd_this (set_textAreaState (selectedText v)) touched,
       [Fire (onType typeInput); Fire (onCompositionUpdate v)])
    else (Normal (), touched, []).
Proof.
  destruct w as [[[el ign] armed st hf comp nc prev] t legacy force].
  destruct browser as [edgeOrIE edge chrome chromev56 firefox mac windows iframe throws].
  cbn [this _isDoingComposition]. intros ->.
  unfold snapshot. js_run. destruct chromev56; reflexivity.
Qed.

(** An input signal during a composition marks the adapter's timestamp and
    keeps the pending command.  Except on Chrome 55/56 that is all: nothing
    is fired and the snapshot stays.  On Chrome 55/56 the listener stands in
    for the composition-update: it fires a type event with the live value of
    the textarea, replacing what the previous snapshot had selected, then a
    composition-update event with that value, and stores the value, fully
    selected. *)
Theorem input_during_composition (w : World) :
  _isDoingComposition (this w) = true →
  let w' := after on_input w in
  let v := el_value (domNode w) in
  ignoreTime w' = now w
  ∧ _nextCommand (this w') = _nextCommand (this w)
  ∧ _isDoingComposition (this w') = true
  ∧ domNode w' = domNode w
  ∧ (isChromev56 = false → fired on_input w = [] ∧ snapshot w' = snapshot w)
  ∧ (isChromev56 = true →
     fired on_input w
     = [onType (mkTypeData v (selectionEnd (snapshot w) - selectionStart (snapshot w)));
        onCompositionUpdate v]
     ∧ snapshot w' = selectedText v).
Proof.
  intros Hcomp. unfold fired, trace, after. rewrite on_input_composing by done. cbv zeta.
  destruct w as [[[el ign] armed st hf comp nc prev] t legacy force]. cbn in *. subst comp.
  destruct isChromev56; cbn; repeat split; discriminate.
Qed.

End Composition2.

Section SelfInflicted.

Context {browser : Browser} {_host : ITextAreaInputHost} {ops : TextAreaStateOps}.

Lemma established_bind {A C} (I : World → Prop) (m : Js A) (k : A → Js C) :
  (∀ w, I (after m w)) → (∀ a, preserves I (k a)) → ∀ w, I (after (m ≫= k) w).
Proof.
  intros Hm Hk w. specialize (Hm w). unfold after in *.
  unfold mbind, Js_bind. destruct (m w) as [[[a|msg] w1] t1]; cbn in *; [|done].
  specialize (Hk a w1 Hm). unfold after in Hk.
  by destruct (k a w1) as [[r w2] t2].
Qed.

(** Marking the adapter sets its timestamp to the clock. *)
Lemma setIgnoreSelectionChangeTime_marks (reason : string) (w : World) :
  ignoreTime (after (setIgnoreSelectionChangeTime reason) w) = now w
  ∧ now (after (setIgnoreSelectionChangeTime reason) w) = now w.
Proof. by destruct w as [[[? ?] ? ? ? ? ? ?] ? ? ?]. Qed.

Lemma marked_is_preserved_by_marking (reason : string) :
  preserves (λ w, ignoreTime w = now w) (setIgnoreSelectionChangeTime reason).
Proof.
  intros w _. destruct (setIgnoreSelectionChangeTime_marks reason w) as [H1 H2]. congruence.
Qed.

Ltac marked_tac :=
  repeat first
    [ apply marked_is_preserved_by_marking
    | preserves_with ltac:(unfold ignoreTime in *; cbn in *; done) ].

Lemma touching_signals_mark (s : Signal) (w : World) :
  s = input ∨ (∃ e, s = cut e) ∨ (∃ e, s = paste e) →
  ignoreTime (after (deliver s) w) = now w.
Proof.
  intros Hs.
  assert (now (after (deliver s) w) = now w) as Hnow.
  { assert (keeps now (deliver s)) as H.
    { destruct Hs as [->|[[e ->]|[e ->]]]; keeps_tac. }
    exact (H w). }
  rewrite <- Hnow. revert w Hnow. intros w _. revert w.
  assert (∀ reason w,
            (λ w, ignoreTime w = now w) (after (setIgnoreSelectionChangeTime reason) w))
    as Hmark.
  { intros reason w. cbv beta.
    destruct (setIgnoreSelectionChangeTime_marks reason w) as [H1 H2]. congruence. }
  destruct Hs as [->|[[e ->]|[e ->]]]; cbn [deliver].
  - unfold on_input. apply (established_bind (λ w, ignoreTime w = now w)); [apply Hmark|].
    intros ?. marked_tac.
  - apply (established_bind (λ w, ignoreTime w = now w)); [|intros ?; marked_tac].
    unfold on_cut. apply (established_bind (λ w, ignoreTime w = now w)); [apply Hmark|].
    intros ?. marked_tac.
  - apply (established_bind (λ w, ignoreTime w = now w)); [|intros ?; marked_tac].
    unfold on_paste. apply (established_bind (λ w, ignoreTime w = now w)); [apply Hmark|].
    intros ?. marked_tac.
Qed.

Lemma marking_keeps_the_mark (t n : Z) (reason : string) :
  t ≤ n →
  preserves (λ w, now w = n ∧ t ≤ ignoreTime w) (setIgnoreSelectionChangeTime reason).
Proof.
  intros Hle [[[? ?] ? ? ? ? ? ?] ? ? ?]. unfold ignoreTime. js_run. lia.
Qed.

(** Only the selectionchange listener moves the adapter's timestamp
    backwards: every other signal keeps it or sets it to the clock. *)
Lemma other_signals_keep_the_mark (t : Z) (s : Signal) (w : World) :
  s ≠ selectionchange → t ≤ now w → t ≤ ignoreTime w →
  t ≤ ignoreTime (after (deliver s) w).
Proof.
  intros Hs Hnow Hign.
  assert (preserves (λ w0, now w0 = now w ∧ t ≤ ignoreTime w0) (deliver s)) as Hp.
  { destruct s; try congruence;
      repeat first
        [ apply marking_keeps_the_mark; exact Hnow
        | preserves_with ltac:(unfold ignoreTime in *; cbn in *; done) ]. }
  exact (proj2 (Hp w (conj eq_refl Hign))).
Qed.

Lemma mark_survives_run (t : Z) (steps : list (Platform * Signal)) :
  Forall (λ x, x.2 ≠ selectionchange) steps →
  ∀ c w, t ≤ c → clock_advances c steps → t ≤ ignoreTime w → t ≤ ignoreTime (run steps w).
Proof.
  induction 1 as [|[p s] rest Hs _ IH]; intros c w Hc Hclock Hign; [done|].
  cbn [run]. destruct Hclock as [Hle Hrest].
  apply (IH (p_now p)); [lia|done|].
  apply other_signals_keep_the_mark; [done|cbn [now arrive]; lia|].
  by rewrite arrive_ignoreTime.
Qed.

(** While the adapter's timestamp is at least [t], a selectionchange
    signal that arrives less than 100ms after [t] fires nothing. *)
Lemma marked_mutes_selectionchange (t : Z) (w : World) (p : Platform) :
  t ≤ ignoreTime w → p_now p - t < 100 →
  fired on_selectionchange (arrive p w) = [].
Proof.
  intros Hign Hclose. rewrite on_selectionchange_fired.
  assert (untouched (arrive p w) = false) as ->.
  { unfold untouched. rewrite arrive_ignoreTime. cbn [now arrive].
    apply negb_false_iff, Z.ltb_lt. lia. }
  by rewrite andb_false_r.
Qed.

(** Input, cut and paste signals mark the adapter as touched at the
    current clock, whatever else they do.  The first selection-change
    signal after one of them therefore fires nothing if it arrives less than
    100ms later, whatever signals of other kinds arrive in between, as long
    as the clock does not run backwards.  (That selection-change signal may
    clear the mark: the statement is about the first one.) *)
Theorem touching_signals_mute_selectionchange (s : Signal) (w : World)
    (between : list (Platform * Signal)) (p : Platform) :
  s = input ∨ (∃ e, s = cut e) ∨ (∃ e, s = paste e) →
  Forall (λ x, x.2 ≠ selectionchange) between →
  clock_advances (now w) between →
  p_now p - now w < 100 →
  ignoreTime (after (deliver s) w) = now w
  ∧ fired on_selectionchange (arrive p (run between (after (deliver s) w))) = [].
Proof.
  intros Hs Hbetween Hclock Hclose.
  pose proof (touching_signals_mark s w Hs) as Hmark.
  split; [exact Hmark|].
  apply (marked_mutes_selectionchange (now w)); [|done].
  apply (mark_survives_run (now w) between Hbetween (now w)); [lia|done|lia].
Qed.

End SelfInflicted.

Section Marking.

Context {browser : Browser} {_host : ITextAreaInputHost} {ops : TextAreaStateOps}.

Lemma marking_marks node t reason :
  preserves (untouched_or_marked node t) (setIgnoreSelectionChangeTime reason).
Proof.
  intros [[[? ?] ? ? ? ? ? ?] ? ? ?] [Hnow _]. cbn in *. split; [done|]. by right.
Qed.

Lemma setValue_marks node t reason v :
  preserves (untouched_or_marked node t) (setValue reason v).
Proof.
  intros [[[[v0 a b att] ign] armed st hf comp nc prev] now_ legacy force] [Hnow H].
  unfold untouched_or_marked, ignoreTime in *. js_run. subst now_.
  destruct (JsString.eqb v0 v); cbn; split; try done. by right.
Qed.

Lemma setSelectionRange_marks node t reason selStart selEnd :
  preserves (untouched_or_marked node t) (setSelectionRange reason selStart selEnd).
Proof.
  intros [[[[v0 a b att] ign] armed st hf comp nc prev] now_ legacy force] [Hnow H].
  destruct browser as [edgeOrIE edge chrome chromev56 firefox mac windows iframe throws].
  unfold untouched_or_marked, ignoreTime in *. js_run. subst now_.
  destruct att as [|[|]]; cbn; repeat (case_match; simplify_eq/=);
    split; try done; try (by right); try (by left).
Qed.

Ltac marks_step :=
  first
    [ apply marking_marks | apply setValue_marks | apply setSelectionRange_marks
    | apply preserves_ret | apply preserves_gets | apply preserves_fire | apply preserves_ask
    | apply preserves_throw
    | apply preserves_bind; [|intros ?]
    | apply preserves_modify; intros [[[? ?] ? ? ? ? ? ?] ? ? ?];
      unfold untouched_or_marked, ignoreTime, domNode in *; cbn in *; done
    | match goal with
      | |- preserves _ (if ?b then _ else _) => destruct b
      | |- preserves _ (match ?x with _ => _ end) => destruct x
      end
    | progress cbv zeta
    | progress unfold when, field, assign, Date_now,
        ClipboardEventUtils.canUseTextData, ClipboardEventUtils.getTextData,
        ClipboardEventUtils.setTextData,
        getValue, getSelectionStart, getSelectionEnd, writeToTextArea, read_textArea,
        host_getPlainTextToCopy, host_getHTMLToCopy, host_getScreenReaderContent,
        _setAndWriteTextAreaState, writeScreenReaderContent, _setHasFocus,
        _ensureClipboardGetsEditorSelection,
        on_keydown, on_keyup, on_compositionstart, deduceInputFromTextAreaValue,
        deduceComposition, on_compositionupdate, on_compositionend, on_input, on_cut,
        on_asyncTriggerCut, on_copy, on_paste, on_focus, on_blur, deliver ].

Ltac marks_tac := repeat marks_step.

(** No listener writes to the textarea behind the adapter's back: whenever
    a signal leaves the textarea different from how it found it, the
    adapter's timestamp holds the clock of that signal.  The first
    selection-change signal after it therefore fires nothing if it arrives
    less than 100ms later, whatever signals of other kinds arrive in
    between, as long as the clock does not run backwards. *)
Theorem every_write_is_marked (s : Signal) (w : World)
    (between : list (Platform * Signal)) (p : Platform) :
  domNode (after (deliver s) w) ≠ domNode w →
  ignoreTime (after (deliver s) w) = now w
  ∧ (Forall (λ x, x.2 ≠ selectionchange) between →
     clock_advances (now w) between →
     p_now p - now w < 100 →
     fired on_selectionchange (arrive p (run between (after (deliver s) w))) = []).
Proof.
  intros Hchanged.
  assert (untouched_or_marked (domNode w) (now w) (after (deliver s) w)) as [_ [H|H]].
  { assert (preserves (untouched_or_marked (domNode w) (now w)) (deliver s)) as Hp.
    { destruct s.
      13: { intros w0 [Hnow Hw0]. exfalso. apply Hchanged.
            apply (on_selectionchange_rest w). }
      all: marks_tac. }
    apply Hp. split; [done|by left]. }
  { done. }
  split; [exact H|]. intros Hbetween Hclock Hclose.
  apply (marked_mutes_selectionchange (now w)); [|done].
  apply (mark_survives_run (now w) between Hbetween (now w)); [lia|done|lia].
Qed.

End Marking.

Section SelectionChange2.

Context {browser : Browser} {_host : ITextAreaInputHost} {ops : TextAreaStateOps}.

Lemma on_selectionchange_trace (w : World) :
  trace on_selectionchange w
  = if reaches_ignoreTime w && untouched w && correlates w
    then [Ask (deduceModelPosition_call
                 (deduceEditorPosition (snapshot w) (el_selectionStart (domNode w))).1.1
                 (deduceEditorPosition (snapshot w) (el_selectionStart (domNode w))).1.2
                 (deduceEditorPosition (snapshot w) (el_selectionStart (domNode w))).2);
          Ask (deduceModelPosition_call
                 (deduceEditorPosition (snapshot w) (el_selectionEnd (domNode w))).1.1
                 (deduceEditorPosition (snapshot w) (el_selectionEnd (domNode w))).1.2
                 (deduceEditorPosition (snapshot w) (el_selectionEnd (domNode w))).2);
          Fire (onSelectionChangeRequest (requested w))]
    else [].
Proof.
  destruct w as [[[el ign] armed st hf comp nc prev] t legacy force].
  destruct browser as [edgeOrIE edge chrome chromev56 firefox mac windows iframe throws].
  unfold reaches_ignoreTime, reaches_clock, untouched, correlates, requested, mapped,
    snapshot, previousTime, ignoreTime.
  js_run.
  destruct hf; cbn; try reflexivity.
  destruct comp; cbn; try reflexivity.
  destruct chrome; cbn; try reflexivity.
  destruct windows; cbn; try reflexivity.
  destruct (t - prev <? 5); cbn; try reflexivity.
  destruct (t - ign <? 100); cbn; try reflexivity.
  destruct (selectionStartPosition st); cbn; try reflexivity.
  destruct (selectionEndPosition st); cbn; try reflexivity.
  destruct (JsString.eqb (value st) (el_value el)); cbn; try reflexivity.
  destruct (selectionStart st =? el_selectionStart el); cbn; try reflexivity.
  destruct (selectionEnd st =? el_selectionEnd el); cbn; try reflexivity.
Qed.

(** The selectionchange listener fires a request exactly when all of its
    checks pass: focus, no composition, Chrome on Windows, at least 5ms
    since the previous evaluated signal, at least 100ms since the adapter's
    timestamp, both anchors present, the textarea's value equal to the
    snapshot's, and a selection that differs from the snapshot's.  It then
    asks the host to resolve the new selection start and the new selection
    end, in this order, and fires one request with the two resolved
    positions; in every other case it asks and fires nothing. *)
Theorem selectionchange_requests_exactly (w : World) :
  let asked := trace on_selectionchange w in
  let all_checks :=
    _hasFocus (this w) = true
    ∧ _isDoingComposition (this w) = false
    ∧ isChrome = true ∧ isWindows = true
    ∧ 5 ≤ now w - previousTime w
    ∧ 100 ≤ now w - ignoreTime w
    ∧ is_Some (selectionStartPosition (snapshot w))
    ∧ is_Some (selectionEndPosition (snapshot w))
    ∧ value (snapshot w) = el_value (domNode w)
    ∧ (selectionStart (snapshot w) ≠ el_selectionStart (domNode w)
       ∨ selectionEnd (snapshot w) ≠ el_selectionEnd (domNode w)) in
  (all_checks →
   ∃ a da la b db lb,
     deduceEditorPosition (snapshot w) (el_selectionStart (domNode w)) = (a, da, la)
     ∧ deduceEditorPosition (snapshot w) (el_selectionEnd (domNode w)) = (b, db, lb)
     ∧ asked =
         [Ask (deduceModelPosition_call a da la); Ask (deduceModelPosition_call b db lb);
          Fire (onSelectionChangeRequest
                  (mkSelection (lineNumber (deduceModelPosition a da la))
                               (column (deduceModelPosition a da la))
                               (lineNumber (deduceModelPosition b db lb))
                               (column (deduceModelPosition b db lb))))])
  ∧ (¬ all_checks → asked = []).
Proof.
  cbv zeta. rewrite on_selectionchange_trace.
  unfold reaches_ignoreTime, reaches_clock, untouched, correlates.
  split.
  - intros (-> & -> & -> & -> & H5 & H100 & [a Ha] & [b Hb] & Hv & Hsel).
    rewrite Ha, Hb. cbn.
    assert ((now w - previousTime w <? 5) = false) as -> by (apply Z.ltb_ge; lia).
    assert ((now w - ignoreTime w <? 100) = false) as -> by (apply Z.ltb_ge; lia).
    assert (JsString.eqb (value (snapshot w)) (el_value (domNode w)) = true) as ->
      by (by apply JsString_eqb_eq).
    assert ((selectionStart (snapshot w) =? el_selectionStart (domNode w))
            && (selectionEnd (snapshot w) =? el_selectionEnd (domNode w)) = false) as ->.
    { apply andb_false_iff. rewrite !Z.eqb_neq. exact Hsel. }
    cbn. unfold requested, mapped.
    destruct (deduceEditorPosition (snapshot w) (el_selectionStart (domNode w)))
      as [[a' da] la].
    destruct (deduceEditorPosition (snapshot w) (el_selectionEnd (domNode w)))
      as [[b' db] lb].
    by exists a', da, la, b', db, lb.
  - intros Hnot.
    destruct (_ && _) eqn:Hall; [|reflexivity]. exfalso. apply Hnot.
    rewrite !andb_true_iff, !negb_true_iff, !Z.ltb_ge, JsString_eqb_eq in Hall.
    destruct Hall as [[[[[[Hf Hc] Hch] Hwin] H5] H100] [[[Ha Hb] Hv] Hsel]].
    apply andb_false_iff in Hsel. rewrite !Z.eqb_neq in Hsel.
    repeat split; try done.
    + by destruct (selectionStartPosition (snapshot w)).
    + by destruct (selectionEndPosition (snapshot w)).
Qed.

End SelectionChange2.

Section Adapter.

Context {browser : Browser} {_host : ITextAreaInputHost} {ops : TextAreaStateOps}.

(** Write suppression: writing a snapshot whose value the textarea already
    holds leaves the textarea and the adapter's timestamp untouched when the
    engine has no focus, and also when it has focus and the textarea is the
    active element with exactly the snapshot's selection.  Only the stored
    snapshot changes. *)
Theorem unchanged_content_is_not_rewritten (reason : string) (s : TextAreaState) (w : World) :
  value s = el_value (domNode w) →
  _hasFocus (this w) = false
  ∨ (isActive (domNode w) = true
     ∧ selectionStart s = el_selectionStart (domNode w)
     ∧ selectionEnd s = el_selectionEnd (domNode w)) →
  let w' := after (_setAndWriteTextAreaState reason s) w in
  domNode w' = domNode w
  ∧ ignoreTime w' = ignoreTime w
  ∧ snapshot w' = (if _hasFocus (this w) then s else collapseSelection s).
Proof.
  destruct w as [[[[v a b att] ign] armed st hf comp nc prev] t legacy force].
  destruct browser as [edgeOrIE edge chrome chromev56 firefox mac windows iframe throws].
  destruct s as [sv sa sb p1 p2].
  unfold snapshot, ignoreTime. cbn. intros -> Hcase. js_run.
  pose proof (proj2 (JsString_eqb_eq v v) eq_refl) as Hvv.
  destruct hf; cbn; rewrite Hvv; cbn.
  - destruct Hcase as [?|(Hact & -> & ->)]; [done|].
    destruct att as [|[|]]; try done. cbn. rewrite !Z.eqb_refl. cbn.
    by destruct (firefox && iframe).
  - done.
Qed.

(** Round trip through the adapter: after [setValue] the textarea holds
    the given value, [getValue] reads it back, and setting the same value
    again does nothing at all.  The adapter's timestamp is marked exactly
    when the value was different: an equal value leaves the whole world as
    it was. *)
Theorem setValue_then_getValue (reason reason' : string) (v : jsstring) (w : World) :
  let w' := after (setValue reason v) w in
  getValue w' = (Normal v, w', [])
  ∧ setValue reason' v w' = (Normal (), w', [])
  ∧ (v = el_value (domNode w) → w' = w)
  ∧ (v ≠ el_value (domNode w) →
     ignoreTime w' = now w ∧ el_attachment (domNode w') = el_attachment (domNode w)).
Proof.
  destruct w as [[[[v0 a b att] ign] armed st hf comp nc prev] t legacy force].
  unfold ignoreTime. cbn. js_run.
  destruct (JsString.eqb v0 v) eqn:Hv; cbn.
  - rewrite Hv. apply JsString_eqb_eq in Hv. subst v0. by repeat split.
  - rewrite (proj2 (JsString_eqb_eq v v) eq_refl).
    apply JsString_eqb_neq in Hv. repeat split; congruence.
Qed.

(** The selection write on a textarea that is off-DOM never fails and
    never does more than write the selection.  On a platform that throws
    there, the exception is swallowed and the textarea stays as it was; on
    the others the selection is written.  Either way the call completes
    normally and fires nothing, the value stays, the textarea stays off-DOM
    and unfocused, and the adapter's timestamp has been marked before the
    platform was called. *)
Theorem selection_write_off_dom_is_swallowed (reason : string) (selStart selEnd : Z)
    (w : World) :
  el_attachment (domNode w) = OffDOM →
  let w' := after (setSelectionRange reason selStart selEnd) w in
  result (setSelectionRange reason selStart selEnd) w = Normal ()
  ∧ trace (setSelectionRange reason selStart selEnd) w = []
  ∧ ignoreTime w' = now w
  ∧ el_value (domNode w') = el_value (domNode w)
  ∧ el_attachment (domNode w') = OffDOM
  ∧ (selectionThrowsOffDOM = true → domNode w' = domNode w)
  ∧ (selectionThrowsOffDOM = false →
     0 ≤ selStart ≤ selEnd ≤ JsString.length (el_value (domNode w)) →
     el_selectionStart (domNode w') = selStart ∧ el_selectionEnd (domNode w') = selEnd).
Proof.
  destruct w as [[[[v0 a b att] ign] armed st hf comp nc prev] t legacy force].
  destruct browser as [edgeOrIE edge chrome chromev56 firefox mac windows iframe throws].
  unfold ignoreTime. cbn. intros ->. js_run.
  destruct throws; cbn; repeat split; try done;
    rewrite ?unsigned_long_nonneg by lia; lia.
Qed.

(** The selection write on an attached textarea of an engine that has
    focus, for a selection inside the value: afterwards the textarea is the
    active element, its selection is the requested one and its value is as
    before.  (The engine has focus, as whenever it writes a selection: the
    focus event of the platform then finds nothing to do.) *)
Theorem selection_write_selects_and_focuses (reason : string) (selStart selEnd : Z)
    (w : World) :
  _hasFocus (this w) = true →
  el_attachment (domNode w) ≠ OffDOM →
  0 ≤ selStart ≤ selEnd ≤ JsString.length (el_value (domNode w)) →
  let w' := after (setSelectionRange reason selStart selEnd) w in
  result (setSelectionRange reason selStart selEnd) w = Normal ()
  ∧ el_selectionStart (domNode w') = selStart
  ∧ el_selectionEnd (domNode w') = selEnd
  ∧ isActive (domNode w') = true
  ∧ el_value (domNode w') = el_value (domNode w)
  ∧ _hasFocus (this w') = true.
Proof.
  destruct w as [[[[v0 a b att] ign] armed st hf comp nc prev] t legacy force].
  destruct browser as [edgeOrIE edge chrome chromev56 firefox mac windows iframe throws].
  cbn. intros -> Hatt Hrange. js_run.
  destruct att as [|[|]]; [done| |]; cbn.
  - destruct (a =? selStart) eqn:Ha, (b =? selEnd) eqn:Hb; cbn;
      rewrite ?Z.eqb_eq in *; subst;
      repeat (case_match; simplify_eq/=); repeat split;
      rewrite ?unsigned_long_nonneg by lia; lia.
  - repeat split; rewrite ?unsigned_long_nonneg by lia; lia.
Qed.

End Adapter.

Section KeepsWhile.

Context {B : Type} (C : World → Prop) (f : World → B).

Lemma keeps_while_ret {A} (a : A) : keeps_while C f (mret a).
Proof. intros w H. by split. Qed.

Lemma keeps_while_bind {A D} (m : Js A) (k : A → Js D) :
  keeps_while C f m → (∀ a, keeps_while C f (k a)) → keeps_while C f (m ≫= k).
Proof.
  intros Hm Hk w Hw. destruct (Hm w Hw) as [Hc Hf]. unfold after in *.
  unfold mbind, Js_bind. destruct (m w) as [[[a|msg] w1] t1]; cbn in *; [|done].
  destruct (Hk a w1 Hc) as [Hc' Hf']. unfold after in *.
  destruct (k a w1) as [[r w2] t2]; cbn in *. split; [done|congruence].
Qed.

Lemma keeps_while_gets {A} (g : World → A) : keeps_while C f (gets g).
Proof. intros w H. by split. Qed.

Lemma keeps_while_fire ev : keeps_while C f (fire ev).
Proof. intros w H. by split. Qed.

Lemma keeps_while_ask c : keeps_while C f (ask c).
Proof. intros w H. by split. Qed.

Lemma keeps_while_throw {A} msg : keeps_while C f (throw (A:=A) msg).
Proof. intros w H. by split. Qed.

Lemma keeps_while_modify (g : World → World) :
  (∀ w, C w → C (g w) ∧ f (g w) = f w) → keeps_while C f (modify g).
Proof. intros Hg w Hw. by apply Hg. Qed.

End KeepsWhile.

Section Unfocused.

Context {browser : Browser} {_host : ITextAreaInputHost} {ops : TextAreaStateOps}.

(** Without focus a snapshot is written without the selection write, so
    the textarea is not focused. *)
Lemma setAndWrite_unfocused reason s :
  keeps_while unfocused attachment (_setAndWriteTextAreaState reason s).
Proof.
  intros [[[[v a b att] ign] armed st hf comp nc prev] t legacy force] Hw.
  unfold unfocused, attachment in *. cbn in Hw. subst hf. js_run.
  by destruct (JsString.eqb v _).
Qed.

Ltac unfocused_step :=
  first
    [ apply setAndWrite_unfocused
    | apply keeps_while_ret | apply keeps_while_gets | apply keeps_while_fire
    | apply keeps_while_ask | apply keeps_while_throw
    | apply keeps_while_bind; [|intros ?]
    | apply keeps_while_modify; intros [[[? ?] ? ? ? ? ? ?] ? ? ?];
      unfold unfocused, attachment, domNode in *; cbn in *; done
    | match goal with
      | |- keeps_while _ _ (if ?b then _ else _) => destruct b
      | |- keeps_while _ _ (match ?x with _ => _ end) => destruct x
      end
    | progress cbv zeta
    | progress unfold when, field, assign, Date_now,
        ClipboardEventUtils.canUseTextData, ClipboardEventUtils.getTextData,
        ClipboardEventUtils.setTextData,
        setIgnoreSelectionChangeTime, getIgnoreSelectionChangeTime, resetSelectionChangeTime,
        getValue, getSelectionStart, getSelectionEnd, read_textArea,
        host_getPlainTextToCopy, host_getHTMLToCopy, host_getScreenReaderContent,
        host_deduceModelPosition,
        writeScreenReaderContent, _setHasFocus,
        _ensureClipboardGetsEditorSelection,
        on_keydown, on_keyup, on_compositionstart, deduceInputFromTextAreaValue,
        deduceComposition, on_compositionupdate, on_compositionend, on_input, on_cut,
        on_asyncTriggerCut, on_copy, on_paste, on_blur, on_selectionchange, deliver ].

(** An engine without focus never moves the focus: whatever signal other
    than focus arrives, and whenever the host asks for a resync, the
    textarea's attachment to the document and its being or not being the
    active element stay as they are, and the engine stays without focus. *)
Theorem without_focus_the_textarea_is_never_focused (s : Signal) (w : World) :
  s ≠ focus →
  _hasFocus (this w) = false →
  (el_attachment (domNode (after (deliver s) w)) = el_attachment (domNode w)
   ∧ _hasFocus (this (after (deliver s) w)) = false)
  ∧ ∀ reason,
      el_attachment (domNode (after (writeScreenReaderContent reason) w))
      = el_attachment (domNode w)
      ∧ _hasFocus (this (after (writeScreenReaderContent reason) w)) = false.
Proof.
  intros Hs Hw. split.
  - assert (keeps_while unfocused attachment (deliver s)) as H.
    { destruct s; try congruence; repeat unfocused_step. }
    destruct (H w Hw) as [H1 H2]. by split.
  - intros reason.
    assert (keeps_while unfocused attachment (writeScreenReaderContent reason)) as H
      by repeat unfocused_step.
    destruct (H w Hw) as [H1 H2]. by split.
Qed.

End Unfocused.

Section Paste2.

Context {browser : Browser} {_host : ITextAreaInputHost} {ops : TextAreaStateOps}.

Lemma on_paste_no_api_collapsed (e : ClipboardEvent) (w : World) :
  no_clipboard_api e w →
  el_selectionStart (domNode w) = el_selectionEnd (domNode w) →
  on_paste e w =
    (Normal e,
     upd_this (set_nextCommand Paste)
       (upd_this (upd_textArea (set_ignoreSelectionChangeTime (now w))) w), []).
Proof.
  intros Hapi Hsel. rewrite on_paste_no_api_continues by done.
  destruct w as [[[el ign] armed st hf comp nc prev] t legacy force].
  unfold getSelectionStart, getSelectionEnd, domNode in *. js_bind_unfold. cbn in *.
  rewrite Hsel, Z.eqb_refl. reflexivity.
Qed.

(** The paste listener where it does not reset the textarea.  With a
    clipboard API the platform's own paste is prevented and the plain text
    of the clipboard is fired at once as one paste event (nothing if it is
    empty); nothing is left pending.  Without an API and with a collapsed
    selection the event is left alone, nothing is fired and the pending
    command becomes [Paste].  In both cases snapshot and textarea stay as
    they are. *)
Theorem paste_without_reset (e : ClipboardEvent) (w : World) :
  let w' := after (on_paste e) w in
  (¬ no_clipboard_api e w →
     result (on_paste e) w = Normal (preventDefault e)
     ∧ fired (on_paste e) w
       = (if JsString.eqb (clipboard_text e w) [] then [] else [onPaste (clipboard_text e w)])
     ∧ _nextCommand (this w') = _nextCommand (this w)
     ∧ snapshot w' = snapshot w ∧ domNode w' = domNode w)
  ∧ (no_clipboard_api e w →
     el_selectionStart (domNode w) = el_selectionEnd (domNode w) →
     result (on_paste e) w = Normal e
     ∧ fired (on_paste e) w = []
     ∧ _nextCommand (this w') = Paste
     ∧ snapshot w' = snapshot w ∧ domNode w' = domNode w).
Proof.
  cbv zeta. split.
  - intros Hapi. unfold result, fired, trace, after. rewrite on_paste_with_api by done. cbn.
    destruct w as [[[? ?] ? ? ? ? ? ?] ? ? ?].
    repeat split. by destruct (JsString.eqb _ []).
  - intros Hapi Hsel. unfold result, fired, trace, after.
    rewrite on_paste_no_api_collapsed by done.
    by destruct w as [[[? ?] ? ? ? ? ? ?] ? ? ?].
Qed.

End Paste2.

Section Resync.

Context {browser : Browser} {_host : ITextAreaInputHost} {ops : TextAreaStateOps}.

(** The resync the host asks for: during a composition it does nothing,
    not even ask the host.  Otherwise it asks the host once, for the content
    that follows the current snapshot, fires nothing, makes the answer the
    snapshot (with the selection collapsed when the engine has no focus) and
    puts its value into the textarea; the flags of the engine stay. *)
Theorem resync_shows_the_host_content (reason : string) (w : World) :
  let w' := after (writeScreenReaderContent reason) w in
  let content := getScreenReaderContent (snapshot w) in
  (_isDoingComposition (this w) = true →
     writeScreenReaderContent reason w = (Normal (), w, []))
  ∧ (_isDoingComposition (this w) = false →
     result (writeScreenReaderContent reason) w = Normal ()
     ∧ trace (writeScreenReaderContent reason) w
       = [Ask (getScreenReaderContent_call (snapshot w))]
     ∧ snapshot w' = (if _hasFocus (this w) then content else collapseSelection content)
     ∧ el_value (domNode w') = value content
     ∧ _hasFocus (this w') = _hasFocus (this w)
     ∧ _isDoingComposition (this w') = false
     ∧ _nextCommand (this w') = _nextCommand (this w)).
Proof.
  cbv zeta. split; intros Hcomp.
  - rewrite writeScreenReaderContent_eq. by rewrite Hcomp.
  - pose proof (setAndWriteTextAreaState_effect reason (getScreenReaderContent (snapshot w)) w)
      as (Hr & Ht & Hs & Hv & Hf & Hc & Hn).
    unfold result, trace, after in *. cbv zeta in *.
    rewrite writeScreenReaderContent_eq, Hcomp.
    destruct (_setAndWriteTextAreaState _ _ _) as [[r w1] t1]. cbn in *. subst r t1.
    rewrite Hv, Hs, Hc, Hcomp.
    repeat split; try done. by destruct (_hasFocus (this w)).
Qed.

(** A freshly constructed engine: the host was asked once, for the
    content that follows the empty snapshot; nothing was fired; the textarea
    shows that content and the snapshot is the content with its selection
    collapsed; the engine is without focus, not composing, with pending
    command [Type_] and no cut scheduled, and the textarea was not focused. *)
Theorem constructor_shows_the_host_content (p : Platform) :
  let w := constructed p in
  let content := getScreenReaderContent EMPTY in
  trace (writeScreenReaderContent "ctor") (fresh p) = [Ask (getScreenReaderContent_call EMPTY)]
  ∧ snapshot w = collapseSelection content
  ∧ el_value (domNode w) = value content
  ∧ el_attachment (domNode w) = el_attachment (p_node p)
  ∧ _hasFocus (this w) = false
  ∧ _isDoingComposition (this w) = false
  ∧ _nextCommand (this w) = Type_
  ∧ _asyncTriggerCut (this w) = false
  ∧ previousTime w = 0.
Proof.
  cbv zeta. unfold constructed.
  pose proof (setAndWriteTextAreaState_effect "ctor" (getScreenReaderContent EMPTY) (fresh p))
    as (Hr & Ht & Hs & Hv & Hf & Hc & Hn).
  assert (keeps_while unfocused attachment
            (_setAndWriteTextAreaState "ctor" (getScreenReaderContent EMPTY))) as Hatt
    by apply setAndWrite_unfocused.
  destruct (Hatt (fresh p) eq_refl) as [_ Hatt'].
  assert (keeps (λ w, _asyncTriggerCut (this w))
            (_setAndWriteTextAreaState "ctor" (getScreenReaderContent EMPTY))) as Harm
    by keeps_tac.
  assert (keeps previousTime
            (_setAndWriteTextAreaState "ctor" (getScreenReaderContent EMPTY))) as Hprev
    by (unfold previousTime; keeps_tac).
  specialize (Harm (fresh p)). specialize (Hprev (fresh p)).
  unfold attachment, result, trace, after in *. cbv zeta in *.
  rewrite writeScreenReaderContent_eq. cbn [fresh this _isDoingComposition].
  change (snapshot (fresh p)) with EMPTY.
  destruct (_setAndWriteTextAreaState _ _ _) as [[r w1] t1]. cbn in *. subst r t1.
  repeat split; try done.
Qed.

End Resync.

Section Timestamps.

Context {browser : Browser} {_host : ITextAreaInputHost} {ops : TextAreaStateOps}.

Lemma marking_keeps_timestamps_in_the_past t reason :
  preserves (λ w, now w = t ∧ timestamps_in_the_past w) (setIgnoreSelectionChangeTime reason).
Proof.
  intros [[[? ?] ? ? ? ? ? ?] ? ? ?]. unfold timestamps_in_the_past, ignoreTime, previousTime.
  js_run. lia.
Qed.

Lemma listeners_keep_timestamps_in_the_past (s : Signal) (w : World) :
  timestamps_in_the_past w →
  timestamps_in_the_past (after (deliver s) w) ∧ now (after (deliver s) w) = now w.
Proof.
  intros Hw.
  assert (now (after (deliver s) w) = now w) as Hnow.
  { assert (keeps now (deliver s)) as H.
    { destruct s; keeps_tac; try (unfold on_selectionchange; keeps_tac). }
    exact (H w). }
  split; [|exact Hnow].
  destruct s.
  13: { change (deliver selectionchange) with on_selectionchange in *.
        unfold timestamps_in_the_past in *.
        rewrite Hnow, on_selectionchange_previous, on_selectionchange_ignoreTime.
        destruct (reaches_ignoreTime w), (reaches_clock w); lia. }
  all: match goal with
       | |- timestamps_in_the_past (after (deliver ?s) ?w1) =>
           assert (preserves (λ w0, now w0 = now w1 ∧ timestamps_in_the_past w0) (deliver s))
             as Hp;
           [ repeat first
               [ apply marking_keeps_timestamps_in_the_past
               | preserves_with ltac:(unfold timestamps_in_the_past, ignoreTime,
                                        previousTime in *; cbn in *; done) ]
           | exact (proj2 (Hp w1 (conj eq_refl Hw))) ]
       end.
Qed.

(** Neither timestamp of the engine ever lies in the future: when the
    clock readings of a run do not decrease, the adapter's timestamp and the
    time of the previous selection-change signal stay between 0 and the
    clock, so both windows of the selectionchange listener measure an
    elapsed time that is not negative.  A freshly constructed engine starts
    this way. *)
Theorem timestamps_never_in_the_future (steps : list (Platform * Signal)) (w : World) :
  timestamps_in_the_past w →
  clock_advances (now w) steps →
  timestamps_in_the_past (run steps w)
  ∧ (∀ p, 0 ≤ p_now p → timestamps_in_the_past (constructed p)).
Proof.
  intros Hw Hclock. split.
  - revert w Hw Hclock. induction steps as [|[p s] rest IH]; intros w Hw Hclock; [done|].
    cbn [run]. destruct Hclock as [Hle Hrest].
    assert (timestamps_in_the_past (arrive p w)) as Harr.
    { unfold timestamps_in_the_past in *. rewrite arrive_ignoreTime, arrive_previousTime.
      cbn [now arrive]. lia. }
    destruct (listeners_keep_timestamps_in_the_past s (arrive p w) Harr) as [Hafter Hnow].
    apply IH; [done|]. by rewrite Hnow.
  - intros p Hp. unfold constructed.
    assert (preserves (λ w0, now w0 = p_now p ∧ timestamps_in_the_past w0)
              (writeScreenReaderContent "ctor")) as Hpres.
    { repeat first
        [ apply marking_keeps_timestamps_in_the_past
        | preserves_with ltac:(unfold timestamps_in_the_past, ignoreTime,
                                 previousTime in *; cbn in *; done) ]. }
    apply Hpres. split; [done|].
    unfold timestamps_in_the_past, ignoreTime, previousTime. cbn. lia.
Qed.

End Timestamps.

Section Input2.

Context {browser : Browser} {_host : ITextAreaInputHost} {ops : TextAreaStateOps}.

(** Outside composition, an input signal whose intent is not suppressed
    stores the snapshot it has read from the textarea (what
    [readFromTextArea] makes of the live value and selection), marks the
    adapter's timestamp and leaves the textarea itself, the focus flag and
    the composition flag alone. *)
Theorem input_stores_what_it_read (w : World) :
  _isDoingComposition (this w) = false →
  isLoneHighSurrogate (deduced w) = false →
  let w' := after on_input w in
  let el := domNode w in
  snapshot w'
  = readFromTextArea (snapshot w) (el_value el) (el_selectionStart el) (el_selectionEnd el)
  ∧ ignoreTime w' = now w
  ∧ domNode w' = domNode w
  ∧ _hasFocus (this w') = _hasFocus (this w)
  ∧ _isDoingComposition (this w') = false.
Proof.
  intros Hcomp Hsur. unfold after. rewrite on_input_outside_composition by done.
  cbv zeta. rewrite Hsur.
  destruct w as [[[? ?] ? ? ? ? ? ?] ? ? ?]. cbn in *. by subst.
Qed.

(** A suppressed lone high surrogate is invisible to the next input
    signal: whatever the platform has done to the textarea in between, the
    next input signal deduces its intent against the snapshot from before the
    suppressed signal and fires exactly what it would have fired had the
    suppressed signal never arrived. *)
Theorem suppressed_surrogate_is_invisible_to_the_next_input (w : World) (p : Platform) :
  _isDoingComposition (this w) = false →
  isLoneHighSurrogate (deduced w) = true →
  let w1 := arrive p (after on_input w) in
  deduced w1 = deduced (arrive p w)
  ∧ fired on_input w1 = fired on_input (arrive p w)
  ∧ snapshot (after on_input w1) = snapshot (after on_input (arrive p w))
  ∧ _nextCommand (this (after on_input w1)) = _nextCommand (this (after on_input (arrive p w))).
Proof.
  intros Hcomp Hsur. cbv zeta.
  assert (after on_input w
          = upd_this (upd_textArea (set_ignoreSelectionChangeTime (now w))) w) as ->.
  { unfold after. rewrite on_input_outside_composition by done. cbv zeta. by rewrite Hsur. }
  assert (deduced (arrive p (upd_this (upd_textArea (set_ignoreSelectionChangeTime (now w))) w))
          = deduced (arrive p w)) as Hded by reflexivity.
  split; [exact Hded|].
  unfold fired, trace, after.
  rewrite !on_input_outside_composition by (by destruct w as [[[? ?] ? ? ? ? ? ?] ? ? ?]).
  cbv zeta. rewrite Hded.
  destruct (isLoneHighSurrogate (deduced (arrive p w))); cbn; by repeat split.
Qed.

End Input2.

Section Keys.

Context {browser : Browser} {_host : ITextAreaInputHost} {ops : TextAreaStateOps}.

(** Key signals are always forwarded: a keydown signal fires exactly one
    key-down event and a keyup signal exactly one key-up event, in every
    state, also during a composition; neither changes the engine or the
    textarea.  The key-down event is the signal's event with two marks
    added at most, and never removed: propagation is stopped when the engine
    is composing and the key is the one the IME is processing, and the
    default is prevented when the key is Escape. *)
Theorem key_signals_are_always_forwarded (e : IKeyboardEvent) (w : World) :
  let in_composition :=
    _isDoingComposition (this w)
    && match keyCode e with KEY_IN_COMPOSITION => true | _ => false end in
  let e' := mkKeyboardEvent (keyCode e) (hasModifier e)
              (key_propagationStopped e || in_composition)
              (key_defaultPrevented e || equals_Escape e) in
  on_keydown e w = (Normal e', w, [Fire (onKeyDown e')])
  ∧ deliver (keydown e) w = (Normal (), w, [Fire (onKeyDown e')])
  ∧ deliver (keyup e) w = (Normal (), w, [Fire (onKeyUp e)]).
Proof.
  cbv zeta.
  assert (on_keydown e w
          = (Normal (mkKeyboardEvent (keyCode e) (hasModifier e)
                       (key_propagationStopped e
                        || (_isDoingComposition (this w)
                            && match keyCode e with KEY_IN_COMPOSITION => true | _ => false end))
                       (key_defaultPrevented e || equals_Escape e)),
             w,
             [Fire (onKeyDown (mkKeyboardEvent (keyCode e) (hasModifier e)
                       (key_propagationStopped e
                        || (_isDoingComposition (this w)
                            && match keyCode e with KEY_IN_COMPOSITION => true | _ => false end))
                       (key_defaultPrevented e || equals_Escape e)))])) as Hdown.
  { unfold on_keydown, equals_Escape. js_run.
    destruct e as [k m ps dp], (_isDoingComposition (this w)), k, m, ps, dp; reflexivity. }
  split; [exact Hdown|]. split.
  - unfold deliver. js_bind_unfold. rewrite Hdown. reflexivity.
  - unfold deliver, on_keyup. js_run. reflexivity.
Qed.

End Keys.

(** ** The further properties on explicit inputs *)

Section OnChromeMore.

#[local] Existing Instance chromeOnWindows.
#[local] Existing Instance helloHost.
#[local] Existing Instance spec_ops.

Lemma signals_fire_their_own_events_witness :
  onFocus ∈ fired (deliver focus) world_unfocused ∧ may_fire focus onFocus.
Proof.
  assert (onFocus ∈ fired (deliver focus) world_unfocused) as Hin.
  { change (onFocus ∈ [onFocus]). by apply list_elem_of_singleton. }
  split; [exact Hin|].
  exact (signals_fire_their_own_events focus world_unfocused onFocus Hin).
Defined.

Lemma composition_flag_changes_only_on_composition_signals_witness :
  input ≠ compositionstart
  ∧ (∀ e, input ≠ compositionend e)
  ∧ _isDoingComposition (this (after (deliver input) world_composing)) = true.
Proof.
  assert (input ≠ compositionstart) as H1 by discriminate.
  assert (∀ e, input ≠ compositionend e) as H2 by (intros e; discriminate).
  split; [exact H1|]. split; [exact H2|].
  exact (proj1 (composition_flag_changes_only_on_composition_signals input world_composing
                  H1 H2)).
Defined.

Lemma pending_command_changes_only_on_paste_and_input_witness :
  keyup key_a ≠ input
  ∧ (∀ e, keyup key_a ≠ paste e)
  ∧ _nextCommand (this (after (deliver (keyup key_a))
                          (after (on_paste event_without_data) world_focused))) = Paste.
Proof.
  assert (keyup key_a ≠ input) as H1 by discriminate.
  assert (∀ e, keyup key_a ≠ paste e) as H2 by (intros e; discriminate).
  split; [exact H1|]. split; [exact H2|].
  exact (proj1 (pending_command_changes_only_on_paste_and_input (keyup key_a)
                  (after (on_paste event_without_data) world_focused) H1 H2)).
Defined.

Lemma focus_flag_changes_only_on_focus_and_blur_witness :
  input ≠ focus ∧ input ≠ blur
  ∧ _hasFocus (this (after (deliver input) world_focused)) = true.
Proof.
  assert (input ≠ focus) as H1 by discriminate.
  assert (input ≠ blur) as H2 by discriminate.
  split; [exact H1|]. split; [exact H2|].
  exact (proj1 (focus_flag_changes_only_on_focus_and_blur input world_focused H1 H2)).
Defined.

(** Two cut signals and a key-up, then the timer twice. *)
Lemma cut_event_is_deferred_and_fired_once_witness :
  Forall (λ x : Platform * Signal, x.2 ≠ asyncTriggerCut)
    [(caret_moved 1001, cut event_with_empty_data); (caret_moved 1002, keyup key_a)]
  ∧ fired on_asyncTriggerCut
      (arrive (caret_moved 1003)
         (run [(caret_moved 1001, cut event_with_empty_data); (caret_moved 1002, keyup key_a)]
            (after (on_cut event_with_empty_data) world_focused))) = [onCut].
Proof.
  assert (Forall (λ x : Platform * Signal, x.2 ≠ asyncTriggerCut)
            [(caret_moved 1001, cut event_with_empty_data); (caret_moved 1002, keyup key_a)])
    as Hsteps.
  { repeat constructor; discriminate. }
  split; [exact Hsteps|].
  exact (proj1 (proj2 (cut_event_is_deferred_and_fired_once event_with_empty_data
                         world_focused _ (caret_moved 1003) (caret_moved 1004) Hsteps))).
Defined.

Lemma clipboard_write_then_read_witness :
  ¬ no_clipboard_api event_with_empty_data world_focused
  ∧ ∃ e', result (ClipboardEventUtils.setTextData event_with_empty_data
                    (JsString.lit "hello") None) world_focused = Normal e'
          ∧ result (ClipboardEventUtils.getTextData e') world_focused
            = Normal (e', JsString.lit "hello").
Proof.
  assert (¬ no_clipboard_api event_with_empty_data world_focused) as Hapi.
  { intros [H _]. discriminate H. }
  split; [exact Hapi|].
  destruct (clipboard_write_then_read event_with_empty_data (JsString.lit "hello") None
              world_focused Hapi) as (e' & He' & _ & Hread).
  exists e'. split; [exact He'|].
  unfold result. change world_focused with
    (after (ClipboardEventUtils.setTextData event_with_empty_data (JsString.lit "hello") None)
       world_focused) at 1.
  by rewrite Hread.
Defined.

Lemma staging_without_api_selects_the_text_witness :
  no_clipboard_api event_without_data world_focused
  ∧ el_value (domNode (after (_ensureClipboardGetsEditorSelection event_without_data)
                         world_focused)) = JsString.lit "hello"
  ∧ el_selectionEnd (domNode (after (_ensureClipboardGetsEditorSelection event_without_data)
                                world_focused)) = 5.
Proof.
  assert (no_clipboard_api event_without_data world_focused) as Hapi by (split; reflexivity).
  destruct (staging_without_api_selects_the_text event_without_data world_focused Hapi)
    as (_ & Hv & _ & _ & Hsel).
  split; [exact Hapi|]. split; [exact Hv|].
  destruct (Hsel eq_refl) as [_ Hcaret].
  apply Hcaret. discriminate.
Defined.

Lemma copy_then_paste_witness :
  ¬ no_clipboard_api event_with_empty_data world_focused
  ∧ result (on_copy event_with_empty_data) world_focused
    = Normal (preventDefault event_with_hello)
  ∧ fired (on_paste event_with_hello) world_focused = [onPaste (JsString.lit "hello")].
Proof.
  assert (¬ no_clipboard_api event_with_empty_data world_focused) as Hapi.
  { intros [H _]. discriminate H. }
  assert (result (on_copy event_with_empty_data) world_focused
          = Normal (preventDefault event_with_hello)) as Hcopy by reflexivity.
  split; [exact Hapi|]. split; [exact Hcopy|].
  refine (copy_then_paste event_with_empty_data event_with_hello world_focused world_focused
            Hapi _ _).
  - exists (preventDefault event_with_hello). split; [exact Hcopy|reflexivity].
  - reflexivity.
Defined.

Lemma compositionend_leaves_composition_witness :
  _isDoingComposition (this world_composing) = true
  ∧ fired (on_compositionend composition_x) world_composing
    = [onType (mkTypeData (JsString.lit "x") 0); onCompositionEnd]
  ∧ _isDoingComposition (this (after (on_compositionend composition_x) world_composing))
    = false.
Proof.
  destruct (compositionend_leaves_composition composition_x world_composing eq_refl)
    as (Hf & Hc & _).
  split; [reflexivity|]. split; [exact Hf|exact Hc].
Defined.

Lemma input_during_composition_witness :
  _isDoingComposition (this world_composing) = true
  ∧ fired on_input world_composing = []
  ∧ snapshot (after on_input world_composing) = EMPTY.
Proof.
  destruct (input_during_composition world_composing eq_refl) as (_ & _ & _ & _ & H & _).
  destruct (H eq_refl) as [Hf Hs].
  split; [reflexivity|]. split; [exact Hf|exact Hs].
Defined.

Lemma touching_signals_mute_selectionchange_witness :
  (input = input ∨ (∃ e, input = cut e) ∨ (∃ e, input = paste e))
  ∧ Forall (λ x, x.2 ≠ selectionchange) [key_released]
  ∧ clock_advances (now world_focused) [key_released]
  ∧ p_now (caret_moved 1050) - now world_focused < 100
  ∧ ignoreTime (after (deliver input) world_focused) = 1000
  ∧ fired on_selectionchange
      (arrive (caret_moved 1050) (run [key_released] (after (deliver input) world_focused)))
    = [].
Proof.
  assert (input = input ∨ (∃ e, input = cut e) ∨ (∃ e, input = paste e)) as Hs
    by (left; reflexivity).
  assert (Forall (λ x, x.2 ≠ selectionchange) [key_released]) as Hb
    by (repeat constructor; discriminate).
  assert (clock_advances (now world_focused) [key_released]) as Hk by (cbn; lia).
  assert (p_now (caret_moved 1050) - now world_focused < 100) as Hc by (cbn; lia).
  split; [exact Hs|]. split; [exact Hb|]. split; [exact Hk|]. split; [exact Hc|].
  exact (touching_signals_mute_selectionchange input world_focused [key_released]
           (caret_moved 1050) Hs Hb Hk Hc).
Defined.

(** Composition-start empties the textarea, and marks it. *)
Lemma every_write_is_marked_witness :
  domNode (after (deliver compositionstart) world_focused) ≠ domNode world_focused
  ∧ Forall (λ x, x.2 ≠ selectionchange) [key_released]
  ∧ clock_advances (now world_focused) [key_released]
  ∧ p_now (caret_moved 1050) - now world_focused < 100
  ∧ ignoreTime (after (deliver compositionstart) world_focused) = 1000
  ∧ fired on_selectionchange
      (arrive (caret_moved 1050)
         (run [key_released] (after (deliver compositionstart) world_focused)))
    = [].
Proof.
  assert (domNode (after (deliver compositionstart) world_focused) ≠ domNode world_focused)
    as Hchanged.
  { intros H. apply (f_equal el_value) in H. vm_compute in H. discriminate H. }
  assert (Forall (λ x, x.2 ≠ selectionchange) [key_released]) as Hb
    by (repeat constructor; discriminate).
  assert (clock_advances (now world_focused) [key_released]) as Hk by (cbn; lia).
  assert (p_now (caret_moved 1050) - now world_focused < 100) as Hc by (cbn; lia).
  destruct (every_write_is_marked compositionstart world_focused [key_released]
              (caret_moved 1050) Hchanged) as [Hmark Hmute].
  split; [exact Hchanged|]. split; [exact Hb|]. split; [exact Hk|]. split; [exact Hc|].
  split; [exact Hmark|exact (Hmute Hb Hk Hc)].
Defined.

Lemma unchanged_content_is_not_rewritten_witness :
  value hello_selected = el_value (domNode world_unfocused)
  ∧ _hasFocus (this world_unfocused) = false
  ∧ domNode (after (_setAndWriteTextAreaState "resync" hello_selected) world_unfocused)
    = domNode world_unfocused
  ∧ ignoreTime (after (_setAndWriteTextAreaState "resync" hello_selected) world_unfocused)
    = 900.
Proof.
  destruct (unchanged_content_is_not_rewritten "resync" hello_selected world_unfocused
              eq_refl (or_introl eq_refl)) as (Hd & Hi & _).
  split; [reflexivity|]. split; [reflexivity|]. split; [exact Hd|exact Hi].
Defined.

Lemma selection_write_off_dom_is_swallowed_witness :
  el_attachment (domNode world_detached) = OffDOM
  ∧ result (setSelectionRange "select" 1 3) world_detached = Normal ()
  ∧ ignoreTime (after (setSelectionRange "select" 1 3) world_detached) = 1000
  ∧ el_attachment (domNode (after (setSelectionRange "select" 1 3) world_detached)) = OffDOM
  ∧ el_selectionStart (domNode (after (setSelectionRange "select" 1 3) world_detached)) = 1
  ∧ el_selectionEnd (domNode (after (setSelectionRange "select" 1 3) world_detached)) = 3.
Proof.
  assert (0 ≤ 1 ≤ 3 ≤ JsString.length (el_value (domNode world_detached))) as Hrange
    by (change (0 ≤ 1 ≤ 3 ≤ 5); lia).
  destruct (selection_write_off_dom_is_swallowed "select" 1 3 world_detached eq_refl)
    as (Hr & _ & Hi & _ & Ha & _ & Hsel).
  destruct (Hsel eq_refl Hrange) as [Hs He].
  split; [reflexivity|]. split; [exact Hr|]. split; [exact Hi|]. split; [exact Ha|].
  split; [exact Hs|exact He].
Defined.

Lemma selection_write_selects_and_focuses_witness :
  _hasFocus (this world_taking_focus) = true
  ∧ el_attachment (domNode world_taking_focus) ≠ OffDOM
  ∧ 0 ≤ 1 ≤ 3 ≤ JsString.length (el_value (domNode world_taking_focus))
  ∧ el_selectionStart (domNode (after (setSelectionRange "select" 1 3) world_taking_focus)) = 1
  ∧ el_selectionEnd (domNode (after (setSelectionRange "select" 1 3) world_taking_focus)) = 3
  ∧ isActive (domNode (after (setSelectionRange "select" 1 3) world_taking_focus)) = true.
Proof.
  assert (el_attachment (domNode world_taking_focus) ≠ OffDOM) as Hatt by discriminate.
  assert (0 ≤ 1 ≤ 3 ≤ JsString.length (el_value (domNode world_taking_focus))) as Hrange
    by (change (0 ≤ 1 ≤ 3 ≤ 5); lia).
  destruct (selection_write_selects_and_focuses "select" 1 3 world_taking_focus
              eq_refl Hatt Hrange) as (_ & Hs & He & Ha & _).
  split; [reflexivity|]. split; [exact Hatt|]. split; [exact Hrange|].
  split; [exact Hs|]. split; [exact He|exact Ha].
Defined.

(** A paste without clipboard API empties the textarea of the unfocused
    engine, and does not focus it. *)
Lemma without_focus_the_textarea_is_never_focused_witness :
  paste event_without_data ≠ focus
  ∧ _hasFocus (this world_unfocused) = false
  ∧ el_value (domNode (after (deliver (paste event_without_data)) world_unfocused)) = []
  ∧ el_attachment (domNode (after (deliver (paste event_without_data)) world_unfocused))
    = InDOM false.
Proof.
  assert (paste event_without_data ≠ focus) as Hs by discriminate.
  destruct (without_focus_the_textarea_is_never_focused (paste event_without_data)
              world_unfocused Hs eq_refl) as [[Hatt _] _].
  split; [exact Hs|]. split; [reflexivity|]. split; [reflexivity|exact Hatt].
Defined.

Lemma timestamps_never_in_the_future_witness :
  timestamps_in_the_past world_focused
  ∧ clock_advances (now world_focused) [(caret_moved 1001, input); (caret_moved 1200, selectionchange)]
  ∧ timestamps_in_the_past
      (run [(caret_moved 1001, input); (caret_moved 1200, selectionchange)] world_focused).
Proof.
  assert (timestamps_in_the_past world_focused) as Hw.
  { unfold timestamps_in_the_past. cbn. lia. }
  assert (clock_advances (now world_focused)
            [(caret_moved 1001, input); (caret_moved 1200, selectionchange)]) as Hc.
  { cbn. lia. }
  split; [exact Hw|]. split; [exact Hc|].
  exact (proj1 (timestamps_never_in_the_future _ world_focused Hw Hc)).
Defined.

Lemma input_stores_what_it_read_witness :
  _isDoingComposition (this (world_typed (JsString.lit "a"))) = false
  ∧ isLoneHighSurrogate (deduced (world_typed (JsString.lit "a"))) = false
  ∧ snapshot (after on_input (world_typed (JsString.lit "a")))
    = mkTextAreaState (JsString.lit "a") 1 1 None None.
Proof.
  split; [reflexivity|]. split; [reflexivity|].
  exact (proj1 (input_stores_what_it_read (world_typed (JsString.lit "a")) eq_refl eq_refl)).
Defined.

(** An emoji that arrives in two halves is typed once, as a whole. *)
Lemma suppressed_surrogate_is_invisible_to_the_next_input_witness :
  _isDoingComposition (this (world_typed half_emoji)) = false
  ∧ isLoneHighSurrogate (deduced (world_typed half_emoji)) = true
  ∧ fired on_input (world_typed half_emoji) = []
  ∧ fired on_input (arrive (typed full_emoji) (after on_input (world_typed half_emoji)))
    = [onType (mkTypeData full_emoji 0)].
Proof.
  assert (isLoneHighSurrogate (deduced (world_typed half_emoji)) = true) as Hsur
    by reflexivity.
  destruct (suppressed_surrogate_is_invisible_to_the_next_input (world_typed half_emoji)
              (typed full_emoji) eq_refl Hsur) as (_ & Hfired & _).
  split; [reflexivity|]. split; [exact Hsur|]. split; [reflexivity|].
  rewrite Hfired. reflexivity.
Defined.

End OnChromeMore.

Section OnEdgeMore.

#[local] Existing Instance edgeOnWindows.
#[local] Existing Instance helloHost.
#[local] Existing Instance spec_ops.

(** On a platform that throws, the selection write on the off-DOM
    textarea leaves the textarea as it was, marked. *)
Lemma selection_write_off_dom_on_edge :
  result (setSelectionRange "select" 1 3) world_detached = Normal ()
  ∧ domNode (after (setSelectionRange "select" 1 3) world_detached) = domNode world_detached
  ∧ ignoreTime (after (setSelectionRange "select" 1 3) world_detached) = 1000.
Proof. split; [reflexivity|]. split; reflexivity. Qed.

(** With only the legacy clipboard, the staging leaves the plain text
    there, under Text, and the event without data. *)
Lemma staging_on_the_legacy_clipboard :
  _ensureClipboardGetsEditorSelection event_without_data world_legacy
  = (Normal (mkClipboardEvent None true),
     set_window_clipboardData (Some (<["Text" := JsString.lit "hello"]> ∅)) world_legacy,
     [Ask getPlainTextToCopy_call]).
Proof. reflexivity. Qed.

End OnEdgeMore.
